(** * ObservingDescriptionLanguage: targets and MOSFIRE configurations

    A shallow embedding of [target.py], [keckODL/instrument_config.py] and
    [keckODL/mosfire.py].

    Conventions of the embedding:
    - a Python [str] of ASCII characters is the [string] of its characters.
      [lower], [\w], [\d] and [int] are those of Python on such strings; a
      [string] with a byte above 127 stands for no [str], and a property
      that depends on how they treat other characters assumes
      [Py.is_ascii];
    - a position angle is a [Py.number]: an [int], or a [float] that is
      finite, infinite or NaN, because the code compares and formats it and
      the two types and NaN behave differently there;
    - the other numbers ([int] or finite [float]) are rationals [Q]: every
      finite double and every integer is one, and the code only compares
      them with zero, negates them and passes them on;
    - [None] is the [None] of an [option];
    - a raised exception is the [Raise] of a [res];
    - objects that are copied and then mutated (instrument configurations)
      live in a store and are named by their address. *)

From Stdlib Require Import ZArith QArith Qabs Lia Ascii String List DecimalString.
From stdpp Require Import base list strings.

Local Open Scope Z_scope.

(** ** Exceptions and results *)

Inductive exn : Type :=
| AttributeError (msg : string)
| NameError (msg : string)
| ValueError (msg : string)
| TypeError (msg : string)
| OverflowError (msg : string)
| TargetError (msg : string)
| DetectorConfigError (msg : string)
| LibraryError (msg : string).

Inductive res (A : Type) : Type :=
| Ok (a : A)
| Raise (e : exn).

Arguments Ok {A} a.
Arguments Raise {A} e.

Definition res_bind {A B : Type} (r : res A) (k : A -> res B) : res B :=
  match r with
  | Ok a => k a
  | Raise e => Raise e
  end.

(** ** Python string helpers *)

Module Py.

(** The double-quote character, which the messages of the source contain. *)
Definition dq : string := String (ascii_of_nat 34) EmptyString.

Definition is_upper (c : ascii) : bool :=
  let n := nat_of_ascii c in (65 <=? n)%nat && (n <=? 90)%nat.
Definition is_lower (c : ascii) : bool :=
  let n := nat_of_ascii c in (97 <=? n)%nat && (n <=? 122)%nat.
Definition is_digit (c : ascii) : bool :=
  let n := nat_of_ascii c in (48 <=? n)%nat && (n <=? 57)%nat.

Definition lower_char (c : ascii) : ascii :=
  if is_upper c then ascii_of_nat (nat_of_ascii c + 32) else c.

(** [s.lower()] for a [str] of ASCII characters. Python also maps
    characters outside ASCII (the Kelvin sign to [k]); a byte above 127 is
    left as it is here and stands for no character. *)
Fixpoint lower (s : string) : string :=
  match s with
  | EmptyString => EmptyString
  | String c s' => String (lower_char c) (lower s')
  end.

(** Every character of the string is an ASCII character. *)
Fixpoint is_ascii (s : string) : bool :=
  match s with
  | EmptyString => true
  | String c s' => (nat_of_ascii c <? 128)%nat && is_ascii s'
  end.

(** [x in l] for a list of strings *)
Definition str_in (x : string) (l : list string) : bool :=
  existsb (String.eqb x) l.

(** [str(n)] for an [int] *)
Definition str_int (n : Z) : string :=
  NilZero.string_of_int (Z.to_int n).

(** [repr(l)] for a list of [int] *)
Fixpoint join (sep : string) (l : list string) : string :=
  match l with
  | [] => EmptyString
  | [x] => x
  | x :: l' => x +:+ sep +:+ join sep l'
  end.
Definition repr_int_list (l : list Z) : string :=
  "[" +:+ join ", " (map str_int l) +:+ "]".

(** [int(s)] on a string of ASCII digits, the only ASCII strings the
    source passes to it; the empty string (and anything else) is a
    ValueError, and so is a string of more than 4300 digits, the default of
    [sys.set_int_max_str_digits] (Python 3.11 and later). Python also
    converts the decimal digits of other scripts, which a [string] does not
    represent. *)
Definition max_str_digits : Z := 4300.
Definition too_many_digits (digits : Z) : exn :=
  ValueError ("Exceeds the limit (4300 digits) for integer string "
              +:+ "conversion: value has " +:+ str_int digits
              +:+ " digits; use sys.set_int_max_str_digits() "
              +:+ "to increase the limit").
Fixpoint digits_value (acc : Z) (s : string) : option Z :=
  match s with
  | EmptyString => Some acc
  | String c s' =>
      if is_digit c
      then digits_value (10 * acc + Z.of_nat (nat_of_ascii c - 48)) s'
      else None
  end.
Definition int (s : string) : res Z :=
  match s with
  | EmptyString =>
      Raise (ValueError "invalid literal for int() with base 10: ''")
  | _ =>
      match digits_value 0 s with
      | Some n =>
          let digits := Z.of_nat (String.length s) in
          if max_str_digits <? digits
          then Raise (too_many_digits digits)
          else Ok n
      | None =>
          Raise (ValueError ("invalid literal for int() with base 10: '"
                             +:+ s +:+ "'"))
      end
  end.

(** A number as the code may be given one: an [int], or a [float] that is
    finite, infinite or NaN. [Float x] is the double whose exact value is
    [x]: the literal [360.05] is the double nearest to it, not the rational
    7201/20. *)
Inductive number : Type :=
| Int (z : Z)
| Float (x : Q)
| Inf (negative : bool)
| NaN.

(** [x < n] and [x > n] for an [int] [n]. Python compares an [int] and a
    [float] by their exact values; every comparison with NaN is false. *)
Definition lt_int (x : number) (n : Z) : bool :=
  match x with
  | Int z => z <? n
  | Float q => negb (Qle_bool (inject_Z n) q)
  | Inf negative => negative
  | NaN => false
  end.
Definition gt_int (x : number) (n : Z) : bool :=
  match x with
  | Int z => n <? z
  | Float q => negb (Qle_bool q (inject_Z n))
  | Inf negative => negb negative
  | NaN => false
  end.

Definition round_half_even (num den : Z) : Z :=
  let n := num / den in
  let r := num mod den in
  if 2 * r <? den then n
  else if den <? 2 * r then n + 1
  else if Z.even n then n else n + 1.

(** [float(z)] for an [int]: the nearest double, ties to the even
    significand of 53 bits; an [int] that rounds to 2^1024 or more has
    none. *)
Definition float_of_int (z : Z) : res Q :=
  let a := Z.abs z in
  let bits := Z.log2 a + 1 in
  if bits <=? 53 then Ok (inject_Z z)
  else
    let ulp := 2 ^ (bits - 53) in
    let r := round_half_even a ulp * ulp in
    if 2 ^ 1024 <=? r
    then Raise (OverflowError "int too large to convert to float")
    else Ok (inject_Z (Z.sgn z * r)).

(** [format(x, '.1f')] for a finite [float]: the decimal with one digit
    after the point nearest to [x], ties to the even digit; the sign is kept
    when the digits round to zero. *)
Definition format_1f_finite (x : Q) : string :=
  let tenths := round_half_even (10 * Z.abs (Qnum x)) (Zpos (Qden x)) in
  (if Qnum x <? 0 then "-" else "")
    +:+ str_int (tenths / 10) +:+ "." +:+ str_int (tenths mod 10).

(** [format(x, '.1f')], as in [f'{x:.1f}']: an [int] is made a [float]
    first. *)
Definition format_1f (x : number) : res string :=
  match x with
  | Int z => res_bind (float_of_int z) (fun q => Ok (format_1f_finite q))
  | Float q => Ok (format_1f_finite q)
  | Inf negative => Ok (if negative then "-inf" else "inf")
  | NaN => Ok "nan"
  end.

(** [str(b)] for a [bool] *)
Definition str_bool (b : bool) : string := if b then "True" else "False".

End Py.

(** ** The fragment of Python's [re] that the two patterns of the source use

    A pattern is a sequence of one-character atoms (a literal, [.], [\w],
    [\d]), each with an optional quantifier ([?], [*], [+], all greedy), and
    of group parentheses. Matching backtracks as [re] does: a quantified atom
    first takes as many characters as it can and gives them back one by one
    while the rest of the pattern fails. The classes [\w] and [\d] are those
    of [re] on ASCII text: letters, digits and the underscore, and the ten
    digits; on other text [re] also takes the letters and digits of
    Unicode, which a [string] does not represent. *)

Module Re.

Inductive cclass : Type :=
| Lit (c : ascii)
| AnyChar
| WordChar
| DigitChar.

Inductive quant : Type := Once | Opt | Star | Plus.

Inductive item : Type :=
| Atom (c : cclass) (q : quant)
| GroupOpen
| GroupClose.

Definition regex := list item.

(** *** Reading a pattern *)

Inductive token : Type :=
| TAtom (c : cclass)
| TQuant (q : quant)
| TOpen
| TClose.

Definition token_of_char (c : ascii) : token :=
  if Ascii.eqb c "(" then TOpen
  else if Ascii.eqb c ")" then TClose
  else if Ascii.eqb c "." then TAtom AnyChar
  else if Ascii.eqb c "?" then TQuant Opt
  else if Ascii.eqb c "*" then TQuant Star
  else if Ascii.eqb c "+" then TQuant Plus
  else TAtom (Lit c).

Definition escape (c : ascii) : cclass :=
  if Ascii.eqb c "w" then WordChar
  else if Ascii.eqb c "d" then DigitChar
  else Lit c.

Fixpoint tokens (p : string) : list token :=
  match p with
  | EmptyString => []
  | String c p' =>
      if Ascii.eqb c "\"
      then match p' with
           | String e p'' => TAtom (escape e) :: tokens p''
           | EmptyString => [TAtom (Lit c)]
           end
      else token_of_char c :: tokens p'
  end.

Fixpoint items (ts : list token) : regex :=
  match ts with
  | [] => []
  | TAtom c :: TQuant q :: ts' => Atom c q :: items ts'
  | TAtom c :: ts' => Atom c Once :: items ts'
  | TQuant _ :: ts' => items ts'
  | TOpen :: ts' => GroupOpen :: items ts'
  | TClose :: ts' => GroupClose :: items ts'
  end.

Definition compile (p : string) : regex := items (tokens p).

(** *** Matching *)

Definition is_word (c : ascii) : bool :=
  Py.is_upper c || Py.is_lower c || Py.is_digit c || Ascii.eqb c "_".

Definition accepts (cl : cclass) (c : ascii) : bool :=
  match cl with
  | Lit a => Ascii.eqb a c
  | AnyChar => negb (Ascii.eqb c (ascii_of_nat 10))
  | WordChar => is_word c
  | DigitChar => Py.is_digit c
  end.

(** The groups that have been closed, by number, and the input left. *)
Definition groups := list (nat * string).

Section Quantifiers.
Context {R : Type} (cl : cclass) (k : string -> option R).

Fixpoint greedy (s : string) : option R :=
  match s with
  | String c s' =>
      if accepts cl c
      then match greedy s' with
           | Some r => Some r
           | None => k s
           end
      else k s
  | EmptyString => k s
  end.

Definition quantified (q : quant) (s : string) : option R :=
  match q, s with
  | Once, String c s' => if accepts cl c then k s' else None
  | Once, EmptyString => None
  | Opt, String c s' =>
      if accepts cl c
      then match k s' with
           | Some r => Some r
           | None => k s
           end
      else k s
  | Opt, EmptyString => k s
  | Star, _ => greedy s
  | Plus, String c s' => if accepts cl c then greedy s' else None
  | Plus, EmptyString => None
  end.
End Quantifiers.

(** The text between the input [s0] at an opening parenthesis and the
    input [s] at its closing one. *)
Definition consumed (s0 s : string) : string :=
  String.substring 0 (String.length s0 - String.length s) s0.

Fixpoint match_here (r : regex) (opened : list (nat * string)) (n : nat)
         (gs : groups) (s : string) : option (groups * string) :=
  match r with
  | [] => Some (gs, s)
  | Atom cl q :: r' =>
      quantified cl (fun s' => match_here r' opened n gs s') q s
  | GroupOpen :: r' => match_here r' ((n, s) :: opened) (S n) gs s
  | GroupClose :: r' =>
      match opened with
      | (i, s0) :: opened' =>
          match_here r' opened' n ((i, consumed s0 s) :: gs) s
      | [] => None
      end
  end.

(** [re.match(p, s)]: at the start of [s] only. *)
Definition re_match (p s : string) : option groups :=
  match match_here (compile p) [] 1%nat [] s with
  | Some (gs, _) => Some gs
  | None => None
  end.

Fixpoint search_from (r : regex) (s : string) : option groups :=
  match match_here r [] 1%nat [] s with
  | Some (gs, _) => Some gs
  | None =>
      match s with
      | String _ s' => search_from r s'
      | EmptyString => None
      end
  end.

(** [re.search(p, s)]: at the leftmost position where [p] matches. *)
Definition re_search (p s : string) : option groups :=
  search_from (compile p) s.

(** [m.group(i)]; [None] for a group that took no part in the match. *)
Fixpoint group (m : groups) (i : nat) : option string :=
  match m with
  | [] => None
  | (j, t) :: m' => if Nat.eqb i j then Some t else group m' i
  end.

End Re.


(** ** keckODL/instrument_config.py *)

Module InstrumentConfig.

(** [str(cls)] for a class [qualname] defined in the module [modname]. *)
Definition class_str (modname qualname : string) : string :=
  "<class '" +:+ modname +:+ "." +:+ qualname +:+ "'>".

Definition pattern : string :=
  "<class 'keckODL.(\w+).config.(\w+)Config'>".

(** The attributes [InstrumentConfig.__init__] sets. *)
Record attrs : Type := {
  name : string;
  package : option string;
  instrument : option string
}.

(** [InstrumentConfig.__init__(self, name)], with [cls] the text of
    [str(self.__class__)]. [re.search] gives [None] where the pattern does
    not match, and [None.group(1)] is an AttributeError. *)
Definition init (cls : string) (name : string) : res attrs :=
  match Re.re_search pattern cls with
  | None =>
      Raise (AttributeError "'NoneType' object has no attribute 'group'")
  | Some namesearch =>
      Ok {| name := name;
            package := Re.group namesearch 1;
            instrument := Re.group namesearch 2 |}
  end.

End InstrumentConfig.

(** ** keckODL/mosfire.py *)

Module MOSFIRE.

(** *** MOSFIREDetectorConfig *)

(** Modelled from the spec: [IRDetectorConfig] (keckODL/detector_config.py)
    is a detector configuration holding the exposure and readout parameters
    [exptime], [readoutmode] and [coadds] for an instrument; its
    constructor stores what it is given. *)
Record MOSFIREDetectorConfig : Type := {
  det_instrument : string;
  exptime : option Q;
  readoutmode : string;
  coadds : Z
}.

(** [MOSFIREDetectorConfig.__init__(self, exptime, readoutmode, coadds)] *)
Definition MOSFIREDetectorConfig_init (exptime : option Q)
           (readoutmode : string) (coadds : Z) : MOSFIREDetectorConfig :=
  {| det_instrument := "MOSFIRE";
     exptime := exptime;
     readoutmode := readoutmode;
     coadds := coadds |}.

(** The names bound in the module: its imports, then its own definitions.
    A name that is neither here nor a builtin is a NameError when the
    statement that uses it runs. *)
Definition module_globals : list string :=
  [ "Path"; "re"; "warn"; "yaml"; "deepcopy"; "u";
    "IRDetectorConfig"; "InstrumentConfig"; "SequenceElement"; "Sequence";
    "SkyFrame"; "InstrumentFrame"; "TelescopeOffset"; "OffsetPattern";
    "Stare"; "detector"; "slit"; "MOSFIREDetectorConfig"; "MOSFIREConfig";
    "ABBA"; "Long2pos" ].

(** [raise cls(msg)] for an exception class named [cls]. *)
Definition raise_named {A : Type} (cls : string) (mk : string -> exn)
           (msg : string) : res A :=
  if Py.str_in cls module_globals
  then Raise (mk msg)
  else Raise (NameError ("name '" +:+ cls +:+ "' is not defined")).

(** [MOSFIREDetectorConfig.validate(self)] *)
Definition detector_validate (self : MOSFIREDetectorConfig) : res unit :=
  match Re.re_match "(M?)CDS(\d*)" (readoutmode self) with
  | None =>
      raise_named "DetectorConfigError" DetectorConfigError
        ("Readout Mode " +:+ Py.dq +:+ readoutmode self +:+ Py.dq
         +:+ " is not CDS or MCDSn")
  | Some parse_readoutmode =>
      res_bind
        match Re.group parse_readoutmode 2 with
        | Some digits => Py.int digits
        | None =>
            Raise (TypeError "int() argument must be a string, not 'NoneType'")
        end
        (fun nreads =>
           if 32 <? nreads
           then raise_named "DetectorConfigError" DetectorConfigError
                  ("MCDS" +:+ Py.str_int nreads
                   +:+ " not supported (only 1-16 are supported)")
           else Ok tt)
  end.

(** *** MOSFIREConfig *)

Record MOSFIREConfig : Type := {
  name : string;
  package : option string;
  instrument : option string;
  mode : string;
  filter : string;
  mask : string;
  arclamp : option string;
  domeflatlamp : option bool
}.

Definition set_name (v : string) (o : MOSFIREConfig) : MOSFIREConfig :=
  {| name := v; package := package o; instrument := instrument o;
     mode := mode o; filter := filter o; mask := mask o;
     arclamp := arclamp o; domeflatlamp := domeflatlamp o |}.
Definition set_arclamp (v : option string) (o : MOSFIREConfig)
  : MOSFIREConfig :=
  {| name := name o; package := package o; instrument := instrument o;
     mode := mode o; filter := filter o; mask := mask o;
     arclamp := v; domeflatlamp := domeflatlamp o |}.
Definition set_domeflatlamp (v : option bool) (o : MOSFIREConfig)
  : MOSFIREConfig :=
  {| name := name o; package := package o; instrument := instrument o;
     mode := mode o; filter := filter o; mask := mask o;
     arclamp := arclamp o; domeflatlamp := v |}.

(** [f'{x}'] for the two lamp attributes *)
Definition str_arclamp (v : option string) : string :=
  match v with Some s => s | None => "None" end.
Definition str_domeflatlamp (v : option bool) : string :=
  match v with Some b => Py.str_bool b | None => "None" end.

(** The class lives in the file keckODL/mosfire.py. *)
Definition class_str : string :=
  InstrumentConfig.class_str "keckODL.mosfire" "MOSFIREConfig".

(** [MOSFIREConfig.__init__(self, mode, filter, mask)]: the attributes of
    the new object, or the exception that leaves it unbuilt. *)
Definition MOSFIREConfig_init (mode filter mask : string)
  : res MOSFIREConfig :=
  res_bind (InstrumentConfig.init class_str "GenericInstrumentConfig")
    (fun base =>
       let self :=
         {| name := InstrumentConfig.name base;
            package := InstrumentConfig.package base;
            instrument := Some "MOSFIRE";
            mode := mode; filter := filter; mask := mask;
            arclamp := None; domeflatlamp := None |} in
       let self := set_name (mask +:+ " " +:+ filter +:+ "-" +:+ mode) self in
       let self :=
         match arclamp self with
         | Some _ =>
             set_name (name self +:+ " arclamp=" +:+ str_arclamp (arclamp self))
               self
         | None => self
         end in
       let self :=
         match domeflatlamp self with
         | Some _ =>
             set_name (name self +:+ " domeflatlamp="
                       +:+ str_domeflatlamp (domeflatlamp self)) self
         | None => self
         end in
       Ok self).

(** *** The store of configuration objects

    [deepcopy] makes a new object and the assignments that follow change
    it in place, so configurations are kept in a store and named by their
    address; a new object takes the first free address. *)

Abbreviation loc := nat.
Abbreviation store := (list MOSFIREConfig).
Definition M (A : Type) : Type := store -> res (A * store).

Definition ret {A : Type} (a : A) : M A := fun h => Ok (a, h).
Definition bind {A B : Type} (m : M A) (k : A -> M B) : M B :=
  fun h => match m h with
           | Ok (a, h') => k a h'
           | Raise e => Raise e
           end.

Local Notation "x <- m ;; k" := (bind m (fun x => k))
  (at level 100, m at next level, right associativity).

Definition dangling {A : Type} : res A :=
  Raise (LibraryError "no object at this address").

(** [o.attr] *)
Definition load (l : loc) : M MOSFIREConfig :=
  fun h => match h !! l with
           | Some o => Ok (o, h)
           | None => dangling
           end.

(** [o.attr = v] *)
Definition update (l : loc) (f : MOSFIREConfig -> MOSFIREConfig) : M unit :=
  fun h => match h !! l with
           | Some o => Ok (tt, <[l := f o]> h)
           | None => dangling
           end.

(** [deepcopy(o)]: every attribute is a string, a boolean or [None], so
    the copy shares nothing with [o]. *)
Definition deepcopy (l : loc) : M loc :=
  fun h => match h !! l with
           | Some o => Ok (length h, h ++ [o])
           | None => dangling
           end.

(** [MOSFIREConfig(mode, filter, mask)] *)
Definition MOSFIREConfig_new (mode filter mask : string) : M loc :=
  fun h => match MOSFIREConfig_init mode filter mask with
           | Ok o => Ok (length h, h ++ [o])
           | Raise e => Raise e
           end.

(** [MOSFIREConfig.arcs(self, lampname)] *)
Definition arcs (self : loc) (lampname : string) : M loc :=
  arcs <- deepcopy self ;;
  _ <- update arcs (set_arclamp (Some lampname)) ;;
  o <- load arcs ;;
  _ <- update arcs
         (set_name (name o +:+ " arclamp=" +:+ str_arclamp (arclamp o))) ;;
  ret arcs.

(** [MOSFIREConfig.domeflats(self, off=False)] *)
Definition domeflats (self : loc) (off : bool) : M loc :=
  domeflats <- deepcopy self ;;
  _ <- update domeflats (set_domeflatlamp (Some (negb off))) ;;
  o <- load domeflats ;;
  _ <- update domeflats
         (set_name (name o +:+ " domeflatlamp="
                    +:+ str_domeflatlamp (domeflatlamp o))) ;;
  ret domeflats.

(** Modelled from the spec: [OffsetPattern] (keckODL/offset.py) is a named,
    ordered list of telescope offsets; [Stare] is the pattern that stays on
    the target, [ABBA] and [Long2pos] are the two patterns of mosfire.py. *)
Inductive OffsetPattern : Type :=
| Stare
| ABBA (offset : Q) (guide : bool)
| Long2pos (guide : bool).

(** Modelled from the spec: a [SequenceElement] (keckODL/sequence.py) pairs
    an offset pattern, a detector configuration, an instrument
    configuration and a repeat count; a [Sequence] is an ordered list of
    them and [append] adds one at its end. *)
Record SequenceElement : Type := {
  pattern : OffsetPattern;
  detconfig : MOSFIREDetectorConfig;
  instconfig : loc;
  repeat : Z
}.
Definition Sequence := list SequenceElement.
Definition append (s : Sequence) (e : SequenceElement) : Sequence :=
  s ++ [e].

(** The exposures a sequence asks for: the sum of its repeat counts. *)
Definition total_repeats (s : Sequence) : Z :=
  fold_right (fun e n => repeat e + n) 0 s.

(** [MOSFIREConfig.cals(self)] *)
Definition cals (self : loc) : M Sequence :=
  let mosfire_1s := MOSFIREDetectorConfig_init (Some 1%Q) "CDS" 1 in
  let mosfire_11s := MOSFIREDetectorConfig_init (Some 11%Q) "CDS" 1 in
  let cals : Sequence := [] in
  on <- domeflats self false ;;
  let cals :=
    append cals {| pattern := Stare; detconfig := mosfire_11s;
                   instconfig := on; repeat := 7 |} in
  o <- load self ;;
  if String.eqb (filter o) "K"
  then
    off <- domeflats self true ;;
    let cals :=
      append cals {| pattern := Stare; detconfig := mosfire_11s;
                     instconfig := off; repeat := 7 |} in
    ne <- arcs self "Ne" ;;
    let cals :=
      append cals {| pattern := Stare; detconfig := mosfire_1s;
                     instconfig := ne; repeat := 2 |} in
    ar <- arcs self "Ar" ;;
    let cals :=
      append cals {| pattern := Stare; detconfig := mosfire_1s;
                     instconfig := ar; repeat := 2 |} in
    ret cals
  else ret cals.

End MOSFIRE.


(** ** target.py *)

Module Target.

(** The valid values for the rotator mode, acquisition and object types. *)
Definition rotator_modes : list string :=
  ["pa"; "stationary"; "vertical"].
Definition acquisition_modes : list string :=
  ["guider: bright"; "guider: faint"; "guider: offset"; "mask align";
   "blind"].
Definition object_types : list string :=
  ["science"; "sky"; "flux standard"; "telluric standard"; "custom"].
Definition valid_PAs : list (string * list Z) :=
  [("pa", [0; 360]); ("stationary", [0; 360]); ("vertical", [0; 360])].

(** [d.get(k)] *)
Fixpoint dict_get {V : Type} (d : list (string * V)) (k : string)
  : option V :=
  match d with
  | [] => None
  | (k', v) :: d' => if String.eqb k k' then Some v else dict_get d' k
  end.

(** A warning of category [TargetWarning]. *)
Inductive warning : Type := TargetWarning (msg : string).

(** A coordinate as the caller may give it: decimal degrees or a
    sexagesimal string. *)
Inductive coordval : Type :=
| Num (q : Q)
| Str (s : string).

(** An attribute that an object may lack altogether. *)
Inductive attr (A : Type) : Type :=
| Unset
| Bound (v : option A).
Arguments Unset {A}.
Arguments Bound {A} v.

(** The coordinate and time library (astropy), an external collaborator:
    - [Time_decimalyear y] is [Time(y, format='decimalyear', scale='utc')];
    - [Time_now n] is what [Time.now()] returns at the [n]-th reading of
      the clock;
    - [SkyCoord_parse ra dec frame] is [sc.ra.deg, sc.dec.deg] for
      [sc = SkyCoord(f'{ra} {dec}', unit=(u.hourangle, u.deg), frame=frame)];
    - [SkyCoord_from_name n] is what [from_name] gets from the library:
      [sc = SkyCoord.from_name(n)] and then [sc.ra.deg], [sc.dec.deg] and
      [sc.frame.name], or the exception of the call or of one of the three
      reads ([sc.ra] raises for a coordinate whose frame has no [ra]; the
      call as made returns icrs coordinates);
    - [SkyCoord_new ra dec frame equinox obstime pm_ra_cosdec pm_dec] is
      [SkyCoord(ra*u.deg, dec*u.deg, frame=.., equinox=.., obstime=..,
      pm_ra_cosdec=..*u.arcsec/u.yr, pm_dec=..*u.arcsec/u.yr,
      distance=1*u.kpc)];
    - [apply_space_motion sc t] is [sc.apply_space_motion(new_obstime=t)]. *)
Class Astropy : Type := {
  Time : Type;
  SkyCoord : Type;
  Time_decimalyear : Q -> Time;
  Time_now : nat -> Time;
  SkyCoord_parse : string -> string -> option string -> res (Q * Q);
  SkyCoord_from_name : string -> res (Q * Q * string);
  SkyCoord_new :
    option coordval -> option coordval -> option string ->
    Time -> Time -> Q -> Q -> res SkyCoord;
  apply_space_motion : SkyCoord -> Time -> SkyCoord
}.

Section WithAstropy.
Context `{Astropy}.

(** [obstime] is a decimal year or a [Time]. *)
Inductive obstimeval : Type :=
| ObsNum (q : Q)
| ObsTime (t : Time).

Record Target : Type := {
  name : option string;
  RA : option coordval;
  Dec : option coordval;
  equinox : attr Q;
  frame : option string;
  rotmode : option string;
  PA : option Py.number;
  RAOffset : option Q;
  DecOffset : option Q;
  objecttype : option string;
  acquisition : option string;
  PMRA : Q;
  PMDec : Q;
  epoch : option Q;
  obstime : option obstimeval;
  mag : list (string * option Q);
  comment : option string
}.

Definition set_name (v : option string) (self : Target) : Target :=
  {| name := v;
     RA := RA self;
     Dec := Dec self;
     equinox := equinox self;
     frame := frame self;
     rotmode := rotmode self;
     PA := PA self;
     RAOffset := RAOffset self;
     DecOffset := DecOffset self;
     objecttype := objecttype self;
     acquisition := acquisition self;
     PMRA := PMRA self;
     PMDec := PMDec self;
     epoch := epoch self;
     obstime := obstime self;
     mag := mag self;
     comment := comment self |}.
Definition set_RA (v : option coordval) (self : Target) : Target :=
  {| name := name self;
     RA := v;
     Dec := Dec self;
     equinox := equinox self;
     frame := frame self;
     rotmode := rotmode self;
     PA := PA self;
     RAOffset := RAOffset self;
     DecOffset := DecOffset self;
     objecttype := objecttype self;
     acquisition := acquisition self;
     PMRA := PMRA self;
     PMDec := PMDec self;
     epoch := epoch self;
     obstime := obstime self;
     mag := mag self;
     comment := comment self |}.
Definition set_Dec (v : option coordval) (self : Target) : Target :=
  {| name := name self;
     RA := RA self;
     Dec := v;
     equinox := equinox self;
     frame := frame self;
     rotmode := rotmode self;
     PA := PA self;
     RAOffset := RAOffset self;
     DecOffset := DecOffset self;
     objecttype := objecttype self;
     acquisition := acquisition self;
     PMRA := PMRA self;
     PMDec := PMDec self;
     epoch := epoch self;
     obstime := obstime self;
     mag := mag self;
     comment := comment self |}.
Definition set_equinox (v : attr Q) (self : Target) : Target :=
  {| name := name self;
     RA := RA self;
     Dec := Dec self;
     equinox := v;
     frame := frame self;
     rotmode := rotmode self;
     PA := PA self;
     RAOffset := RAOffset self;
     DecOffset := DecOffset self;
     objecttype := objecttype self;
     acquisition := acquisition self;
     PMRA := PMRA self;
     PMDec := PMDec self;
     epoch := epoch self;
     obstime := obstime self;
     mag := mag self;
     comment := comment self |}.
Definition set_frame (v : option string) (self : Target) : Target :=
  {| name := name self;
     RA := RA self;
     Dec := Dec self;
     equinox := equinox self;
     frame := v;
     rotmode := rotmode self;
     PA := PA self;
     RAOffset := RAOffset self;
     DecOffset := DecOffset self;
     objecttype := objecttype self;
     acquisition := acquisition self;
     PMRA := PMRA self;
     PMDec := PMDec self;
     epoch := epoch self;
     obstime := obstime self;
     mag := mag self;
     comment := comment self |}.
Definition set_rotmode (v : option string) (self : Target) : Target :=
  {| name := name self;
     RA := RA self;
     Dec := Dec self;
     equinox := equinox self;
     frame := frame self;
     rotmode := v;
     PA := PA self;
     RAOffset := RAOffset self;
     DecOffset := DecOffset self;
     objecttype := objecttype self;
     acquisition := acquisition self;
     PMRA := PMRA self;
     PMDec := PMDec self;
     epoch := epoch self;
     obstime := obstime self;
     mag := mag self;
     comment := comment self |}.
Definition set_PA (v : option Py.number) (self : Target) : Target :=
  {| name := name self;
     RA := RA self;
     Dec := Dec self;
     equinox := equinox self;
     frame := frame self;
     rotmode := rotmode self;
     PA := v;
     RAOffset := RAOffset self;
     DecOffset := DecOffset self;
     objecttype := objecttype self;
     acquisition := acquisition self;
     PMRA := PMRA self;
     PMDec := PMDec self;
     epoch := epoch self;
     obstime := obstime self;
     mag := mag self;
     comment := comment self |}.
Definition set_objecttype (v : option string) (self : Target) : Target :=
  {| name := name self;
     RA := RA self;
     Dec := Dec self;
     equinox := equinox self;
     frame := frame self;
     rotmode := rotmode self;
     PA := PA self;
     RAOffset := RAOffset self;
     DecOffset := DecOffset self;
     objecttype := v;
     acquisition := acquisition self;
     PMRA := PMRA self;
     PMDec := PMDec self;
     epoch := epoch self;
     obstime := obstime self;
     mag := mag self;
     comment := comment self |}.
Definition set_acquisition (v : option string) (self : Target) : Target :=
  {| name := name self;
     RA := RA self;
     Dec := Dec self;
     equinox := equinox self;
     frame := frame self;
     rotmode := rotmode self;
     PA := PA self;
     RAOffset := RAOffset self;
     DecOffset := DecOffset self;
     objecttype := objecttype self;
     acquisition := v;
     PMRA := PMRA self;
     PMDec := PMDec self;
     epoch := epoch self;
     obstime := obstime self;
     mag := mag self;
     comment := comment self |}.
Definition set_obstime (v : option obstimeval) (self : Target) : Target :=
  {| name := name self;
     RA := RA self;
     Dec := Dec self;
     equinox := equinox self;
     frame := frame self;
     rotmode := rotmode self;
     PA := PA self;
     RAOffset := RAOffset self;
     DecOffset := DecOffset self;
     objecttype := objecttype self;
     acquisition := acquisition self;
     PMRA := PMRA self;
     PMDec := PMDec self;
     epoch := epoch self;
     obstime := v;
     mag := mag self;
     comment := comment self |}.

(** The arguments of [Target.__init__]. *)
Record Args : Type := {
  arg_name : option string;
  arg_RA : option coordval;
  arg_Dec : option coordval;
  arg_equinox : option Q;
  arg_frame : option string;
  arg_rotmode : option string;
  arg_PA : option Py.number;
  arg_RAOffset : option Q;
  arg_DecOffset : option Q;
  arg_objecttype : option string;
  arg_acquisition : option string;
  arg_PMRA : Q;
  arg_PMDec : Q;
  arg_epoch : option Q;
  arg_obstime : option obstimeval;
  arg_mag : list (string * option Q);
  arg_comment : option string
}.

(** The default of [mag]. *)
Definition default_mag : list (string * option Q) :=
  map (fun band => (band, None))
    ["B"; "V"; "R"; "I"; "u"; "g"; "r"; "i"; "z"; "Y"; "J"; "H"; "K";
     "Ks"; "L"; "M"].

(** The call [Target()] with every argument at its default, and the
    calls that give one more argument. *)
Definition default_args : Args :=
  {| arg_name := None; arg_RA := None; arg_Dec := None;
     arg_equinox := None; arg_frame := Some "icrs";
     arg_rotmode := None; arg_PA := None;
     arg_RAOffset := None; arg_DecOffset := None;
     arg_objecttype := None; arg_acquisition := None;
     arg_PMRA := 0%Q; arg_PMDec := 0%Q;
     arg_epoch := None; arg_obstime := None;
     arg_mag := default_mag; arg_comment := None |}.
Definition with_name (v : option string) (a : Args) : Args :=
  {| arg_name := v;
     arg_RA := arg_RA a;
     arg_Dec := arg_Dec a;
     arg_equinox := arg_equinox a;
     arg_frame := arg_frame a;
     arg_rotmode := arg_rotmode a;
     arg_PA := arg_PA a;
     arg_RAOffset := arg_RAOffset a;
     arg_DecOffset := arg_DecOffset a;
     arg_objecttype := arg_objecttype a;
     arg_acquisition := arg_acquisition a;
     arg_PMRA := arg_PMRA a;
     arg_PMDec := arg_PMDec a;
     arg_epoch := arg_epoch a;
     arg_obstime := arg_obstime a;
     arg_mag := arg_mag a;
     arg_comment := arg_comment a |}.
Definition with_RA (v : option coordval) (a : Args) : Args :=
  {| arg_name := arg_name a;
     arg_RA := v;
     arg_Dec := arg_Dec a;
     arg_equinox := arg_equinox a;
     arg_frame := arg_frame a;
     arg_rotmode := arg_rotmode a;
     arg_PA := arg_PA a;
     arg_RAOffset := arg_RAOffset a;
     arg_DecOffset := arg_DecOffset a;
     arg_objecttype := arg_objecttype a;
     arg_acquisition := arg_acquisition a;
     arg_PMRA := arg_PMRA a;
     arg_PMDec := arg_PMDec a;
     arg_epoch := arg_epoch a;
     arg_obstime := arg_obstime a;
     arg_mag := arg_mag a;
     arg_comment := arg_comment a |}.
Definition with_Dec (v : option coordval) (a : Args) : Args :=
  {| arg_name := arg_name a;
     arg_RA := arg_RA a;
     arg_Dec := v;
     arg_equinox := arg_equinox a;
     arg_frame := arg_frame a;
     arg_rotmode := arg_rotmode a;
     arg_PA := arg_PA a;
     arg_RAOffset := arg_RAOffset a;
     arg_DecOffset := arg_DecOffset a;
     arg_objecttype := arg_objecttype a;
     arg_acquisition := arg_acquisition a;
     arg_PMRA := arg_PMRA a;
     arg_PMDec := arg_PMDec a;
     arg_epoch := arg_epoch a;
     arg_obstime := arg_obstime a;
     arg_mag := arg_mag a;
     arg_comment := arg_comment a |}.
Definition with_equinox (v : option Q) (a : Args) : Args :=
  {| arg_name := arg_name a;
     arg_RA := arg_RA a;
     arg_Dec := arg_Dec a;
     arg_equinox := v;
     arg_frame := arg_frame a;
     arg_rotmode := arg_rotmode a;
     arg_PA := arg_PA a;
     arg_RAOffset := arg_RAOffset a;
     arg_DecOffset := arg_DecOffset a;
     arg_objecttype := arg_objecttype a;
     arg_acquisition := arg_acquisition a;
     arg_PMRA := arg_PMRA a;
     arg_PMDec := arg_PMDec a;
     arg_epoch := arg_epoch a;
     arg_obstime := arg_obstime a;
     arg_mag := arg_mag a;
     arg_comment := arg_comment a |}.
Definition with_frame (v : option string) (a : Args) : Args :=
  {| arg_name := arg_name a;
     arg_RA := arg_RA a;
     arg_Dec := arg_Dec a;
     arg_equinox := arg_equinox a;
     arg_frame := v;
     arg_rotmode := arg_rotmode a;
     arg_PA := arg_PA a;
     arg_RAOffset := arg_RAOffset a;
     arg_DecOffset := arg_DecOffset a;
     arg_objecttype := arg_objecttype a;
     arg_acquisition := arg_acquisition a;
     arg_PMRA := arg_PMRA a;
     arg_PMDec := arg_PMDec a;
     arg_epoch := arg_epoch a;
     arg_obstime := arg_obstime a;
     arg_mag := arg_mag a;
     arg_comment := arg_comment a |}.
Definition with_rotmode (v : option string) (a : Args) : Args :=
  {| arg_name := arg_name a;
     arg_RA := arg_RA a;
     arg_Dec := arg_Dec a;
     arg_equinox := arg_equinox a;
     arg_frame := arg_frame a;
     arg_rotmode := v;
     arg_PA := arg_PA a;
     arg_RAOffset := arg_RAOffset a;
     arg_DecOffset := arg_DecOffset a;
     arg_objecttype := arg_objecttype a;
     arg_acquisition := arg_acquisition a;
     arg_PMRA := arg_PMRA a;
     arg_PMDec := arg_PMDec a;
     arg_epoch := arg_epoch a;
     arg_obstime := arg_obstime a;
     arg_mag := arg_mag a;
     arg_comment := arg_comment a |}.
Definition with_PA (v : option Py.number) (a : Args) : Args :=
  {| arg_name := arg_name a;
     arg_RA := arg_RA a;
     arg_Dec := arg_Dec a;
     arg_equinox := arg_equinox a;
     arg_frame := arg_frame a;
     arg_rotmode := arg_rotmode a;
     arg_PA := v;
     arg_RAOffset := arg_RAOffset a;
     arg_DecOffset := arg_DecOffset a;
     arg_objecttype := arg_objecttype a;
     arg_acquisition := arg_acquisition a;
     arg_PMRA := arg_PMRA a;
     arg_PMDec := arg_PMDec a;
     arg_epoch := arg_epoch a;
     arg_obstime := arg_obstime a;
     arg_mag := arg_mag a;
     arg_comment := arg_comment a |}.
Definition with_objecttype (v : option string) (a : Args) : Args :=
  {| arg_name := arg_name a;
     arg_RA := arg_RA a;
     arg_Dec := arg_Dec a;
     arg_equinox := arg_equinox a;
     arg_frame := arg_frame a;
     arg_rotmode := arg_rotmode a;
     arg_PA := arg_PA a;
     arg_RAOffset := arg_RAOffset a;
     arg_DecOffset := arg_DecOffset a;
     arg_objecttype := v;
     arg_acquisition := arg_acquisition a;
     arg_PMRA := arg_PMRA a;
     arg_PMDec := arg_PMDec a;
     arg_epoch := arg_epoch a;
     arg_obstime := arg_obstime a;
     arg_mag := arg_mag a;
     arg_comment := arg_comment a |}.
Definition with_acquisition (v : option string) (a : Args) : Args :=
  {| arg_name := arg_name a;
     arg_RA := arg_RA a;
     arg_Dec := arg_Dec a;
     arg_equinox := arg_equinox a;
     arg_frame := arg_frame a;
     arg_rotmode := arg_rotmode a;
     arg_PA := arg_PA a;
     arg_RAOffset := arg_RAOffset a;
     arg_DecOffset := arg_DecOffset a;
     arg_objecttype := arg_objecttype a;
     arg_acquisition := v;
     arg_PMRA := arg_PMRA a;
     arg_PMDec := arg_PMDec a;
     arg_epoch := arg_epoch a;
     arg_obstime := arg_obstime a;
     arg_mag := arg_mag a;
     arg_comment := arg_comment a |}.
Definition with_PMRA (v : Q) (a : Args) : Args :=
  {| arg_name := arg_name a;
     arg_RA := arg_RA a;
     arg_Dec := arg_Dec a;
     arg_equinox := arg_equinox a;
     arg_frame := arg_frame a;
     arg_rotmode := arg_rotmode a;
     arg_PA := arg_PA a;
     arg_RAOffset := arg_RAOffset a;
     arg_DecOffset := arg_DecOffset a;
     arg_objecttype := arg_objecttype a;
     arg_acquisition := arg_acquisition a;
     arg_PMRA := v;
     arg_PMDec := arg_PMDec a;
     arg_epoch := arg_epoch a;
     arg_obstime := arg_obstime a;
     arg_mag := arg_mag a;
     arg_comment := arg_comment a |}.
Definition with_PMDec (v : Q) (a : Args) : Args :=
  {| arg_name := arg_name a;
     arg_RA := arg_RA a;
     arg_Dec := arg_Dec a;
     arg_equinox := arg_equinox a;
     arg_frame := arg_frame a;
     arg_rotmode := arg_rotmode a;
     arg_PA := arg_PA a;
     arg_RAOffset := arg_RAOffset a;
     arg_DecOffset := arg_DecOffset a;
     arg_objecttype := arg_objecttype a;
     arg_acquisition := arg_acquisition a;
     arg_PMRA := arg_PMRA a;
     arg_PMDec := v;
     arg_epoch := arg_epoch a;
     arg_obstime := arg_obstime a;
     arg_mag := arg_mag a;
     arg_comment := arg_comment a |}.
Definition with_epoch (v : option Q) (a : Args) : Args :=
  {| arg_name := arg_name a;
     arg_RA := arg_RA a;
     arg_Dec := arg_Dec a;
     arg_equinox := arg_equinox a;
     arg_frame := arg_frame a;
     arg_rotmode := arg_rotmode a;
     arg_PA := arg_PA a;
     arg_RAOffset := arg_RAOffset a;
     arg_DecOffset := arg_DecOffset a;
     arg_objecttype := arg_objecttype a;
     arg_acquisition := arg_acquisition a;
     arg_PMRA := arg_PMRA a;
     arg_PMDec := arg_PMDec a;
     arg_epoch := v;
     arg_obstime := arg_obstime a;
     arg_mag := arg_mag a;
     arg_comment := arg_comment a |}.
Definition with_obstime (v : option obstimeval) (a : Args) : Args :=
  {| arg_name := arg_name a;
     arg_RA := arg_RA a;
     arg_Dec := arg_Dec a;
     arg_equinox := arg_equinox a;
     arg_frame := arg_frame a;
     arg_rotmode := arg_rotmode a;
     arg_PA := arg_PA a;
     arg_RAOffset := arg_RAOffset a;
     arg_DecOffset := arg_DecOffset a;
     arg_objecttype := arg_objecttype a;
     arg_acquisition := arg_acquisition a;
     arg_PMRA := arg_PMRA a;
     arg_PMDec := arg_PMDec a;
     arg_epoch := arg_epoch a;
     arg_obstime := v;
     arg_mag := arg_mag a;
     arg_comment := arg_comment a |}.

(** *** validate

    [validate] reads and assigns attributes of [self], warns and raises:
    a computation over the object and the warnings emitted so far. *)
Definition V (A : Type) : Type :=
  Target -> list warning -> res (A * Target * list warning).

Definition ret {A : Type} (a : A) : V A := fun self ws => Ok (a, self, ws).
Definition bind {A B : Type} (m : V A) (k : A -> V B) : V B :=
  fun self ws =>
    match m self ws with
    | Ok (a, self', ws') => k a self' ws'
    | Raise e => Raise e
    end.
Definition raise {A : Type} (e : exn) : V A := fun _ _ => Raise e.
Definition gets {A : Type} (f : Target -> A) : V A :=
  fun self ws => Ok (f self, self, ws).
Definition assign (f : Target -> Target) : V unit :=
  fun self ws => Ok (tt, f self, ws).
Definition warn (msg : string) : V unit :=
  fun self ws => Ok (tt, self, ws ++ [TargetWarning msg]).
Definition when (b : bool) (m : V unit) : V unit :=
  if b then m else ret tt.
(** The value of an attribute that must not be [None] where it is used. *)
Definition some {A : Type} (o : option A) (e : exn) : V A :=
  match o with
  | Some a => ret a
  | None => raise e
  end.
(** A call that returns or raises and does not touch the object. *)
Definition call {A : Type} (r : res A) : V A :=
  match r with
  | Ok a => ret a
  | Raise e => raise e
  end.

Local Notation "x <- m ;; k" := (bind m (fun x => k))
  (at level 100, m at next level, right associativity).
Local Notation "m ;;; k" := (bind m (fun _ => k))
  (at level 100, right associativity).

Definition is_None {A : Type} (o : option A) : bool :=
  match o with Some _ => false | None => true end.

Definition Qlt_bool (x y : Q) : bool := negb (Qle_bool y x).

(** [self.equinox] *)
Definition get_equinox : V (option Q) :=
  e <- gets equinox ;;
  match e with
  | Bound v => ret v
  | Unset =>
      raise (AttributeError "'Target' object has no attribute 'equinox'")
  end.

Definition no_lower : exn :=
  AttributeError "'NoneType' object has no attribute 'lower'".
Definition no_order : exn :=
  TypeError "'<' not supported between instances of 'NoneType' and 'int'".
Definition no_index : exn :=
  TypeError "'NoneType' object is not subscriptable".
Definition bad_index : exn := LibraryError "list index out of range".

(** [valid_PAs.get(self.rotmode.lower())[i]] *)
Definition valid_PA (i : nat) : V Z :=
  rm <- gets rotmode ;;
  rm <- some rm no_lower ;;
  range <- some (dict_get valid_PAs (Py.lower rm)) no_index ;;
  some (range !! i) bad_index.

(** [Target.validate(self)] *)
Definition validate : V unit :=
  n <- gets name ;;
  when (is_None n) (raise (TargetError "name is required")) ;;;
  ra <- gets RA ;;
  when (is_None ra) (raise (TargetError "RA is required")) ;;;
  dec <- gets Dec ;;
  when (is_None dec) (raise (TargetError "Dec is required")) ;;;
  eqx <- get_equinox ;;
  when (is_None eqx) (raise (TargetError "equinox is required")) ;;;

  rm <- gets rotmode ;;
  when (is_None rm)
    (assign (set_rotmode (Some "PA")) ;;;
     warn "No rotator mode given, assuming PA mode") ;;;
  rm <- gets rotmode ;;
  rm <- some rm no_lower ;;
  when (negb (Py.str_in (Py.lower rm) rotator_modes))
    (raise (TargetError ("Rotator mode " +:+ Py.dq +:+ rm +:+ Py.dq
                         +:+ " is not valid"))) ;;;
  pa <- gets PA ;;
  when (is_None pa)
    (assign (set_PA (Some (Py.Int 0))) ;;;
     warn "No PA given, assuming 0 deg") ;;;
  pa <- gets PA ;;
  pa <- some pa no_order ;;
  lo <- valid_PA 0 ;;
  out_of_range <-
    (if Py.lt_int pa lo then ret true
     else hi <- valid_PA 1 ;; ret (Py.gt_int pa hi)) ;;
  when out_of_range
    (text <- call (Py.format_1f pa) ;;
     rm <- gets rotmode ;;
     rm <- some rm no_lower ;;
     range <- some (dict_get valid_PAs (Py.lower rm)) no_index ;;
     raise (TargetError ("Rotator PA " +:+ Py.dq +:+ text
                         +:+ Py.dq +:+ " not in range "
                         +:+ Py.repr_int_list range))) ;;;

  acq <- gets acquisition ;;
  when (is_None acq)
    (assign (set_acquisition (Some "guider: bright")) ;;;
     warn ("No acquisition mode given, assuming " +:+ Py.dq
           +:+ "guider: bright" +:+ Py.dq)) ;;;
  acq <- gets acquisition ;;
  acq <- some acq no_lower ;;
  when (negb (Py.str_in (Py.lower acq) acquisition_modes))
    (raise (TargetError ("Acquisition mode " +:+ Py.dq +:+ acq
                         +:+ Py.dq +:+ " not valid"))) ;;;

  ot <- gets objecttype ;;
  when (is_None ot)
    (assign (set_objecttype (Some "science")) ;;;
     warn ("No object type given, assuming " +:+ Py.dq +:+ "science"
           +:+ Py.dq)) ;;;
  ot <- gets objecttype ;;
  ot <- some ot no_lower ;;
  when (negb (Py.str_in (Py.lower ot) object_types))
    (raise (TargetError ("Object type " +:+ Py.dq +:+ ot
                         +:+ Py.dq +:+ " is not valid"))) ;;;
  ret tt.

(** [Target.from_name(self, name)]. The three values are read after
    [self.name] is assigned; an exception there leaves the constructor with
    that exception, so the order is not observable. *)
Definition from_name (n : string) (self : Target) : res Target :=
  res_bind (SkyCoord_from_name n)
    (fun '(ra, dec, frame_name) =>
       let self := set_name (Some n) self in
       let self := set_RA (Some (Num ra)) self in
       let self := set_Dec (Some (Num dec)) self in
       let self := set_frame (Some frame_name) self in
       let self :=
         if String.eqb frame_name "icrs"
         then set_equinox (Bound (Some 2000%Q)) self
         else self in
       Ok self).

Definition frame_is (frame : option string) (s : string) : bool :=
  match frame with
  | Some f => String.eqb f s
  | None => false
  end.

(** [Target.__init__(self, ...)]: the object built and the warnings
    emitted, or the exception that leaves it unbuilt. *)
Definition init (a : Args) : res (Target * list warning) :=
  let self :=
    {| name := None; RA := None; Dec := None; equinox := Unset;
       rotmode := arg_rotmode a;
       PA := arg_PA a;
       RAOffset := arg_RAOffset a;
       DecOffset := arg_DecOffset a;
       objecttype := arg_objecttype a;
       acquisition := arg_acquisition a;
       mag := arg_mag a;
       frame := arg_frame a;
       PMRA := arg_PMRA a;
       PMDec := arg_PMDec a;
       epoch := arg_epoch a;
       obstime := arg_obstime a;
       comment := arg_comment a |} in
  res_bind
    match arg_name a, arg_RA a, arg_Dec a with
    | Some n, None, None => from_name n self
    | _, _, _ =>
        let self := set_name (arg_name a) self in
        res_bind
          match arg_RA a, arg_Dec a with
          | Some (Str ra), Some (Str dec) =>
              res_bind (SkyCoord_parse ra dec (frame self))
                (fun '(ra, dec) =>
                   Ok (set_Dec (Some (Num dec))
                         (set_RA (Some (Num ra)) self)))
          | _, _ => Ok (set_Dec (arg_Dec a) (set_RA (arg_RA a) self))
          end
          (fun self =>
             if frame_is (arg_frame a) "icrs"
             then Ok (set_equinox (Bound (Some 2000%Q)) self)
             else Ok (set_equinox (Bound (arg_equinox a)) self))
    end
    (fun self =>
       match validate self [] with
       | Ok (_, self', ws) => Ok (self', ws)
       | Raise e => Raise e
       end).

(** *** coord

    [coord] reads the clock: a computation over the number of readings
    made so far. *)
Definition now (k : nat) : Time * nat := (Time_now k, S k).

(** [Target.coord(self)]. An equinox that is [None] cannot be made a [Time]:
    the library refuses it. *)
Definition coord (self : Target) (k : nat) : res (SkyCoord * nat) :=
  match equinox self with
  | Unset =>
      Raise (AttributeError "'Target' object has no attribute 'equinox'")
  | Bound None => Raise (LibraryError "Time(None, format='decimalyear')")
  | Bound (Some eqx) =>
      let myequinox := Time_decimalyear eqx in
      let '(myepoch, k) :=
        match epoch self with
        | Some y => (Time_decimalyear y, k)
        | None => now k
        end in
      res_bind
        (SkyCoord_new (RA self) (Dec self) (frame self) myequinox myepoch
           (PMRA self) (PMDec self))
        (fun sc =>
           if Qlt_bool 0 (Qabs (PMRA self))
              && Qlt_bool 0 (Qabs (PMDec self))
           then
             let '(new_obstime, k) :=
               match obstime self with
               | None => now k
               | Some (ObsTime t) => (t, k)
               | Some (ObsNum y) => (Time_decimalyear y, k)
               end in
             Ok (apply_space_motion sc new_obstime, k)
           else Ok (sc, k))
  end.

(** *** Vocabulary of the properties *)

(** An attribute after the default has been put in for [None]. *)
Definition or_default {A : Type} (o : option A) (d : A) : option A :=
  match o with
  | Some x => Some x
  | None => Some d
  end.

(** The warning emitted for an attribute that is [None]. *)
Definition warning_if_omitted {A : Type} (o : option A) (msg : string)
  : list warning :=
  match o with
  | Some _ => []
  | None => [TargetWarning msg]
  end.

(** A value is omitted, or in the list once in lower case. *)
Definition omitted_or_in (o : option string) (l : list string) : bool :=
  match o with
  | Some x => Py.str_in (Py.lower x) l
  | None => true
  end.

(** A position angle is omitted, or neither below 0 nor above 360: a
    number from 0 to 360, or NaN. *)
Definition omitted_or_in_range (o : option Py.number) : bool :=
  match o with
  | Some p => negb (Py.lt_int p 0) && negb (Py.gt_int p 360)
  | None => true
  end.

(** A number from 0 to 360, or NaN. *)
Definition angle_or_nan (p : Py.number) : Prop :=
  match p with
  | Py.Int z => 0 <= z <= 360
  | Py.Float q => (0 <= q)%Q /\ (q <= 360)%Q
  | Py.Inf _ => False
  | Py.NaN => True
  end.

(** An attribute that [validate] compares in lower case is omitted or an
    ASCII string. *)
Definition omitted_or_ascii (o : option string) : bool :=
  match o with
  | Some x => Py.is_ascii x
  | None => true
  end.

(** The coordinates the constructor stores for the arguments [ra] and
    [dec] when it is not left to the name resolver: the parsed pair when
    both are strings, the arguments themselves otherwise. *)
Definition stored_coords (ra dec : option coordval)
           (frame : option string)
  : res (option coordval * option coordval) :=
  match ra, dec with
  | Some (Str r), Some (Str d) =>
      res_bind (SkyCoord_parse r d frame)
        (fun '(x, y) => Ok (Some (Num x), Some (Num y)))
  | _, _ => Ok (ra, dec)
  end.

(** The equinox the constructor stores. *)
Definition stored_equinox (a : Args) : option Q :=
  if frame_is (arg_frame a) "icrs" then Some 2000%Q else arg_equinox a.

End WithAstropy.

Arguments Target {H}.
Arguments Args {H}.
Arguments obstimeval {H}.

End Target.

(** ** A collaborator for the examples

    Times and coordinates as the terms that build them: enough to run the
    constructor and [coord] on concrete targets. It parses no sexagesimal
    string and resolves no name. *)

Module Terms.
Import Target.

Inductive time : Type :=
| Year (y : Q)
| Reading (n : nat).

Inductive skycoord : Type :=
| Coord (ra dec : option coordval) (frame : option string)
        (equinox obstime : time) (pm_ra_cosdec pm_dec : Q)
| Moved (sc : skycoord) (new_obstime : time).

Definition astropy : Astropy :=
  {| Time := time;
     SkyCoord := skycoord;
     Time_decimalyear := Year;
     Time_now := Reading;
     SkyCoord_parse := fun _ _ _ =>
       Raise (LibraryError "sexagesimal strings are not parsed here");
     SkyCoord_from_name := fun _ =>
       Raise (LibraryError "names are not resolved here");
     SkyCoord_new := fun ra dec frame equinox obstime pm_ra_cosdec pm_dec =>
       Ok (Coord ra dec frame equinox obstime pm_ra_cosdec pm_dec);
     apply_space_motion := Moved |}.

(** [Target(name='a', RA=10.5, Dec=-20)] *)
Definition named_args : @Args astropy :=
  with_Dec (Some (Num (-20)%Q))
    (with_RA (Some (Num (21 # 2)))
       (with_name (Some "a") default_args)).

(** A validated target of epoch 2000 observed at 2020 with the proper
    motion [pmra], [pmdec]. *)
Definition moving (pmra pmdec : Q) : @Target astropy :=
  {| name := Some "a";
     RA := Some (Num (21 # 2)); Dec := Some (Num (-20)%Q);
     equinox := Bound (Some 2000%Q); frame := Some "icrs";
     rotmode := Some "PA"; PA := Some (Py.Int 0);
     RAOffset := None; DecOffset := None;
     objecttype := Some "science"; acquisition := Some "guider: bright";
     PMRA := pmra; PMDec := pmdec;
     epoch := Some 2000%Q; obstime := Some (ObsNum 2020%Q);
     mag := default_mag; comment := None |}.

End Terms.



(** ** Shapes of strings, for the properties *)

Module Text.

(** [strip_prefix p s] is what follows [p] in [s] when [s] starts with [p]. *)
Fixpoint strip_prefix (p s : string) : option string :=
  match p, s with
  | EmptyString, _ => Some s
  | String a p', String c s' =>
      if Ascii.eqb a c then strip_prefix p' s' else None
  | String _ _, EmptyString => None
  end.

(** The longest run of ASCII digits at the start of a string, and the rest. *)
Fixpoint take_digits (s : string) : string :=
  match s with
  | String c s' =>
      if Py.is_digit c then String c (take_digits s') else EmptyString
  | EmptyString => EmptyString
  end.

Fixpoint drop_digits (s : string) : string :=
  match s with
  | String c s' => if Py.is_digit c then drop_digits s' else s
  | EmptyString => EmptyString
  end.

(** Every character is a letter, a digit or an underscore. *)
Fixpoint all_word (s : string) : bool :=
  match s with
  | String c s' => Re.is_word c && all_word s'
  | EmptyString => true
  end.

(** [w in s] for strings. *)
Fixpoint contains (w s : string) : bool :=
  match strip_prefix w s with
  | Some _ => true
  | None =>
      match s with
      | String _ s' => contains w s'
      | EmptyString => false
      end
  end.

(** What follows the mode name in a readout mode: the text after [MCDS] or
    after [CDS]. *)
Definition after_mode_name (s : string) : option string :=
  match s with
  | String c s' =>
      if Ascii.eqb c "M" then strip_prefix "CDS" s' else strip_prefix "CDS" s
  | EmptyString => None
  end.

(** The pattern that matches the text [w] and nothing else. *)
Definition literals (w : string) : Re.regex :=
  map (fun c => Re.Atom (Re.Lit c) Re.Once) (list_ascii_of_string w).

(** How many digits there are at the start of a string. *)
Definition digit_count (s : string) : Z :=
  Z.of_nat (String.length (take_digits s)).

(** The string of [n] zeros. *)
Fixpoint zeros (n : nat) : string :=
  match n with
  | O => EmptyString
  | S n' => String "0" (zeros n')
  end.

(** The number that the digits at the start of a string spell, 0 when there
    are none. *)
Definition leading_number (s : string) : Z :=
  match Py.digits_value 0 (take_digits s) with
  | Some n => n
  | None => 0
  end.

End Text.



(** ** target.py: TargetList *)

Module TargetList.
Import Target.

Section WithAstropy.
Context `{Astropy}.

(** The members of a list are [Target] objects that the list reads and
    assigns to; an object may be a member more than once. Targets are kept
    in a store and a list is the sequence of their addresses. *)
Abbreviation loc := nat.
Abbreviation store := (list Target).

Definition dangling {A : Type} : res A :=
  Raise (LibraryError "no object at this address").

(** [TargetList.validate(self)]: each member in turn, the first exception
    ends the loop. *)
Fixpoint validate (data : list loc) (h : store) (ws : list warning)
  : res (store * list warning) :=
  match data with
  | [] => Ok (h, ws)
  | t :: data' =>
      match h !! t with
      | None => dangling
      | Some o =>
          match Target.validate o ws with
          | Ok (_, o', ws') => validate data' (<[t := o']> h) ws'
          | Raise e => Raise e
          end
      end
  end.

(** The loop of [set_obstime]: [self.data[i].obstime = obstime]. *)
Fixpoint assign_obstime (obstime : Time) (data : list loc) (h : store)
  : res store :=
  match data with
  | [] => Ok h
  | t :: data' =>
      match h !! t with
      | None => dangling
      | Some o =>
          assign_obstime obstime data'
            (<[t := Target.set_obstime (Some (ObsTime obstime)) o]> h)
      end
  end.

(** [TargetList.set_obstime(self, obstime)] *)
Definition set_obstime (obstime : obstimeval) (data : list loc) (h : store)
  : res store :=
  let obstime :=
    match obstime with
    | ObsTime t => t
    | ObsNum y => Time_decimalyear y
    end in
  assign_obstime obstime data h.

End WithAstropy.

End TargetList.

(** ** A collaborator that resolves one name *)

Module Catalog.
Import Target.

Definition resolve (n : string) : res (Q * Q * string) :=
  if String.eqb n "M31" then Ok (106847 # 10000, 412688 # 10000, "icrs")
  else Raise (LibraryError "Unable to find coordinates for name").

Definition astropy : Astropy :=
  {| Time := Terms.time;
     SkyCoord := Terms.skycoord;
     Time_decimalyear := Terms.Year;
     Time_now := Terms.Reading;
     SkyCoord_parse := fun _ _ _ =>
       Raise (LibraryError "sexagesimal strings are not parsed here");
     SkyCoord_from_name := resolve;
     SkyCoord_new := fun ra dec frame equinox obstime pm_ra_cosdec pm_dec =>
       Ok (Terms.Coord ra dec frame equinox obstime pm_ra_cosdec pm_dec);
     apply_space_motion := Terms.Moved |}.

(** [Target(name=n, frame='fk4', equinox=1950)] *)
Definition by_name (n : string) : @Args astropy :=
  with_equinox (Some 1950%Q)
    (with_frame (Some "fk4") (with_name (Some n) default_args)).

End Catalog.


(** ** target.py: description records, files *)

Module Records.
Import Target.

(** What the source reads off a coordinate and off a time, each made a
    [float]: [coord.ra.deg], [coord.dec.deg], [coord.equinox.byear],
    [coord.obstime.byear], [coord.frame.name] and
    [t.to_value('decimalyear')]. *)
Class AstropyOut `{Astropy} : Type := {
  ra_deg : SkyCoord -> Q;
  dec_deg : SkyCoord -> Q;
  equinox_byear : SkyCoord -> Q;
  obstime_byear : SkyCoord -> Q;
  frame_name : SkyCoord -> string;
  to_decimalyear : Time -> Q
}.

(** [d[k] = v] on a dictionary kept as the list of its items, in insertion
    order. *)
Fixpoint dict_set {V : Type} (d : list (string * V)) (k : string) (v : V)
  : list (string * V) :=
  match d with
  | [] => [(k, v)]
  | (k', v') :: d' =>
      if String.eqb k k' then (k, v) :: d' else (k', v') :: dict_set d' k v
  end.

(** [d.keys()] *)
Definition dict_keys {V : Type} (d : list (string * V)) : list string :=
  map fst d.

(** The dictionary that [to_dict] returns, key by key. *)
Record TDL : Type := {
  d_name : option string;
  d_RA : Q;
  d_Dec : Q;
  d_equinox : Q;
  d_epoch : Q;
  d_frame : string;
  d_rotmode : option string;
  d_PA : option Py.number;
  d_RAOffset : option Q;
  d_DecOffset : option Q;
  d_objecttype : option string;
  d_acquisition : option string;
  d_PMRA : Q;
  d_PMDec : Q;
  d_obstime : option Q;
  d_mag : list (string * Q);
  d_comment : option string
}.

(** A mapping as [yaml.safe_load] returns it, seen through the [d.get]
    calls of [read]: for each key its value, [None] for a key that is
    missing or null; for PMRA, PMDec and mag, whose [d.get] has a default
    other than [None], [None] is the missing key, and a null value under
    these three keys is not represented. The values have the types that
    [to_dict] writes; RA and Dec may also be strings. *)
Record Loaded : Type := {
  l_name : option string;
  l_RA : option coordval;
  l_Dec : option coordval;
  l_equinox : option Q;
  l_epoch : option Q;
  l_frame : option string;
  l_rotmode : option string;
  l_PA : option Py.number;
  l_RAOffset : option Q;
  l_DecOffset : option Q;
  l_objecttype : option string;
  l_acquisition : option string;
  l_PMRA : option Q;
  l_PMDec : option Q;
  l_obstime : option Q;
  l_mag : option (list (string * option Q));
  l_comment : option string
}.

(** The mapping that a record is when every key is there. *)
Definition loaded_of (d : TDL) : Loaded :=
  {| l_name := d_name d;
     l_RA := Some (Num (d_RA d));
     l_Dec := Some (Num (d_Dec d));
     l_equinox := Some (d_equinox d);
     l_epoch := Some (d_epoch d);
     l_frame := Some (d_frame d);
     l_rotmode := d_rotmode d;
     l_PA := d_PA d;
     l_RAOffset := d_RAOffset d;
     l_DecOffset := d_DecOffset d;
     l_objecttype := d_objecttype d;
     l_acquisition := d_acquisition d;
     l_PMRA := Some (d_PMRA d);
     l_PMDec := Some (d_PMDec d);
     l_obstime := d_obstime d;
     l_mag := Some (map (fun '(band, v) => (band, Some v)) (d_mag d));
     l_comment := d_comment d |}.

(** YAML and the file system, external collaborators: the text of a file,
    [yaml.dump] of a list of records, [yaml.safe_load] of a text, and
    [Path(file).expanduser().absolute()]. *)
Class Storage : Type := {
  document : Type;
  yaml_dump : list TDL -> document;
  yaml_safe_load : document -> res (list Loaded);
  absolute : string -> string
}.

(** [raise FileNotFoundError] *)
Definition FileNotFoundError : exn := LibraryError "FileNotFoundError".

Section WithCollaborators.
Context `{AstropyOut} `{Storage}.

(** The files there are, by absolute path. *)
Definition files : Type := string -> option document.

(** [open(p, 'w')] and [FO.write(text)], after [p.unlink()] if [p] is
    there. *)
Definition write_file (p : string) (text : document) (fs : files) : files :=
  fun q => if String.eqb q p then Some text else fs q.

(** The loop of [to_dict] over the bands. *)
Definition non_null_mags (mag : list (string * option Q))
  : list (string * Q) :=
  fold_left
    (fun mags band =>
       match dict_get mag band with
       | Some (Some v) => dict_set mags band v
       | _ => mags
       end)
    (dict_keys mag) [].

(** [Target.to_dict(self)] *)
Definition to_dict (self : Target) (k : nat) : res (TDL * nat) :=
  res_bind (coord self k)
    (fun '(coord, k) =>
       let mags := non_null_mags (mag self) in
       let obstime :=
         match obstime self with
         | None => None
         | Some (ObsNum y) => Some y
         | Some (ObsTime t) => Some (to_decimalyear t)
         end in
       Ok ({| d_name := name self;
              d_RA := ra_deg coord;
              d_Dec := dec_deg coord;
              d_equinox := equinox_byear coord;
              d_epoch := obstime_byear coord;
              d_frame := frame_name coord;
              d_rotmode := rotmode self;
              d_PA := PA self;
              d_RAOffset := RAOffset self;
              d_DecOffset := DecOffset self;
              d_objecttype := objecttype self;
              d_acquisition := acquisition self;
              d_PMRA := PMRA self;
              d_PMDec := PMDec self;
              d_obstime := obstime;
              d_mag := mags;
              d_comment := comment self |}, k)).

(** [[t.to_dict() for t in self.data]] *)
Fixpoint to_dicts (data : list nat) (h : list Target) (k : nat)
  : res (list TDL * nat) :=
  match data with
  | [] => Ok ([], k)
  | t :: data' =>
      match h !! t with
      | None => TargetList.dangling
      | Some o =>
          res_bind (to_dict o k)
            (fun '(d, k) =>
               res_bind (to_dicts data' h k)
                 (fun '(ds, k) => Ok (d :: ds, k)))
      end
  end.

(** The state that [write] and [read] work on: the targets, the warnings
    emitted, the readings of the clock, the files. *)
Record world : Type := {
  targets : list Target;
  warnings : list warning;
  clock : nat;
  disk : files
}.

(** [TargetList.write(self, file)] *)
Definition write (data : list nat) (file : string) (w : world)
  : res world :=
  res_bind (TargetList.validate data (targets w) (warnings w))
    (fun '(h, ws) =>
       let p := absolute file in
       res_bind (to_dicts data h (clock w))
         (fun '(list_of_dicts, k) =>
            Ok {| targets := h; warnings := ws; clock := k;
                  disk := write_file p (yaml_dump list_of_dicts) (disk w) |})).

(** The call [Target(name=d.get('name', None), ...)] of [read]. *)
Definition read_args (d : Loaded) : Args :=
  {| arg_name := l_name d;
     arg_RA := l_RA d;
     arg_Dec := l_Dec d;
     arg_equinox := l_equinox d;
     arg_rotmode := l_rotmode d;
     arg_PA := l_PA d;
     arg_RAOffset := l_RAOffset d;
     arg_DecOffset := l_DecOffset d;
     arg_objecttype := l_objecttype d;
     arg_acquisition := l_acquisition d;
     arg_frame := l_frame d;
     arg_PMRA := match l_PMRA d with Some x => x | None => 0%Q end;
     arg_PMDec := match l_PMDec d with Some x => x | None => 0%Q end;
     arg_epoch := l_epoch d;
     arg_obstime := option_map ObsNum (l_obstime d);
     arg_mag := match l_mag d with Some m => m | None => [] end;
     arg_comment := l_comment d |}.

(** [[Target(...) for d in list_of_dicts]]: each new target takes the next
    free address. *)
Fixpoint construct_all (ds : list Loaded) (h : list Target)
         (ws : list warning)
  : res (list nat * list Target * list warning) :=
  match ds with
  | [] => Ok ([], h, ws)
  | d :: ds' =>
      match init (read_args d) with
      | Raise e => Raise e
      | Ok (t, ws0) =>
          res_bind (construct_all ds' (h ++ [t]) (ws ++ ws0))
            (fun '(data, h', ws') => Ok (length h :: data, h', ws'))
      end
  end.

(** [TargetList.read(self, file)]: the new list and the state. *)
Definition read (file : string) (w : world) : res (list nat * world) :=
  let p := absolute file in
  match disk w p with
  | None => Raise FileNotFoundError
  | Some text =>
      res_bind (yaml_safe_load text)
        (fun list_of_dicts =>
           res_bind (construct_all list_of_dicts (targets w) (warnings w))
             (fun '(data, h, ws) =>
                Ok (data, {| targets := h; warnings := ws;
                             clock := clock w; disk := disk w |})))
  end.

End WithCollaborators.

End Records.


(** ** Vocabulary of the properties of records, and sample collaborators *)

Module RecordsSpec.
Import Target Records.

(** The bands that have a magnitude, with it, in the order of the bands. *)
Fixpoint given_mags (mag : list (string * option Q)) : list (string * Q) :=
  match mag with
  | [] => []
  | (band, Some v) :: mag' => (band, v) :: given_mags mag'
  | (band, None) :: mag' => given_mags mag'
  end.

(** A magnitude dictionary as [read] passes it to the constructor. *)
Definition all_given (mags : list (string * Q))
  : list (string * option Q) :=
  map (fun '(band, v) => (band, Some v)) mags.

(** An object that [validate] has returned. *)
Definition validated `{Astropy} (o : Target) : Prop :=
  exists (pre : Target) (ws ws' : list warning),
    validate pre ws = Ok (tt, o, ws').

(** What the two records of a round trip agree on: every key but the five
    that the coordinate library computes. *)
Definition same_policy (d d' : TDL) : Prop :=
  d_name d' = d_name d /\ d_rotmode d' = d_rotmode d /\
  d_PA d' = d_PA d /\ d_RAOffset d' = d_RAOffset d /\
  d_DecOffset d' = d_DecOffset d /\ d_objecttype d' = d_objecttype d /\
  d_acquisition d' = d_acquisition d /\ d_PMRA d' = d_PMRA d /\
  d_PMDec d' = d_PMDec d /\ d_obstime d' = d_obstime d /\
  d_mag d' = d_mag d /\ d_comment d' = d_comment d.

(** What a target read back from a file shares with the target that was
    written: every attribute that the record holds as it is. *)
Definition same_attributes `{Astropy} (o o' : Target) : Prop :=
  name o' = name o /\ rotmode o' = rotmode o /\ PA o' = PA o /\
  RAOffset o' = RAOffset o /\ DecOffset o' = DecOffset o /\
  objecttype o' = objecttype o /\ acquisition o' = acquisition o /\
  PMRA o' = PMRA o /\ PMDec o' = PMDec o /\ comment o' = comment o /\
  mag o' = all_given (Records.non_null_mags (mag o)).

(** Reading off the coordinates of [Terms]: the numbers they were built
    from, a moved coordinate taking the new time. *)
Definition number (v : option coordval) : Q :=
  match v with
  | Some (Num q) => q
  | _ => 0%Q
  end.

Definition year (t : Terms.time) : Q :=
  match t with
  | Terms.Year y => y
  | Terms.Reading n => 2026 + inject_Z (Z.of_nat n) / 1000
  end.

Fixpoint base (sc : Terms.skycoord) : Terms.skycoord :=
  match sc with
  | Terms.Moved sc' _ => base sc'
  | _ => sc
  end.

Definition sample_out : @AstropyOut Terms.astropy :=
  @Build_AstropyOut Terms.astropy
    (fun sc : Terms.skycoord =>
       match base sc with
       | Terms.Coord ra _ _ _ _ _ _ => number ra
       | _ => 0%Q
       end)
    (fun sc : Terms.skycoord =>
       match base sc with
       | Terms.Coord _ dec _ _ _ _ _ => number dec
       | _ => 0%Q
       end)
    (fun sc : Terms.skycoord =>
       match base sc with
       | Terms.Coord _ _ _ e _ _ _ => year e
       | _ => 0%Q
       end)
    (fun sc : Terms.skycoord =>
       match sc with
       | Terms.Coord _ _ _ _ t _ _ => year t
       | Terms.Moved _ t => year t
       end)
    (fun sc : Terms.skycoord =>
       match base sc with
       | Terms.Coord _ _ (Some f) _ _ _ _ => f
       | _ => "icrs"
       end)
    year.

(** A second reader of the coordinates of [Terms], in which a moved
    coordinate has moved and the Besselian year of a time is not its decimal
    year. *)
Fixpoint motion (sc : Terms.skycoord) : Q * Q :=
  match sc with
  | Terms.Coord _ _ _ _ _ pm_ra_cosdec pm_dec => (pm_ra_cosdec, pm_dec)
  | Terms.Moved sc' _ => motion sc'
  end.

(** Right ascension, declination (degrees) and time (decimal year): a
    moved coordinate has moved by its proper motion, in arcseconds a year,
    over the years between the two times. *)
Fixpoint position (sc : Terms.skycoord) : Q * Q * Q :=
  match sc with
  | Terms.Coord ra dec _ _ t _ _ => (number ra, number dec, year t)
  | Terms.Moved sc' t =>
      let '(ra, dec, y) := position sc' in
      let '(pm_ra, pm_dec) := motion sc' in
      ((ra + pm_ra * (year t - y) / 3600)%Q,
       (dec + pm_dec * (year t - y) / 3600)%Q,
       year t)
  end.

(** The Besselian year of a decimal year, as a fixed shift (the year 2000.0
    is B2000.0013). *)
Definition besselian (y : Q) : Q := (y + (13 # 10000))%Q.

Definition drifting_out : @AstropyOut Terms.astropy :=
  @Build_AstropyOut Terms.astropy
    (fun sc : Terms.skycoord => fst (fst (position sc)))
    (fun sc : Terms.skycoord => snd (fst (position sc)))
    (fun sc : Terms.skycoord =>
       match base sc with
       | Terms.Coord _ _ _ e _ _ _ => besselian (year e)
       | _ => 0%Q
       end)
    (fun sc : Terms.skycoord => besselian (snd (position sc)))
    (fun sc : Terms.skycoord =>
       match base sc with
       | Terms.Coord _ _ (Some f) _ _ _ _ => f
       | _ => "icrs"
       end)
    year.

(** A file holds the records themselves; loading gives them back with every
    key there. *)
Definition sample_storage : Storage :=
  {| document := list TDL;
     yaml_dump := fun ds => ds;
     yaml_safe_load := fun text => Ok (map loaded_of text);
     absolute := fun file => "/home/observer/" +:+ file |}.

(** No file, one validated target, a clock not yet read. *)
Definition sample_world : @world Terms.astropy sample_storage :=
  {| targets := [Terms.moving (1 # 10) (1 # 10)];
     warnings := [];
     clock := 0;
     disk := fun _ => None |}.

End RecordsSpec.


(** * Properties of the pattern matcher on the two patterns of the source *)

Module ReFacts.
Import Text.

(** ** Strings *)

Lemma length_append (x y : string) :
  String.length (x +:+ y) = (String.length x + String.length y)%nat.
Proof. induction x as [|c x IH]; simpl; [reflexivity | rewrite IH; reflexivity]. Qed.

Lemma substring_append (x y : string) :
  String.substring 0 (String.length x) (x +:+ y) = x.
Proof. induction x as [|c x IH]; simpl; [destruct y |]; [reflexivity .. | rewrite IH; reflexivity]. Qed.

Lemma consumed_append (x y : string) : Re.consumed (x +:+ y) y = x.
Proof.
  unfold Re.consumed. rewrite length_append.
  replace (String.length x + String.length y - String.length y)%nat
    with (String.length x) by lia.
  apply substring_append.
Qed.

Lemma take_drop_digits (s : string) : take_digits s +:+ drop_digits s = s.
Proof.
  induction s as [|c s IH]; [reflexivity |].
  cbn [take_digits drop_digits].
  destruct (Py.is_digit c); [| reflexivity].
  change (String c (take_digits s +:+ drop_digits s) = String c s).
  f_equal. exact IH.
Qed.

Lemma consumed_digits (s : string) :
  Re.consumed s (drop_digits s) = take_digits s.
Proof.
  pose proof (consumed_append (take_digits s) (drop_digits s)) as Hc.
  rewrite take_drop_digits in Hc. exact Hc.
Qed.

(** ** Greedy repetition *)

(** Before a continuation that accepts whatever is left, [\d*] takes the
    whole run of digits. *)
Lemma greedy_digits {R : Type} (f : string -> R) (s : string) :
  Re.greedy Re.DigitChar (fun z => Some (f z)) s = Some (f (drop_digits s)).
Proof.
  induction s as [|c s IH]; simpl; [reflexivity |].
  destruct (Py.is_digit c); [rewrite IH |]; reflexivity.
Qed.

(** ** Steps of [match_here] *)

Lemma match_here_open (r : Re.regex) (o : list (nat * string)) (n : nat)
      (gs : Re.groups) (s : string) :
  Re.match_here (Re.GroupOpen :: r) o n gs s
  = Re.match_here r ((n, s) :: o) (S n) gs s.
Proof. reflexivity. Qed.

Lemma match_here_atom (cl : Re.cclass) (q : Re.quant) (r : Re.regex)
      (o : list (nat * string)) (n : nat) (gs : Re.groups) (s : string) :
  Re.match_here (Re.Atom cl q :: r) o n gs s
  = Re.quantified cl (fun s' => Re.match_here r o n gs s') q s.
Proof. reflexivity. Qed.

Lemma match_here_close (r : Re.regex) (i : nat) (s0 : string)
      (o : list (nat * string)) (n : nat) (gs : Re.groups) (s : string) :
  Re.match_here (Re.GroupClose :: r) ((i, s0) :: o) n gs s
  = Re.match_here r o n ((i, Re.consumed s0 s) :: gs) s.
Proof. reflexivity. Qed.

(** ** The readout-mode pattern *)

Lemma readout_tail (s0 x : string) :
  Re.match_here
    [Re.GroupClose; Re.Atom (Re.Lit "C") Re.Once;
     Re.Atom (Re.Lit "D") Re.Once; Re.Atom (Re.Lit "S") Re.Once;
     Re.GroupOpen; Re.Atom Re.DigitChar Re.Star; Re.GroupClose]
    [(1%nat, s0)] 2 [] x =
    match strip_prefix "CDS" x with
    | Some y =>
        Some ([(2%nat, take_digits y); (1%nat, Re.consumed s0 x)],
              drop_digits y)
    | None => None
    end.
Proof.
  cbn [Re.match_here].
  destruct x as [|c1 x]; [reflexivity |].
  cbn [Re.quantified Re.accepts strip_prefix].
  destruct (Ascii.eqb "C" c1); [| reflexivity].
  destruct x as [|c2 x]; [reflexivity |].
  cbn [Re.quantified Re.accepts strip_prefix].
  destruct (Ascii.eqb "D" c2); [| reflexivity].
  destruct x as [|c3 x]; [reflexivity |].
  cbn [Re.quantified Re.accepts strip_prefix].
  destruct (Ascii.eqb "S" c3); [| reflexivity].
  cbn [Re.match_here Re.quantified].
  rewrite (greedy_digits
             (fun z => ([(2%nat, Re.consumed x z);
                         (1%nat, Re.consumed s0 (String c1 (String c2 (String c3 x))))],
                        z))).
  rewrite consumed_digits. reflexivity.
Qed.

Lemma re_match_readout (s : string) :
  Re.re_match "(M?)CDS(\d*)" s =
    match after_mode_name s with
    | Some y =>
        Some [(2%nat, take_digits y);
              (1%nat, match s with
                      | String c _ => if Ascii.eqb c "M" then "M" else ""
                      | EmptyString => ""
                      end)]
    | None => None
    end.
Proof.
  unfold Re.re_match.
  change (Re.compile "(M?)CDS(\d*)")
    with [Re.GroupOpen; Re.Atom (Re.Lit "M") Re.Opt; Re.GroupClose;
          Re.Atom (Re.Lit "C") Re.Once; Re.Atom (Re.Lit "D") Re.Once;
          Re.Atom (Re.Lit "S") Re.Once; Re.GroupOpen;
          Re.Atom Re.DigitChar Re.Star; Re.GroupClose].
  rewrite match_here_open, match_here_atom.
  destruct s as [|c s]; [reflexivity |].
  cbn [Re.quantified Re.accepts after_mode_name].
  rewrite (Ascii.eqb_sym "M" c).
  destruct (Ascii.eqb c "M") eqn:HM.
  - apply Ascii.eqb_eq in HM. subst c.
    rewrite !readout_tail.
    pose proof (consumed_append "M" s) as HcM. cbn [String.append] in HcM.
    change ("M" +:+ s) with (String "M" s) in HcM. rewrite HcM.
    destruct (strip_prefix "CDS" s); reflexivity.
  - rewrite readout_tail.
    pose proof (consumed_append "" (String c s)) as Hc0.
    change ("" +:+ String c s) with (String c s) in Hc0. rewrite Hc0.
    destruct (strip_prefix "CDS" (String c s)); reflexivity.
Qed.

(** ** Literal text *)

Lemma match_literals (w : string) (r : Re.regex) (o : list (nat * string))
      (n : nat) (gs : Re.groups) (s : string) :
  Re.match_here (literals w ++ r) o n gs (w +:+ s) = Re.match_here r o n gs s.
Proof.
  induction w as [|c w IH]; [reflexivity |].
  change (literals (String c w) ++ r)
    with (Re.Atom (Re.Lit c) Re.Once :: (literals w ++ r)).
  rewrite match_here_atom.
  change (String c w +:+ s) with (String c (w +:+ s)).
  cbn [Re.quantified Re.accepts]. rewrite Ascii.eqb_refl. exact IH.
Qed.

(** Where the pattern asks for [w], the text starts with [w]. *)
Lemma match_literals_inv (w : string) (r : Re.regex)
      (o : list (nat * string)) (n : nat) (gs : Re.groups) (s : string)
      (res : Re.groups * string) :
  Re.match_here (literals w ++ r) o n gs s = Some res ->
  exists s', strip_prefix w s = Some s'.
Proof.
  revert s. induction w as [|c w IH]; intros s; [simpl; eauto |].
  change (literals (String c w) ++ r)
    with (Re.Atom (Re.Lit c) Re.Once :: (literals w ++ r)).
  rewrite match_here_atom. destruct s as [|a s]; [discriminate |].
  cbn [Re.quantified Re.accepts strip_prefix].
  destruct (Ascii.eqb c a); [apply IH | discriminate].
Qed.

(** ** Word characters *)

(** [\w+] before a continuation takes a whole word when the continuation
    accepts what follows the word; otherwise the longest part of it that the
    continuation accepts. *)
Lemma greedy_word_prefix {R : Type} (k : string -> option R)
      (x y : string) (res : R) :
  all_word x = true ->
  Re.greedy Re.WordChar k y = Some res ->
  Re.greedy Re.WordChar k (x +:+ y) = Some res.
Proof.
  intros Hx Hy. induction x as [|c x IH]; [exact Hy |].
  change (String c x +:+ y) with (String c (x +:+ y)).
  simpl in Hx. apply andb_true_iff in Hx. destruct Hx as [Hc Hx].
  cbn [Re.greedy Re.accepts]. rewrite Hc, (IH Hx). reflexivity.
Qed.

Lemma plus_word_prefix {R : Type} (k : string -> option R)
      (x y : string) (res : R) :
  x <> "" -> all_word x = true ->
  Re.greedy Re.WordChar k y = Some res ->
  Re.quantified Re.WordChar k Re.Plus (x +:+ y) = Some res.
Proof.
  intros Hne Hx Hy. destruct x as [|c x]; [contradiction |].
  change (String c x +:+ y) with (String c (x +:+ y)).
  simpl in Hx. apply andb_true_iff in Hx. destruct Hx as [Hc Hx].
  cbn [Re.quantified Re.accepts]. rewrite Hc.
  apply greedy_word_prefix; assumption.
Qed.

(** ** The class-name pattern *)

Lemma class_pattern_items :
  Re.compile InstrumentConfig.pattern =
    literals "<class 'keckODL"
    ++ [Re.Atom Re.AnyChar Re.Once; Re.GroupOpen;
        Re.Atom Re.WordChar Re.Plus; Re.GroupClose;
        Re.Atom Re.AnyChar Re.Once]
    ++ literals "config"
    ++ [Re.Atom Re.AnyChar Re.Once; Re.GroupOpen;
        Re.Atom Re.WordChar Re.Plus; Re.GroupClose]
    ++ literals "Config'>".
Proof. reflexivity. Qed.

Lemma class_pattern_matches (p x : string) :
  p <> "" -> all_word p = true -> x <> "" -> all_word x = true ->
  Re.re_search InstrumentConfig.pattern
    ("<class 'keckODL" +:+ "." +:+ p +:+ "." +:+ "config" +:+ "."
     +:+ x +:+ "Config'>")
  = Some [(2%nat, x); (1%nat, p)].
Proof.
  intros Hp Hpw Hx Hxw.
  unfold Re.re_search. rewrite class_pattern_items.
  assert (Hhere :
    Re.match_here
      (literals "<class 'keckODL"
       ++ [Re.Atom Re.AnyChar Re.Once; Re.GroupOpen;
           Re.Atom Re.WordChar Re.Plus; Re.GroupClose;
           Re.Atom Re.AnyChar Re.Once]
       ++ literals "config"
       ++ [Re.Atom Re.AnyChar Re.Once; Re.GroupOpen;
           Re.Atom Re.WordChar Re.Plus; Re.GroupClose]
       ++ literals "Config'>") [] 1 []
      ("<class 'keckODL" +:+ "." +:+ p +:+ "." +:+ "config" +:+ "."
       +:+ x +:+ "Config'>")
    = Some ([(2%nat, x); (1%nat, p)], "")).
  { rewrite match_literals.
    cbn [app]. rewrite match_here_atom.
    change ("." +:+ p +:+ "." +:+ "config" +:+ "." +:+ x +:+ "Config'>")
      with (String "." (p +:+ "." +:+ "config" +:+ "." +:+ x +:+ "Config'>")).
    cbn [Re.quantified]. change (Re.accepts Re.AnyChar ".") with true.
    cbn beta iota. rewrite match_here_open, match_here_atom.
    apply plus_word_prefix; [assumption .. |].
    (* after the package name *)
    change ("." +:+ "config" +:+ "." +:+ x +:+ "Config'>")
      with (String "." ("config" +:+ "." +:+ x +:+ "Config'>")).
    cbn [Re.greedy]. change (Re.accepts Re.WordChar ".") with false.
    cbn beta iota. rewrite match_here_close, match_here_atom.
    cbn [Re.quantified]. change (Re.accepts Re.AnyChar ".") with true.
    cbn beta iota. rewrite match_literals.
    cbn [app]. rewrite match_here_atom.
    change ("." +:+ x +:+ "Config'>") with (String "." (x +:+ "Config'>")).
    cbn [Re.quantified]. change (Re.accepts Re.AnyChar ".") with true.
    cbn beta iota. rewrite match_here_open, match_here_atom.
    apply plus_word_prefix; [assumption .. |].
    rewrite consumed_append.
    set (k := fun s' : string =>
                Re.match_here (Re.GroupClose :: literals "Config'>")
                  [(2%nat, x +:+ "Config'>")] 3 [(1%nat, p)] s').
    assert (Hk : k "Config'>" = Some ([(2%nat, x); (1%nat, p)], "")).
    { unfold k. rewrite match_here_close, consumed_append.
      rewrite <- (app_nil_r (literals "Config'>")).
      change "Config'>" with ("Config'>" +:+ "") at 2.
      rewrite match_literals. reflexivity. }
    assert (Hshort : k "'>" = None /\ k "g'>" = None /\ k "ig'>" = None /\
                     k "fig'>" = None /\ k "nfig'>" = None /\
                     k "onfig'>" = None)
      by (repeat split; reflexivity).
    destruct Hshort as (H0 & H1 & H2 & H3 & H4 & H5).
    clearbody k. vm_compute. rewrite H0, H1, H2, H3, H4, H5. exact Hk. }
  destruct ("<class 'keckODL" +:+ "." +:+ p +:+ "." +:+ "config" +:+ "."
            +:+ x +:+ "Config'>") eqn:Hs; [discriminate |].
  cbn [Re.search_from]. rewrite Hhere. reflexivity.
Qed.

(** ** Text that a match needs *)

Lemma contains_prefix (w s s' : string) :
  strip_prefix w s = Some s' -> contains w s = true.
Proof. intros Hw. destruct s; simpl; rewrite Hw; reflexivity. Qed.

Lemma contains_later (w a s : string) :
  contains w s = true -> contains w (a +:+ s) = true.
Proof.
  intros Hs. induction a as [|c a IH]; [exact Hs |].
  change (String c a +:+ s) with (String c (a +:+ s)).
  cbn [contains]. rewrite IH.
  destruct (strip_prefix w (String c (a +:+ s))); reflexivity.
Qed.

Lemma greedy_reaches {R : Type} (cl : Re.cclass) (k : string -> option R)
      (s : string) (res : R) :
  Re.greedy cl k s = Some res ->
  exists a s', s = a +:+ s' /\ k s' = Some res.
Proof.
  induction s as [|c s IH]; cbn [Re.greedy]; intros Hg.
  - exists "", "". split; [reflexivity | exact Hg].
  - destruct (Re.accepts cl c).
    + destruct (Re.greedy cl k s) as [r |] eqn:Hs.
      * injection Hg as ->. destruct (IH eq_refl) as (a & s' & -> & Hk).
        exists (String c a), s'. split; [reflexivity | exact Hk].
      * exists "", (String c s). split; [reflexivity | exact Hg].
    + exists "", (String c s). split; [reflexivity | exact Hg].
Qed.

Lemma quantified_reaches {R : Type} (cl : Re.cclass)
      (k : string -> option R) (q : Re.quant) (s : string) (res : R) :
  Re.quantified cl k q s = Some res ->
  exists a s', s = a +:+ s' /\ k s' = Some res.
Proof.
  destruct q, s as [|c s]; cbn [Re.quantified]; intros Hq;
    try discriminate;
    try (exists "", ""; split; [reflexivity | exact Hq]).
  - destruct (Re.accepts cl c); [| discriminate].
    exists (String c ""), s. split; [reflexivity | exact Hq].
  - destruct (Re.accepts cl c).
    + destruct (k s) as [r |] eqn:Hs.
      * injection Hq as ->.
        exists (String c ""), s. split; [reflexivity | exact Hs].
      * exists "", (String c s). split; [reflexivity | exact Hq].
    + exists "", (String c s). split; [reflexivity | exact Hq].
  - apply greedy_reaches in Hq. exact Hq.
  - destruct (Re.accepts cl c); [| discriminate].
    apply greedy_reaches in Hq. destruct Hq as (a & s' & -> & Hk).
    exists (String c a), s'. split; [reflexivity | exact Hk].
Qed.

(** A text matched by a pattern that has the literal [w] in it has [w] in
    it. *)
Lemma match_here_needs (w : string) (pre post : Re.regex)
      (o : list (nat * string)) (n : nat) (gs : Re.groups) (s : string)
      (res : Re.groups * string) :
  Re.match_here (pre ++ literals w ++ post) o n gs s = Some res ->
  contains w s = true.
Proof.
  revert o n gs s. induction pre as [|i pre IH]; intros o n gs s Hm.
  - apply match_literals_inv in Hm. destruct Hm as [s' Hs'].
    exact (contains_prefix _ _ _ Hs').
  - destruct i as [cl q | |].
    + change ((Re.Atom cl q :: pre) ++ literals w ++ post)
        with (Re.Atom cl q :: (pre ++ literals w ++ post)) in Hm.
      rewrite match_here_atom in Hm.
      apply quantified_reaches in Hm. destruct Hm as (a & s' & -> & Hk).
      apply contains_later. exact (IH _ _ _ _ Hk).
    + exact (IH _ _ _ _ Hm).
    + destruct o as [|[j s0] o]; [discriminate |]. exact (IH _ _ _ _ Hm).
Qed.

Lemma search_needs (w : string) (pre post : Re.regex) (s : string)
      (gs : Re.groups) :
  Re.search_from (pre ++ literals w ++ post) s = Some gs ->
  contains w s = true.
Proof.
  induction s as [|c s IH]; cbn [Re.search_from];
    destruct (Re.match_here (pre ++ literals w ++ post) [] 1 [] _)
      as [[gs' rest] |] eqn:Hm; intros Hs;
    try (exact (match_here_needs _ _ _ _ _ _ _ _ Hm)); [discriminate |].
  change (String c s) with (String c "" +:+ s).
  apply contains_later. exact (IH Hs).
Qed.

Lemma class_pattern_needs_config (cls : string) :
  contains "config" cls = false ->
  Re.re_search InstrumentConfig.pattern cls = None.
Proof.
  intros Hno. unfold Re.re_search. rewrite class_pattern_items.
  destruct (Re.search_from _ cls) as [gs |] eqn:Hs; [| reflexivity].
  rewrite app_assoc in Hs. apply search_needs in Hs. congruence.
Qed.

Lemma append_assoc (x y z : string) : (x +:+ y) +:+ z = x +:+ (y +:+ z).
Proof.
  induction x as [|c x IH]; [reflexivity |].
  change (String c ((x +:+ y) +:+ z) = String c (x +:+ y +:+ z)).
  f_equal. exact IH.
Qed.

End ReFacts.


(** * Properties of keckODL/mosfire.py and keckODL/instrument_config.py *)

Module MOSFIREFacts.
Import MOSFIRE.

(** ** The store *)

Lemma lookup_snoc (h : store) (o : MOSFIREConfig) :
  (h ++ [o]) !! length h = Some o.
Proof. induction h as [|x h IH]; simpl; [reflexivity | exact IH]. Qed.

Lemma insert_snoc (h : store) (o o' : MOSFIREConfig) :
  <[length h := o']> (h ++ [o]) = h ++ [o'].
Proof.
  induction h as [|x h IH]; simpl; [reflexivity |].
  f_equal. exact IH.
Qed.

Lemma lookup_snoc_old (h : store) (o x : MOSFIREConfig) (l : loc) :
  h !! l = Some x -> (h ++ [o]) !! l = Some x.
Proof. intros Hl. apply lookup_app_l_Some. exact Hl. Qed.

Lemma lookup_allocated (h : store) (l : loc) (x : MOSFIREConfig) :
  h !! l = Some x -> l <> length h.
Proof.
  intros Hl Heq. apply lookup_lt_Some in Hl. lia.
Qed.

Lemma lookup_free (h : store) : h !! length h = None.
Proof. apply lookup_ge_None. lia. Qed.

(** ** What [arcs] and [domeflats] compute *)

Lemma arcs_run (h : store) (self : loc) (c : MOSFIREConfig)
      (lampname : string) :
  h !! self = Some c ->
  arcs self lampname h =
    Ok (length h,
        h ++ [set_name (name c +:+ " arclamp=" +:+ lampname)
                (set_arclamp (Some lampname) c)]).
Proof.
  intros Hc. unfold arcs, bind, deepcopy, update, load, ret.
  rewrite Hc. cbn beta iota.
  rewrite lookup_snoc. cbn beta iota.
  rewrite insert_snoc, lookup_snoc. cbn beta iota.
  rewrite lookup_snoc, insert_snoc. reflexivity.
Qed.

Lemma domeflats_run (h : store) (self : loc) (c : MOSFIREConfig)
      (off : bool) :
  h !! self = Some c ->
  domeflats self off h =
    Ok (length h,
        h ++ [set_name (name c +:+ " domeflatlamp="
                        +:+ Py.str_bool (negb off))
                (set_domeflatlamp (Some (negb off)) c)]).
Proof.
  intros Hc. unfold domeflats, bind, deepcopy, update, load, ret.
  rewrite Hc. cbn beta iota.
  rewrite lookup_snoc. cbn beta iota.
  rewrite insert_snoc, lookup_snoc. cbn beta iota.
  rewrite lookup_snoc, insert_snoc. reflexivity.
Qed.

(** ** Calibration sequence *)

(** C3. For a configuration whose filter is K, [cals] returns exactly four
    elements, in this order: 7 repeats of a stare with a detector
    configuration of exposure time 11 s and the dome-flat-on copy of the
    receiver, 7 repeats with 11 s and the dome-flat-off copy, 2 repeats
    with 1 s and the Ne arc copy, 2 repeats with 1 s and the Ar arc copy
    (18 repeats in all); for any other filter it returns the first element
    alone (7 repeats). Every detector configuration is for MOSFIRE, with
    readout mode CDS and one coadd. The copies are new objects of the
    store. *)
Theorem cals_sequence (h : store) (self : loc) (c : MOSFIREConfig) :
  h !! self = Some c ->
  let stare seconds l n :=
    {| pattern := Stare;
       detconfig := {| det_instrument := "MOSFIRE";
                       exptime := Some seconds;
                       readoutmode := "CDS";
                       coadds := 1 |};
       instconfig := l;
       repeat := n |} in
  let flat b :=
    set_name (name c +:+ " domeflatlamp=" +:+ Py.str_bool b)
      (set_domeflatlamp (Some b) c) in
  let arc lamp :=
    set_name (name c +:+ " arclamp=" +:+ lamp)
      (set_arclamp (Some lamp) c) in
  let n := length h in
  exists (s : Sequence) (h' : store),
    cals self h = Ok (s, h') /\
    (filter c = "K" ->
       s = [stare 11%Q n 7; stare 11%Q (n + 1)%nat 7;
            stare 1%Q (n + 2)%nat 2; stare 1%Q (n + 3)%nat 2] /\
       h' = h ++ [flat true; flat false; arc "Ne"; arc "Ar"] /\
       total_repeats s = 18) /\
    (filter c <> "K" ->
       s = [stare 11%Q n 7] /\
       h' = h ++ [flat true] /\
       total_repeats s = 7).
Proof.
  intros Hc stare flat arc n.
  assert (Hold : forall l x, l !! self = Some c -> (l ++ [x]) !! self = Some c)
    by (intros l x Hl; apply lookup_snoc_old; exact Hl).
  unfold cals, bind.
  rewrite (domeflats_run h self c false Hc). cbn [negb].
  unfold load at 1. rewrite (Hold h _ Hc).
  destruct (String.eqb (filter c) "K") eqn:HK.
  - apply String.eqb_eq in HK.
    erewrite domeflats_run by (apply Hold; exact Hc). cbn [negb].
    erewrite arcs_run by (do 2 apply Hold; exact Hc).
    erewrite arcs_run by (do 3 apply Hold; exact Hc).
    unfold ret, append. eexists _, _. split; [reflexivity |].
    split; [| intros Hne; contradiction].
    intros _. rewrite !length_app. simpl length.
    rewrite <- !app_assoc. simpl.
    replace (length h + 1 + 1 + 1)%nat with (n + 3)%nat by (unfold n; lia).
    replace (length h + 1 + 1)%nat with (n + 2)%nat by (unfold n; lia).
    repeat split; reflexivity.
  - apply String.eqb_neq in HK.
    unfold ret, append. eexists _, _. split; [reflexivity |].
    split; [intros HK'; contradiction |].
    intros _. repeat split; reflexivity.
Qed.

(** The sequence of a K-band long-slit configuration kept at address 0:
    its exposure times, repeats, patterns and lamps. *)
Lemma cals_sequence_witness :
  let c := {| name := "longslit_46x0.7 K-spectroscopy";
              package := Some "mosfire"; instrument := Some "MOSFIRE";
              mode := "spectroscopy"; filter := "K";
              mask := "longslit_46x0.7";
              arclamp := None; domeflatlamp := None |} in
  [c] !! 0%nat = Some c /\
  exists (s : Sequence) (h' : store),
    cals 0%nat [c] = Ok (s, h') /\
    map (fun e => exptime (detconfig e)) s
      = [Some 11%Q; Some 11%Q; Some 1%Q; Some 1%Q] /\
    map (fun e => readoutmode (detconfig e)) s
      = ["CDS"; "CDS"; "CDS"; "CDS"] /\
    map pattern s = [Stare; Stare; Stare; Stare] /\
    map repeat s = [7; 7; 2; 2] /\
    map (fun e => option_map domeflatlamp (h' !! instconfig e)) s
      = [Some (Some true); Some (Some false); Some None; Some None] /\
    map (fun e => option_map arclamp (h' !! instconfig e)) s
      = [Some None; Some None; Some (Some "Ne"); Some (Some "Ar")] /\
    total_repeats s = 18.
Proof.
  intros c. split; [reflexivity |].
  destruct (cals_sequence [c] 0%nat c eq_refl) as (s & h' & Hrun & HK & _).
  destruct (HK eq_refl) as (Hs & Hh & Htot).
  exists s, h'. split; [exact Hrun |].
  rewrite Hs, Hh. repeat split; reflexivity.
Defined.

(** ** Derived copies *)

(** C6. [arcs] and [domeflats] leave the receiver as it was: after either
    call the store holds at the receiver's address the object it held
    before (so lamps that were [None] are still [None] and the name is the
    same), and so does every other address in use. What they return is the
    address of a new object, not in use before the call and different from
    the receiver's, that is the receiver's copy with the lamp attribute set
    and the lamp annotation added to the end of the name. *)
Theorem arcs_domeflats_leave_receiver (h : store) (self : loc)
        (c : MOSFIREConfig) (lampname : string) (off : bool) :
  h !! self = Some c ->
  (exists (copy : loc) (h' : store),
      arcs self lampname h = Ok (copy, h') /\
      h' !! self = Some c /\
      (forall l o, h !! l = Some o -> h' !! l = Some o) /\
      h !! copy = None /\ copy <> self /\
      h' !! copy =
        Some (set_name (name c +:+ " arclamp=" +:+ lampname)
                (set_arclamp (Some lampname) c))) /\
  (exists (copy : loc) (h' : store),
      domeflats self off h = Ok (copy, h') /\
      h' !! self = Some c /\
      (forall l o, h !! l = Some o -> h' !! l = Some o) /\
      h !! copy = None /\ copy <> self /\
      h' !! copy =
        Some (set_name (name c +:+ " domeflatlamp="
                        +:+ Py.str_bool (negb off))
                (set_domeflatlamp (Some (negb off)) c))).
Proof.
  intros Hc. split.
  - eexists _, _. split; [apply arcs_run; exact Hc |].
    split; [apply lookup_snoc_old; exact Hc |].
    split; [intros l o Hl; apply lookup_snoc_old; exact Hl |].
    split; [apply lookup_free |].
    split; [intros Heq; exact (lookup_allocated h self c Hc (eq_sym Heq)) |].
    apply lookup_snoc.
  - eexists _, _. split; [apply domeflats_run; exact Hc |].
    split; [apply lookup_snoc_old; exact Hc |].
    split; [intros l o Hl; apply lookup_snoc_old; exact Hl |].
    split; [apply lookup_free |].
    split; [intros Heq; exact (lookup_allocated h self c Hc (eq_sym Heq)) |].
    apply lookup_snoc.
Qed.

(** A science configuration at address 0: after [arcs('Ne')] its lamps are
    still [None] and its name is the same. *)
Lemma arcs_domeflats_leave_receiver_witness :
  let c := {| name := "longslit_46x0.7 Y-spectroscopy";
              package := Some "mosfire"; instrument := Some "MOSFIRE";
              mode := "spectroscopy"; filter := "Y";
              mask := "longslit_46x0.7";
              arclamp := None; domeflatlamp := None |} in
  [c] !! 0%nat = Some c /\
  exists (copy : loc) (h' : store),
    arcs 0%nat "Ne" [c] = Ok (copy, h') /\
    (arclamp <$> h' !! 0%nat) = Some None /\
    (domeflatlamp <$> h' !! 0%nat) = Some None /\
    (name <$> h' !! 0%nat) = Some "longslit_46x0.7 Y-spectroscopy" /\
    (name <$> h' !! copy) = Some "longslit_46x0.7 Y-spectroscopy arclamp=Ne".
Proof.
  intros c. split; [reflexivity |].
  destruct (arcs_domeflats_leave_receiver [c] 0%nat c "Ne" true eq_refl)
    as [(copy & h' & Hrun & Hself & _ & _ & _ & Hcopy) _].
  exists copy, h'. rewrite Hself, Hcopy.
  repeat split; [exact Hrun ..].
Defined.

(** C10. [domeflats(off)] gives the copy the lamp state [not off]: [True]
    for [off=False], [False] for [off=True], never [None]; the name of the
    copy is the receiver's followed by [ domeflatlamp=True] or
    [ domeflatlamp=False]. A dome-flat-off copy ([False]) therefore differs
    from a configuration whose lamp is [None]. *)
Theorem domeflats_lamp_is_not_off (h : store) (self : loc)
        (c : MOSFIREConfig) (off : bool) :
  h !! self = Some c ->
  exists (copy : loc) (h' : store) (o : MOSFIREConfig),
    domeflats self off h = Ok (copy, h') /\
    h' !! copy = Some o /\
    domeflatlamp o = Some (negb off) /\
    domeflatlamp o <> None /\
    name o =
      name c +:+ (if off then " domeflatlamp=False"
                  else " domeflatlamp=True") /\
    mode o = mode c /\ filter o = filter c /\ mask o = mask c /\
    arclamp o = arclamp c.
Proof.
  intros Hc. eexists _, _, _.
  split; [apply domeflats_run; exact Hc |].
  split; [apply lookup_snoc |].
  destruct off; simpl; repeat split; discriminate.
Qed.

(** The dome-flat-off copy of a science configuration at address 0. *)
Lemma domeflats_lamp_is_not_off_witness :
  let c := {| name := "longslit_46x0.7 K-spectroscopy";
              package := Some "mosfire"; instrument := Some "MOSFIRE";
              mode := "spectroscopy"; filter := "K";
              mask := "longslit_46x0.7";
              arclamp := None; domeflatlamp := None |} in
  [c] !! 0%nat = Some c /\
  exists (copy : loc) (h' : store) (o : MOSFIREConfig),
    domeflats 0%nat true [c] = Ok (copy, h') /\
    h' !! copy = Some o /\
    domeflatlamp o = Some false /\
    name o = "longslit_46x0.7 K-spectroscopy domeflatlamp=False".
Proof.
  intros c. split; [reflexivity |].
  destruct (domeflats_lamp_is_not_off [c] 0%nat c true eq_refl)
    as (copy & h' & o & Hrun & Ho & Hlamp & _ & Hname & _).
  exists copy, h', o. repeat split; assumption.
Defined.

(** ** Detector readout mode *)

(** C4. What [MOSFIREDetectorConfig.validate] does on the readout modes the
    claim names. [CDS] is not accepted: the digits group of the match is
    empty and [int('')] is a ValueError. [MCDS16] is accepted. [MCDS33]
    and [XYZ] reach a [raise DetectorConfigError(...)], but the module
    does not bind that name and what is raised is a NameError. [MCDS0],
    [CDS5] and [MCDS16x] are accepted although they are not [CDS] or
    [MCDS<n>] with [n] from 1 to 32. *)
Theorem detector_validate_readoutmodes :
  let validate_mode m :=
    detector_validate (MOSFIREDetectorConfig_init None m 1) in
  validate_mode "CDS" =
    Raise (ValueError "invalid literal for int() with base 10: ''") /\
  validate_mode "MCDS16" = Ok tt /\
  validate_mode "MCDS33" =
    Raise (NameError "name 'DetectorConfigError' is not defined") /\
  validate_mode "XYZ" =
    Raise (NameError "name 'DetectorConfigError' is not defined") /\
  validate_mode "MCDS0" = Ok tt /\
  validate_mode "CDS5" = Ok tt /\
  validate_mode "MCDS16x" = Ok tt.
Proof. vm_compute. repeat split; reflexivity. Qed.

(** The detector configurations that [cals] builds carry the mode [CDS],
    the constructor's own default, which [validate] does not accept. *)
Lemma detector_validate_default_mode (exptime : option Q) :
  detector_validate (MOSFIREDetectorConfig_init exptime "CDS" 1) =
    Raise (ValueError "invalid literal for int() with base 10: ''").
Proof. reflexivity. Qed.

(** ** Identity derivation *)

Lemma class_str_text :
  class_str = "<class 'keckODL.mosfire.MOSFIREConfig'>".
Proof. reflexivity. Qed.

(** C5. Constructing a [MOSFIREConfig] does not succeed: the text of its
    class, [<class 'keckODL.mosfire.MOSFIREConfig'>], has no [.config.]
    part, the pattern of [InstrumentConfig.__init__] does not match it,
    and [namesearch.group(1)] on [None] is an AttributeError, before the
    instrument is set to MOSFIRE. *)
Theorem MOSFIREConfig_init_raises (mode filter mask : string) :
  Re.re_search InstrumentConfig.pattern class_str = None /\
  MOSFIREConfig_init mode filter mask =
    Raise (AttributeError "'NoneType' object has no attribute 'group'") /\
  forall h : store,
    MOSFIREConfig_new mode filter mask h =
      Raise (AttributeError "'NoneType' object has no attribute 'group'").
Proof.
  assert (Hinit : MOSFIREConfig_init mode filter mask =
            Raise (AttributeError "'NoneType' object has no attribute 'group'"))
    by (vm_compute; reflexivity).
  split; [vm_compute; reflexivity |]. split; [exact Hinit |].
  intros h. unfold MOSFIREConfig_new. rewrite Hinit. reflexivity.
Qed.

(** The naming convention the pattern expects, a class [<X>Config] in a
    module [keckODL.<package>.config], gives the pair the source intends;
    the base class itself, in [keckODL.instrument_config], also matches. *)
Lemma InstrumentConfig_init_convention :
  InstrumentConfig.init
    (InstrumentConfig.class_str "keckODL.mosfire.config" "MOSFIREConfig")
    "GenericInstrumentConfig" =
    Ok {| InstrumentConfig.name := "GenericInstrumentConfig";
          InstrumentConfig.package := Some "mosfire";
          InstrumentConfig.instrument := Some "MOSFIRE" |} /\
  InstrumentConfig.init
    (InstrumentConfig.class_str "keckODL.instrument_config"
       "InstrumentConfig")
    "GenericInstrumentConfig" =
    Ok {| InstrumentConfig.name := "GenericInstrumentConfig";
          InstrumentConfig.package := Some "instrument";
          InstrumentConfig.instrument := Some "Instrument" |}.
Proof. vm_compute. split; reflexivity. Qed.


(** ** Every readout mode *)

Lemma digits_value_take (acc : Z) (y : string) :
  exists n : Z, Py.digits_value acc (Text.take_digits y) = Some n.
Proof.
  revert acc. induction y as [|c y IH]; intros acc; simpl; [eauto |].
  destruct (Py.is_digit c) eqn:Hc; simpl; [| eauto].
  rewrite Hc. apply IH.
Qed.

Lemma int_take_digits (y : string) :
  Py.int (Text.take_digits y) =
    if String.eqb (Text.take_digits y) ""
    then Raise (ValueError "invalid literal for int() with base 10: ''")
    else if Py.max_str_digits <? Text.digit_count y
         then Raise (Py.too_many_digits (Text.digit_count y))
         else Ok (Text.leading_number y).
Proof.
  unfold Py.int, Text.leading_number, Text.digit_count.
  destruct (digits_value_take 0 y) as [n Hn]. rewrite Hn.
  destruct (Text.take_digits y); reflexivity.
Qed.

(** What [validate] does, read off the text of the readout mode: the text
    must start with CDS or MCDS; the digits that follow must not be missing,
    must be at most 4300 and must spell at most 32. Whatever comes after the
    digits is ignored. *)
Lemma detector_validate_verdict (self : MOSFIREDetectorConfig) :
  detector_validate self =
    match Text.after_mode_name (readoutmode self) with
    | None => Raise (NameError "name 'DetectorConfigError' is not defined")
    | Some y =>
        if String.eqb (Text.take_digits y) ""
        then Raise (ValueError "invalid literal for int() with base 10: ''")
        else if Py.max_str_digits <? Text.digit_count y
             then Raise (Py.too_many_digits (Text.digit_count y))
             else if 32 <? Text.leading_number y
                  then Raise (NameError
                                "name 'DetectorConfigError' is not defined")
                  else Ok tt
    end.
Proof.
  unfold detector_validate. rewrite ReFacts.re_match_readout.
  destruct (Text.after_mode_name (readoutmode self)) as [y |];
    [| reflexivity].
  cbn [Re.group Nat.eqb]. rewrite int_take_digits.
  destruct (String.eqb (Text.take_digits y) ""); [reflexivity |].
  destruct (Py.max_str_digits <? Text.digit_count y); [reflexivity |].
  cbn [res_bind]. destruct (32 <? Text.leading_number y); reflexivity.
Qed.

(** X1. For a readout mode of ASCII characters, [validate] returns normally
    exactly when the mode starts with CDS or MCDS followed by at least one
    digit and at most 4300 digits, the digits spelling a number of at most
    32; the M is optional before any number, 0 included, and anything may
    follow the digits. *)
Theorem detector_validate_accepts_iff (self : MOSFIREDetectorConfig) :
  Py.is_ascii (readoutmode self) = true ->
  detector_validate self = Ok tt <->
  exists y : string,
    Text.after_mode_name (readoutmode self) = Some y /\
    Text.take_digits y <> "" /\
    Text.digit_count y <= 4300 /\
    Text.leading_number y <= 32.
Proof.
  intros _. rewrite detector_validate_verdict.
  unfold Py.max_str_digits. split.
  - destruct (Text.after_mode_name (readoutmode self)) as [y |];
      [| discriminate].
    destruct (String.eqb (Text.take_digits y) "") eqn:He; [discriminate |].
    destruct (4300 <? Text.digit_count y) eqn:Hd;
      [discriminate |].
    destruct (32 <? Text.leading_number y) eqn:Hn; [discriminate |].
    intros _. exists y. split; [reflexivity |].
    split; [apply String.eqb_neq; exact He |].
    split; [apply Z.ltb_ge; exact Hd | apply Z.ltb_ge; exact Hn].
  - intros (y & -> & He & Hd & Hn).
    apply String.eqb_neq in He. rewrite He.
    apply Z.ltb_ge in Hd. rewrite Hd.
    apply Z.ltb_ge in Hn. rewrite Hn. reflexivity.
Qed.

(** MCDS07 is accepted; so is CDS32 followed by any text. *)
Lemma detector_validate_accepts_iff_witness :
  Py.is_ascii "MCDS07" = true /\
  detector_validate (MOSFIREDetectorConfig_init None "MCDS07" 1) = Ok tt /\
  detector_validate (MOSFIREDetectorConfig_init None "CDS32 (test)" 1)
  = Ok tt.
Proof.
  split; [reflexivity |]. split.
  - apply (detector_validate_accepts_iff
             (MOSFIREDetectorConfig_init None "MCDS07" 1)); [reflexivity |].
    exists "07".
    repeat split; [discriminate | vm_compute; discriminate ..].
  - apply (detector_validate_accepts_iff
             (MOSFIREDetectorConfig_init None "CDS32 (test)" 1));
      [reflexivity |].
    exists "32 (test)".
    repeat split; [discriminate | vm_compute; discriminate ..].
Defined.

(** X2. Whatever the readout mode, of ASCII characters, [validate] never
    raises the detector configuration error: it returns, or raises the
    ValueError of [int('')] (no digits after the mode name), or the
    ValueError of [int] on more than 4300 digits, or the NameError of the
    unbound name [DetectorConfigError] (another mode name, or more than 32
    reads). *)
Theorem detector_validate_outcomes (self : MOSFIREDetectorConfig) :
  Py.is_ascii (readoutmode self) = true ->
  (forall msg : string,
      detector_validate self <> Raise (DetectorConfigError msg)) /\
  (detector_validate self = Ok tt \/
   detector_validate self =
     Raise (ValueError "invalid literal for int() with base 10: ''") \/
   (exists digits : Z,
       4300 < digits /\
       detector_validate self = Raise (Py.too_many_digits digits)) \/
   detector_validate self =
     Raise (NameError "name 'DetectorConfigError' is not defined")).
Proof.
  intros _. rewrite detector_validate_verdict.
  unfold Py.max_str_digits.
  destruct (Text.after_mode_name (readoutmode self)) as [y |].
  - destruct (String.eqb (Text.take_digits y) "").
    + split; [intros msg; discriminate | right; left; reflexivity].
    + destruct (4300 <? Text.digit_count y) eqn:Hd.
      * split; [intros msg; discriminate |].
        right. right. left. exists (Text.digit_count y).
        split; [apply Z.ltb_lt; exact Hd | reflexivity].
      * destruct (32 <? Text.leading_number y).
        -- split; [intros msg; discriminate | right; right; right; reflexivity].
        -- split; [intros msg; discriminate | left; reflexivity].
  - split; [intros msg; discriminate | right; right; right; reflexivity].
Qed.

(** MCDS33 raises the NameError; CDS followed by 4301 zeros raises the
    ValueError of the digit limit. *)
Lemma detector_validate_outcomes_witness :
  Py.is_ascii "MCDS33" = true /\
  (forall msg : string,
      detector_validate (MOSFIREDetectorConfig_init None "MCDS33" 1)
      <> Raise (DetectorConfigError msg)) /\
  detector_validate
    (MOSFIREDetectorConfig_init None ("CDS" +:+ Text.zeros 4301) 1)
  = Raise (Py.too_many_digits 4301).
Proof.
  split; [reflexivity |]. split.
  - exact (proj1 (detector_validate_outcomes
                    (MOSFIREDetectorConfig_init None "MCDS33" 1) eq_refl)).
  - vm_compute. reflexivity.
Defined.


(** ** Every class name *)

(** X3. The naming convention works for every instrument: a class
    [<X>Config] defined in a module [keckODL.<package>.config], with
    [<package>] and [<X>] non-empty and made of letters, digits and
    underscores, is given exactly that package and that instrument, also when
    [<X>] itself ends in Config or the package name has config in it. *)
Theorem init_follows_convention (p x name : string) :
  p <> "" -> Text.all_word p = true ->
  x <> "" -> Text.all_word x = true ->
  InstrumentConfig.init
    (InstrumentConfig.class_str ("keckODL." +:+ p +:+ ".config")
       (x +:+ "Config")) name
  = Ok {| InstrumentConfig.name := name;
          InstrumentConfig.package := Some p;
          InstrumentConfig.instrument := Some x |}.
Proof.
  intros Hp Hpw Hx Hxw.
  assert (Hcls :
    InstrumentConfig.class_str ("keckODL." +:+ p +:+ ".config")
      (x +:+ "Config")
    = "<class 'keckODL" +:+ "." +:+ p +:+ "." +:+ "config" +:+ "."
      +:+ x +:+ "Config'>").
  { unfold InstrumentConfig.class_str.
    change ("keckODL." +:+ p +:+ ".config")
      with ("keckODL" +:+ "." +:+ p +:+ "." +:+ "config").
    change "<class 'keckODL" with ("<class '" +:+ "keckODL").
    rewrite !ReFacts.append_assoc. reflexivity. }
  unfold InstrumentConfig.init.
  rewrite Hcls, (ReFacts.class_pattern_matches p x Hp Hpw Hx Hxw).
  reflexivity.
Qed.

(** A class NIRESConfig in keckODL.nires.config. *)
Lemma init_follows_convention_witness :
  InstrumentConfig.init "<class 'keckODL.nires.config.NIRESConfig'>"
    "GenericInstrumentConfig"
  = Ok {| InstrumentConfig.name := "GenericInstrumentConfig";
          InstrumentConfig.package := Some "nires";
          InstrumentConfig.instrument := Some "NIRES" |}.
Proof.
  apply (init_follows_convention "nires" "NIRES" "GenericInstrumentConfig");
    [discriminate | reflexivity | discriminate | reflexivity].
Defined.

(** X4. A class whose text does not have [config] in it, in lower case,
    cannot be constructed: [InstrumentConfig.__init__] ends in the
    AttributeError of [None.group(1)], whatever the name asked for. *)
Theorem init_needs_config (cls name : string) :
  Text.contains "config" cls = false ->
  InstrumentConfig.init cls name
  = Raise (AttributeError "'NoneType' object has no attribute 'group'").
Proof.
  intros Hno. unfold InstrumentConfig.init.
  rewrite (ReFacts.class_pattern_needs_config cls Hno). reflexivity.
Qed.

(** The class of keckODL/mosfire.py. *)
Lemma init_needs_config_witness :
  Text.contains "config" class_str = false /\
  InstrumentConfig.init class_str "GenericInstrumentConfig"
  = Raise (AttributeError "'NoneType' object has no attribute 'group'").
Proof.
  split; [reflexivity |].
  apply (init_needs_config class_str "GenericInstrumentConfig").
  reflexivity.
Defined.


(** ** Copies of copies *)

(** X5. Deriving from a derived copy adds to it: an arc copy of a
    configuration, then a dome-flat copy of that copy, carries both lamps
    and a name with both annotations in the order of the calls; a second
    [arcs] on an arc copy replaces the lamp and leaves the first annotation
    in the name. The receiver and the first copy are left as they were. *)
Theorem derived_copies_accumulate (h : store) (self : loc)
        (c : MOSFIREConfig) (lamp lamp' : string) (off : bool) :
  h !! self = Some c ->
  exists (first : loc) (h1 : store),
    arcs self lamp h = Ok (first, h1) /\
    (exists (second : loc) (h2 : store) (o : MOSFIREConfig),
        domeflats first off h1 = Ok (second, h2) /\
        h2 !! self = Some c /\ h2 !! first = h1 !! first /\
        h2 !! second = Some o /\
        arclamp o = Some lamp /\ domeflatlamp o = Some (negb off) /\
        name o = name c +:+ " arclamp=" +:+ lamp +:+ " domeflatlamp="
                 +:+ Py.str_bool (negb off)) /\
    (exists (second : loc) (h2 : store) (o : MOSFIREConfig),
        arcs first lamp' h1 = Ok (second, h2) /\
        h2 !! self = Some c /\ h2 !! first = h1 !! first /\
        h2 !! second = Some o /\
        arclamp o = Some lamp' /\ domeflatlamp o = domeflatlamp c /\
        name o = name c +:+ " arclamp=" +:+ lamp +:+ " arclamp="
                 +:+ lamp').
Proof.
  intros Hc. eexists _, _. split; [apply arcs_run; exact Hc |].
  pose proof (lookup_snoc h
                (set_name (name c +:+ " arclamp=" +:+ lamp)
                   (set_arclamp (Some lamp) c))) as Hfirst.
  split.
  - eexists _, _, _. split; [apply domeflats_run; exact Hfirst |].
    split; [do 2 apply lookup_snoc_old; exact Hc |].
    split; [rewrite Hfirst; apply lookup_snoc_old; exact Hfirst |].
    split; [apply lookup_snoc |].
    cbn [name arclamp domeflatlamp set_name set_arclamp set_domeflatlamp].
    rewrite <- !ReFacts.append_assoc. repeat split; reflexivity.
  - eexists _, _, _. split; [apply arcs_run; exact Hfirst |].
    split; [do 2 apply lookup_snoc_old; exact Hc |].
    split; [rewrite Hfirst; apply lookup_snoc_old; exact Hfirst |].
    split; [apply lookup_snoc |].
    cbn [name arclamp domeflatlamp set_name set_arclamp set_domeflatlamp].
    rewrite <- !ReFacts.append_assoc. repeat split; reflexivity.
Qed.

(** [c.arcs('Ne').arcs('Ar')] on a science configuration at address 0. *)
Lemma derived_copies_accumulate_witness :
  let c := {| name := "longslit_46x0.7 K-spectroscopy";
              package := Some "mosfire"; instrument := Some "MOSFIRE";
              mode := "spectroscopy"; filter := "K";
              mask := "longslit_46x0.7";
              arclamp := None; domeflatlamp := None |} in
  [c] !! 0%nat = Some c /\
  exists (first second : loc) (h1 h2 : store) (o : MOSFIREConfig),
    arcs 0%nat "Ne" [c] = Ok (first, h1) /\
    arcs first "Ar" h1 = Ok (second, h2) /\
    h2 !! second = Some o /\
    arclamp o = Some "Ar" /\
    name o = "longslit_46x0.7 K-spectroscopy arclamp=Ne arclamp=Ar".
Proof.
  intros c. split; [reflexivity |].
  destruct (derived_copies_accumulate [c] 0%nat c "Ne" "Ar" false eq_refl)
    as (first & h1 & Hrun1 & _ & (second & h2 & o & Hrun2 & _ & _ & Ho
                                   & Hlamp & _ & Hname)).
  exists first, second, h1, h2, o. repeat split; assumption.
Defined.

(** ** Calibration and validation together *)

Lemma cals_run (h : store) (self : loc) (c : MOSFIREConfig) :
  h !! self = Some c ->
  exists (s : Sequence) (h' : store),
    cals self h = Ok (s, h') /\
    Forall (fun e =>
              pattern e = Stare /\
              readoutmode (detconfig e) = "CDS" /\
              (length h <= instconfig e < length h')%nat) s /\
    (forall l o, h !! l = Some o -> h' !! l = Some o).
Proof.
  intros Hc.
  assert (Hold : forall l x, l !! self = Some c -> (l ++ [x]) !! self = Some c)
    by (intros l x Hl; apply lookup_snoc_old; exact Hl).
  unfold cals, bind.
  rewrite (domeflats_run h self c false Hc). cbn [negb].
  unfold load at 1. rewrite (Hold h _ Hc).
  destruct (String.eqb (filter c) "K").
  - erewrite domeflats_run by (apply Hold; exact Hc). cbn [negb].
    erewrite arcs_run by (do 2 apply Hold; exact Hc).
    erewrite arcs_run by (do 3 apply Hold; exact Hc).
    unfold ret, append. eexists _, _. split; [reflexivity |].
    split.
    + repeat constructor; cbn [instconfig]; rewrite !length_app;
        simpl; lia.
    + intros l o Hl. do 4 apply lookup_snoc_old. exact Hl.
  - unfold ret, append. eexists _, _. split; [reflexivity |].
    split.
    + repeat constructor; cbn [instconfig]; rewrite !length_app;
        simpl; lia.
    + intros l o Hl. apply lookup_snoc_old. exact Hl.
Qed.

(** X6. Whatever the receiver and its filter, [cals] returns, and every
    detector configuration it puts in the sequence is one that the
    detector's own [validate] rejects with the ValueError of [int('')]:
    their readout mode is CDS. The instrument configurations of the sequence
    are all objects made by the call, and no object that was there before
    is changed. *)
Theorem cals_detconfigs_do_not_validate (h : store) (self : loc)
        (c : MOSFIREConfig) :
  h !! self = Some c ->
  exists (s : Sequence) (h' : store),
    cals self h = Ok (s, h') /\
    Forall (fun e =>
              detector_validate (detconfig e)
              = Raise (ValueError
                         "invalid literal for int() with base 10: ''") /\
              h !! instconfig e = None /\
              is_Some (h' !! instconfig e)) s /\
    (forall l o, h !! l = Some o -> h' !! l = Some o).
Proof.
  intros Hc. destruct (cals_run h self c Hc) as (s & h' & Hrun & Hall & Hold).
  exists s, h'. split; [exact Hrun |]. split; [| exact Hold].
  eapply Forall_impl; [exact Hall |].
  intros e (_ & Hmode & Hlo & Hhi). split; [| split].
  - rewrite detector_validate_verdict, Hmode. reflexivity.
  - apply lookup_ge_None. exact Hlo.
  - apply lookup_lt_is_Some. exact Hhi.
Qed.

(** The calibrations of a Y-band configuration at address 0. *)
Lemma cals_detconfigs_do_not_validate_witness :
  let c := {| name := "longslit_46x0.7 Y-spectroscopy";
              package := Some "mosfire"; instrument := Some "MOSFIRE";
              mode := "spectroscopy"; filter := "Y";
              mask := "longslit_46x0.7";
              arclamp := None; domeflatlamp := None |} in
  [c] !! 0%nat = Some c /\
  exists (s : Sequence) (h' : store),
    cals 0%nat [c] = Ok (s, h') /\
    Forall (fun e =>
              detector_validate (detconfig e)
              = Raise (ValueError
                         "invalid literal for int() with base 10: ''")) s.
Proof.
  intros c. split; [reflexivity |].
  destruct (cals_detconfigs_do_not_validate [c] 0%nat c eq_refl)
    as (s & h' & Hrun & Hall & _).
  exists s, h'. split; [exact Hrun |].
  eapply Forall_impl; [exact Hall |]. intros e (He & _). exact He.
Defined.

End MOSFIREFacts.

(** * Properties of target.py *)

Module TargetFacts.
Import Target.

Section Facts.
Context `{Astropy}.

(** ** Arithmetic of the guards *)

Lemma Qlt_bool_true (x y : Q) : Qlt_bool x y = true <-> (x < y)%Q.
Proof.
  unfold Qlt_bool. rewrite negb_true_iff.
  split.
  - intros Hb. apply Qnot_le_lt. intros Hle.
    apply Qle_bool_iff in Hle. congruence.
  - intros Hlt. destruct (Qle_bool y x) eqn:Hb; [| reflexivity].
    apply Qle_bool_iff in Hb. exfalso. exact (Qlt_not_le _ _ Hlt Hb).
Qed.

Lemma Qlt_bool_false (x y : Q) : Qlt_bool x y = false <-> (y <= x)%Q.
Proof.
  unfold Qlt_bool. rewrite negb_false_iff. apply Qle_bool_iff.
Qed.

(** [abs(x) > 0] is [x != 0]. *)
Lemma abs_positive (x : Q) :
  Qlt_bool 0 (Qabs x) = true <-> ~ (x == 0)%Q.
Proof.
  rewrite Qlt_bool_true. split.
  - intros Hpos Hzero. rewrite Hzero in Hpos. exact (Qlt_irrefl 0 Hpos).
  - intros Hnz. destruct (Qlt_le_dec 0 (Qabs x)) as [Hlt | Hle];
      [exact Hlt |].
    exfalso. apply Hnz.
    apply Qabs_Qle_condition in Hle. destruct Hle as [Hlo Hhi].
    apply Qle_antisym; assumption.
Qed.


(** ** Formatting a position angle *)

(** An [int] of at most 53 bits is its own [float]. *)
Lemma float_of_int_exact (z : Z) :
  Z.abs z < 2 ^ 53 -> Py.float_of_int z = Ok (inject_Z z).
Proof.
  intros Hz. unfold Py.float_of_int.
  assert (Hbits : Z.log2 (Z.abs z) + 1 <= 53).
  { destruct (Z.eq_dec (Z.abs z) 0) as [H0 | Hn0].
    - rewrite H0. simpl. lia.
    - assert (Hpos : 0 < Z.abs z) by lia.
      apply (Z.log2_lt_pow2 _ 53 Hpos) in Hz. lia. }
  apply Z.leb_le in Hbits. rewrite Hbits. reflexivity.
Qed.

Lemma round_half_even_floor (num den : Z) :
  num / den <= Py.round_half_even num den.
Proof.
  unfold Py.round_half_even.
  destruct (2 * (num mod den) <? den); [lia |].
  destruct (den <? 2 * (num mod den)); [lia |].
  destruct (Z.even (num / den)); lia.
Qed.

(** An [int] of absolute value 2^1024 or more has no [float]. *)
Lemma float_of_int_overflow (z : Z) :
  2 ^ 1024 <= Z.abs z ->
  Py.float_of_int z =
    Raise (OverflowError "int too large to convert to float").
Proof.
  intros Hz. unfold Py.float_of_int.
  set (a := Z.abs z) in *.
  assert (Hpos : 0 < a).
  { assert (0 < 2 ^ 1024) by (apply Z.pow_pos_nonneg; lia). lia. }
  assert (Hlog : 1024 <= Z.log2 a).
  { apply Z.log2_le_pow2; [exact Hpos | exact Hz]. }
  set (l := Z.log2 a) in *.
  assert (Hbits : (l + 1 <=? 53) = false) by (apply Z.leb_gt; lia).
  rewrite Hbits.
  replace (l + 1 - 53) with (l - 52) by lia.
  set (ulp := 2 ^ (l - 52)).
  assert (Hulp : 0 < ulp) by (apply Z.pow_pos_nonneg; lia).
  assert (Hlow : 2 ^ l <= a) by (apply Z.log2_spec; exact Hpos).
  assert (Hsplit : 2 ^ l = 2 ^ 52 * ulp).
  { unfold ulp. rewrite <- Z.pow_add_r by lia. f_equal. lia. }
  assert (Hquot : 2 ^ 52 <= a / ulp).
  { apply Z.div_le_lower_bound; [exact Hulp |]. rewrite Z.mul_comm. lia. }
  pose proof (round_half_even_floor a ulp) as Hround.
  assert (Hbig : 2 ^ 972 <= ulp).
  { unfold ulp. apply Z.pow_le_mono_r; lia. }
  assert (Hall : 2 ^ 1024 <= Py.round_half_even a ulp * ulp).
  { replace (2 ^ 1024) with (2 ^ 52 * 2 ^ 972)
      by (rewrite <- Z.pow_add_r by lia; reflexivity).
    assert (0 < 2 ^ 52) by (apply Z.pow_pos_nonneg; lia).
    assert (0 < 2 ^ 972) by (apply Z.pow_pos_nonneg; lia).
    apply Z.mul_le_mono_nonneg; lia. }
  apply Z.leb_le in Hall. rewrite Hall. reflexivity.
Qed.

(** ** The table of position-angle ranges *)

Lemma str_in_cases (x : string) (l : list string) :
  Py.str_in x l = true -> In x l.
Proof.
  unfold Py.str_in. intros Hx. apply existsb_exists in Hx.
  destruct Hx as (y & Hy & Heq). apply String.eqb_eq in Heq.
  subst y. exact Hy.
Qed.

Lemma valid_PAs_of_mode (m : string) :
  Py.str_in m rotator_modes = true -> dict_get valid_PAs m = Some [0; 360].
Proof.
  intros Hm. apply str_in_cases in Hm. simpl in Hm.
  destruct Hm as [<- | [<- | [<- | []]]]; reflexivity.
Qed.

(** ** Running [validate] *)

Lemma default_modes :
  Py.str_in (Py.lower "PA") rotator_modes = true /\
  Py.str_in (Py.lower "guider: bright") acquisition_modes = true /\
  Py.str_in (Py.lower "science") object_types = true.
Proof. repeat split; reflexivity. Qed.

Lemma in_range_guards (p : Py.number) :
  negb (Py.lt_int p 0) && negb (Py.gt_int p 360) = true ->
  Py.lt_int p 0 = false /\ Py.gt_int p 360 = false.
Proof.
  intros Hp. apply andb_true_iff in Hp. destruct Hp as [Hlo Hhi].
  apply negb_true_iff in Hlo. apply negb_true_iff in Hhi.
  split; assumption.
Qed.

Lemma out_of_range_guards (p : Py.number) :
  Py.lt_int p 0 = true \/ Py.gt_int p 360 = true ->
  (if Py.lt_int p 0 then true else Py.gt_int p 360) = true.
Proof.
  intros [Hlo | Hhi].
  - rewrite Hlo. reflexivity.
  - rewrite Hhi. destruct (Py.lt_int p 0); reflexivity.
Qed.

(** The guards on the numbers that have a value: below 0, above 360. *)
Lemma guards_of_value (p : Py.number) :
  match p with
  | Py.Int z =>
      (Py.lt_int p 0 = true <-> z < 0) /\ (Py.gt_int p 360 = true <-> 360 < z)
  | Py.Float q =>
      (Py.lt_int p 0 = true <-> (q < 0)%Q) /\
      (Py.gt_int p 360 = true <-> (360 < q)%Q)
  | Py.Inf negative =>
      Py.lt_int p 0 = negative /\ Py.gt_int p 360 = negb negative
  | Py.NaN => Py.lt_int p 0 = false /\ Py.gt_int p 360 = false
  end.
Proof.
  destruct p as [z | q | negative |]; cbn [Py.lt_int Py.gt_int].
  - split; [apply Z.ltb_lt | apply Z.ltb_lt].
  - split; [exact (Qlt_bool_true q 0) | exact (Qlt_bool_true 360 q)].
  - split; reflexivity.
  - split; reflexivity.
Qed.

Ltac run_validate :=
  cbv beta iota;
  cbn [name RA Dec equinox frame rotmode PA acquisition objecttype
       set_rotmode set_PA set_acquisition set_objecttype
       negb lookup list_lookup].

Ltac start_validate :=
  unfold validate;
  cbv [bind gets when raise ret assign warn some call get_equinox valid_PA
       is_None].

(** A target with its required attributes set and its optional ones
    omitted or valid passes: the defaults are put in, one warning for
    each. *)
Lemma validate_ok (self : Target) (ws : list warning)
      (n : string) (ra dec : coordval) (e : Q) :
  name self = Some n -> RA self = Some ra -> Dec self = Some dec ->
  equinox self = Bound (Some e) ->
  omitted_or_in (rotmode self) rotator_modes = true ->
  omitted_or_in_range (PA self) = true ->
  omitted_or_in (acquisition self) acquisition_modes = true ->
  omitted_or_in (objecttype self) object_types = true ->
  validate self ws =
    Ok (tt,
        set_objecttype (or_default (objecttype self) "science")
          (set_acquisition (or_default (acquisition self) "guider: bright")
             (set_PA (or_default (PA self) (Py.Int 0))
                (set_rotmode (or_default (rotmode self) "PA") self))),
        ws ++ warning_if_omitted (rotmode self)
                "No rotator mode given, assuming PA mode"
           ++ warning_if_omitted (PA self) "No PA given, assuming 0 deg"
           ++ warning_if_omitted (acquisition self)
                ("No acquisition mode given, assuming " +:+ Py.dq
                 +:+ "guider: bright" +:+ Py.dq)
           ++ warning_if_omitted (objecttype self)
                ("No object type given, assuming " +:+ Py.dq +:+ "science"
                 +:+ Py.dq)).
Proof.
  destruct self
    as [n0 ra0 dec0 e0 fr rm pa rao deco ot acq pmra pmdec ep obs mg cm].
  simpl. intros -> -> -> -> Hrm Hpa Hacq Hot.
  destruct default_modes as (Drm & Dacq & Dot).
  destruct (in_range_guards (Py.Int 0) eq_refl) as [Dlo Dhi].
  pose proof (valid_PAs_of_mode _ Drm) as Dtab.
  start_validate.
  destruct rm as [r|], pa as [p|], acq as [a|], ot as [o|];
    cbn [omitted_or_in omitted_or_in_range] in Hrm, Hpa, Hacq, Hot;
    try (pose proof (valid_PAs_of_mode _ Hrm) as Htab);
    try (destruct (in_range_guards _ Hpa) as [Hlo Hhi]);
    repeat (run_validate;
            rewrite ?Hrm, ?Htab, ?Hlo, ?Hhi, ?Hacq, ?Hot,
                    ?Drm, ?Dtab, ?Dlo, ?Dhi, ?Dacq, ?Dot);
    cbn [or_default warning_if_omitted];
    rewrite <- ?app_assoc; cbn [app]; rewrite ?app_nil_r; reflexivity.
Qed.

(** A position angle outside the range of the mode is fatal: the
    TargetError that shows it with one decimal, or the exception of the
    formatting. *)
Lemma validate_PA_out_of_range (self : Target) (ws : list warning)
      (n : string) (ra dec : coordval) (e : Q) (p : Py.number) :
  name self = Some n -> RA self = Some ra -> Dec self = Some dec ->
  equinox self = Bound (Some e) ->
  omitted_or_in (rotmode self) rotator_modes = true ->
  PA self = Some p ->
  Py.lt_int p 0 = true \/ Py.gt_int p 360 = true ->
  validate self ws =
    match Py.format_1f p with
    | Ok text =>
        Raise (TargetError ("Rotator PA " +:+ Py.dq +:+ text
                            +:+ Py.dq +:+ " not in range [0, 360]"))
    | Raise err => Raise err
    end.
Proof.
  destruct self
    as [n0 ra0 dec0 e0 fr rm pa rao deco ot acq pmra pmdec ep obs mg cm].
  simpl. intros -> -> -> -> Hrm -> Hp.
  destruct default_modes as (Drm & _ & _).
  pose proof (valid_PAs_of_mode _ Drm) as Dtab.
  apply out_of_range_guards in Hp.
  start_validate.
  destruct rm as [r|]; cbn [omitted_or_in] in Hrm;
    try (pose proof (valid_PAs_of_mode _ Hrm) as Htab);
    repeat (run_validate; rewrite ?Hrm, ?Htab, ?Drm, ?Dtab);
    destruct (Py.lt_int p 0);
    repeat (run_validate; rewrite ?Hrm, ?Htab, ?Drm, ?Dtab, ?Hp);
    destruct (Py.format_1f p) as [text | err];
    repeat (run_validate; rewrite ?Hrm, ?Htab, ?Drm, ?Dtab, ?Hp);
    reflexivity.
Qed.

(** The four required attributes, in the order they are checked. *)
Lemma validate_required (self : Target) (ws : list warning) :
  (name self = None ->
   validate self ws = Raise (TargetError "name is required")) /\
  (name self <> None -> RA self = None ->
   validate self ws = Raise (TargetError "RA is required")) /\
  (name self <> None -> RA self <> None -> Dec self = None ->
   validate self ws = Raise (TargetError "Dec is required")) /\
  (name self <> None -> RA self <> None -> Dec self <> None ->
   equinox self = Bound None ->
   validate self ws = Raise (TargetError "equinox is required")).
Proof.
  destruct self
    as [n0 ra0 dec0 e0 fr rm pa rao deco ot acq pmra pmdec ep obs mg cm].
  simpl. start_validate. run_validate.
  repeat split.
  - intros ->. reflexivity.
  - intros Hn ->. destruct n0; [reflexivity | contradiction].
  - intros Hn Hra ->.
    destruct n0; [| contradiction]. destruct ra0; [| contradiction].
    reflexivity.
  - intros Hn Hra Hdec ->.
    destruct n0; [| contradiction]. destruct ra0; [| contradiction].
    destruct dec0; [| contradiction]. reflexivity.
Qed.

(** ** Running the constructor *)

(** With the coordinates stored, what is left of the constructor is
    [validate] on the object built from the arguments. *)
Lemma init_stored (a : Args) (ra dec : option coordval) :
  (arg_name a = None \/ arg_RA a <> None \/ arg_Dec a <> None) ->
  stored_coords (arg_RA a) (arg_Dec a) (arg_frame a) = Ok (ra, dec) ->
  init a =
    match
      validate
        {| name := arg_name a; RA := ra; Dec := dec;
           equinox := Bound (stored_equinox a);
           frame := arg_frame a;
           rotmode := arg_rotmode a; PA := arg_PA a;
           RAOffset := arg_RAOffset a; DecOffset := arg_DecOffset a;
           objecttype := arg_objecttype a;
           acquisition := arg_acquisition a;
           PMRA := arg_PMRA a; PMDec := arg_PMDec a;
           epoch := arg_epoch a; obstime := arg_obstime a;
           mag := arg_mag a; comment := arg_comment a |} []
    with
    | Ok (_, self', ws) => Ok (self', ws)
    | Raise e => Raise e
    end.
Proof.
  destruct a as [n ra0 dec0 e fr rm pa rao deco ot acq pmra pmdec ep obs
                   mg cm].
  unfold init, stored_coords, stored_equinox. simpl.
  intros Hbranch Hst.
  destruct ra0 as [[x | r] |], dec0 as [[y | d] |];
    try (injection Hst as <- <-);
    try (destruct n; destruct (frame_is fr "icrs"); reflexivity).
  - destruct (SkyCoord_parse r d fr) as [[x y] | err];
      simpl in Hst; [| discriminate].
    injection Hst as <- <-.
    destruct n; destruct (frame_is fr "icrs"); reflexivity.
  - destruct n as [n |];
      [destruct Hbranch as [Hn | [Hra | Hdec]];
       [discriminate | contradiction | contradiction] |].
    destruct (frame_is fr "icrs"); reflexivity.
Qed.

Lemma stored_coords_given (ra dec : option coordval)
      (frame : option string) (x y : coordval) :
  stored_coords ra dec frame = Ok (Some x, Some y) ->
  ra <> None /\ dec <> None.
Proof.
  unfold stored_coords.
  destruct ra as [[? | r] |], dec as [[? | d] |];
    try (intros _; split; discriminate);
    intros Hst; injection Hst as Hx Hy; discriminate.
Qed.


(** ** Construction *)

(** The constructor on arguments that are complete and valid. *)
Lemma init_ok (a : Args) :
  forall (n : string) (ra dec : coordval),
      arg_name a = Some n ->
      stored_coords (arg_RA a) (arg_Dec a) (arg_frame a)
        = Ok (Some ra, Some dec) ->
      stored_equinox a <> None ->
      omitted_or_in (arg_rotmode a) rotator_modes = true ->
      omitted_or_in_range (arg_PA a) = true ->
      omitted_or_in (arg_acquisition a) acquisition_modes = true ->
      omitted_or_in (arg_objecttype a) object_types = true ->
      exists self : Target,
        init a =
          Ok (self,
              warning_if_omitted (arg_rotmode a)
                "No rotator mode given, assuming PA mode"
              ++ warning_if_omitted (arg_PA a)
                   "No PA given, assuming 0 deg"
              ++ warning_if_omitted (arg_acquisition a)
                   ("No acquisition mode given, assuming " +:+ Py.dq
                    +:+ "guider: bright" +:+ Py.dq)
              ++ warning_if_omitted (arg_objecttype a)
                   ("No object type given, assuming " +:+ Py.dq
                    +:+ "science" +:+ Py.dq)) /\
        rotmode self = or_default (arg_rotmode a) "PA" /\
        PA self = or_default (arg_PA a) (Py.Int 0) /\
        acquisition self
          = or_default (arg_acquisition a) "guider: bright" /\
        objecttype self = or_default (arg_objecttype a) "science" /\
        name self = Some n /\ RA self = Some ra /\ Dec self = Some dec /\
        equinox self = Bound (stored_equinox a).
Proof.
  intros n ra dec Hn Hst Heq Hrm Hpa Hacq Hot.
  destruct (stored_coords_given _ _ _ _ _ Hst) as [Hra Hdec].
  rewrite (init_stored a (Some ra) (Some dec)
             (or_intror (or_introl Hra)) Hst).
  destruct (stored_equinox a) as [e |] eqn:He; [| contradiction].
  erewrite validate_ok by (simpl; try reflexivity; eassumption).
  eexists. split; [reflexivity |]. simpl. rewrite Hn.
  repeat split; reflexivity.
Qed.

(** C7, as the code has it. With a name, RA and Dec given (parsed by the
    library when both are strings), an equinox stored (the one given, or
    2000 whenever the frame is icrs) and each of rotmode, PA, acquisition
    and objecttype omitted or valid, construction succeeds; an omitted
    attribute gets its default, which is the upper-case string PA for
    rotmode, 0 for PA, guider: bright for acquisition and science for
    objecttype; and the warnings emitted are exactly one for each omitted
    attribute, in that order. A missing name, a missing RA with Dec
    given, a missing Dec with RA given, and an equinox that is missing
    while the frame is not icrs, each end construction with the
    TargetError that names the attribute. *)
Theorem init_defaults_and_required (a : Args) :
  (forall (n : string) (ra dec : coordval),
      arg_name a = Some n ->
      stored_coords (arg_RA a) (arg_Dec a) (arg_frame a)
        = Ok (Some ra, Some dec) ->
      stored_equinox a <> None ->
      omitted_or_in (arg_rotmode a) rotator_modes = true ->
      omitted_or_in_range (arg_PA a) = true ->
      omitted_or_in (arg_acquisition a) acquisition_modes = true ->
      omitted_or_in (arg_objecttype a) object_types = true ->
      exists self : Target,
        init a =
          Ok (self,
              warning_if_omitted (arg_rotmode a)
                "No rotator mode given, assuming PA mode"
              ++ warning_if_omitted (arg_PA a)
                   "No PA given, assuming 0 deg"
              ++ warning_if_omitted (arg_acquisition a)
                   ("No acquisition mode given, assuming " +:+ Py.dq
                    +:+ "guider: bright" +:+ Py.dq)
              ++ warning_if_omitted (arg_objecttype a)
                   ("No object type given, assuming " +:+ Py.dq
                    +:+ "science" +:+ Py.dq)) /\
        rotmode self = or_default (arg_rotmode a) "PA" /\
        PA self = or_default (arg_PA a) (Py.Int 0) /\
        acquisition self
          = or_default (arg_acquisition a) "guider: bright" /\
        objecttype self = or_default (arg_objecttype a) "science" /\
        name self = Some n /\ RA self = Some ra /\ Dec self = Some dec /\
        equinox self = Bound (stored_equinox a)) /\
  (forall ra dec : option coordval,
      arg_name a = None ->
      stored_coords (arg_RA a) (arg_Dec a) (arg_frame a) = Ok (ra, dec) ->
      init a = Raise (TargetError "name is required")) /\
  (arg_name a <> None -> arg_RA a = None -> arg_Dec a <> None ->
   init a = Raise (TargetError "RA is required")) /\
  (arg_name a <> None -> arg_RA a <> None -> arg_Dec a = None ->
   init a = Raise (TargetError "Dec is required")) /\
  (forall ra dec : coordval,
      arg_name a <> None ->
      stored_coords (arg_RA a) (arg_Dec a) (arg_frame a)
        = Ok (Some ra, Some dec) ->
      arg_equinox a = None ->
      frame_is (arg_frame a) "icrs" = false ->
      init a = Raise (TargetError "equinox is required")) /\
  (frame_is (arg_frame a) "icrs" = true ->
   stored_equinox a = Some 2000%Q).
Proof.
  split; [| split; [| split; [| split; [| split]]]].
  - exact (init_ok a).
  - intros ra dec Hn Hst.
    rewrite (init_stored a ra dec (or_introl Hn) Hst).
    rewrite (proj1 (validate_required _ _)) by exact Hn. reflexivity.
  - intros Hn Hra Hdec.
    assert (Hst : stored_coords (arg_RA a) (arg_Dec a) (arg_frame a)
                  = Ok (None, arg_Dec a))
      by (rewrite Hra; reflexivity).
    rewrite (init_stored a _ _ (or_intror (or_intror Hdec)) Hst).
    rewrite (proj1 (proj2 (validate_required _ _)))
      by (simpl; auto).
    reflexivity.
  - intros Hn Hra Hdec.
    assert (Hst : stored_coords (arg_RA a) (arg_Dec a) (arg_frame a)
                  = Ok (arg_RA a, None))
      by (rewrite Hdec; destruct (arg_RA a) as [[|]|]; reflexivity).
    rewrite (init_stored a _ _ (or_intror (or_introl Hra)) Hst).
    rewrite (proj1 (proj2 (proj2 (validate_required _ _))))
      by (simpl; auto).
    reflexivity.
  - intros ra dec Hn Hst He Hfr.
    destruct (stored_coords_given _ _ _ _ _ Hst) as [Hra Hdec].
    rewrite (init_stored a (Some ra) (Some dec)
               (or_intror (or_introl Hra)) Hst).
    rewrite (proj2 (proj2 (proj2 (validate_required _ _))));
      simpl; try discriminate; try assumption; try reflexivity.
    unfold stored_equinox. rewrite Hfr, He. reflexivity.
  - intros Hfr. unfold stored_equinox. rewrite Hfr. reflexivity.
Qed.

(** C8. With a name and coordinates given, an equinox stored and a
    rotator mode that is valid (or left to its default):
    - a position angle that is neither below 0 nor above 360 is accepted
      and stored as given, whatever the mode (given valid or omitted
      acquisition and object type). These are the [int]s and [float]s from
      0 to 360, and also NaN, which fails both comparisons;
    - a position angle below 0 or above 360 ends construction. A [float]
      gives the TargetError that shows it with one decimal and the range
      [0, 360], and so does an [int] of at most 53 bits. An [int] is
      formatted through [float]: a larger one is shown as the nearest
      double, and one of absolute value 2^1024 or more gives the
      OverflowError of that conversion in place of the TargetError. *)
Theorem init_PA_range (a : Args) (n : string) (ra dec : coordval)
        (pa : Py.number) :
  arg_name a = Some n ->
  stored_coords (arg_RA a) (arg_Dec a) (arg_frame a)
    = Ok (Some ra, Some dec) ->
  stored_equinox a <> None ->
  omitted_or_in (arg_rotmode a) rotator_modes = true ->
  arg_PA a = Some pa ->
  let out_of_range text :=
    TargetError ("Rotator PA " +:+ Py.dq +:+ text +:+ Py.dq
                 +:+ " not in range [0, 360]") in
  (omitted_or_in (arg_acquisition a) acquisition_modes = true ->
   omitted_or_in (arg_objecttype a) object_types = true ->
   (exists z, pa = Py.Int z /\ 0 <= z <= 360) \/
   (exists q, pa = Py.Float q /\ (0 <= q)%Q /\ (q <= 360)%Q) \/
   pa = Py.NaN ->
   exists (self : Target) (ws : list warning),
     init a = Ok (self, ws) /\ PA self = Some pa /\
     rotmode self = or_default (arg_rotmode a) "PA") /\
  (forall q : Q,
      pa = Py.Float q -> (q < 0)%Q \/ (360 < q)%Q ->
      init a = Raise (out_of_range (Py.format_1f_finite q))) /\
  (forall negative : bool,
      pa = Py.Inf negative ->
      init a = Raise (out_of_range (if negative then "-inf" else "inf"))) /\
  (forall z : Z,
      pa = Py.Int z -> z < 0 \/ 360 < z ->
      (Z.abs z < 2 ^ 53 ->
       init a = Raise (out_of_range (Py.format_1f_finite (inject_Z z)))) /\
      (2 ^ 1024 <= Z.abs z ->
       init a = Raise (OverflowError "int too large to convert to float")) /\
      init a = match Py.float_of_int z with
               | Ok q => Raise (out_of_range (Py.format_1f_finite q))
               | Raise err => Raise err
               end).
Proof.
  intros Hn Hst Heq Hrm Hpa out_of_range.
  destruct (stored_coords_given _ _ _ _ _ Hst) as [Hra Hdec].
  rewrite (init_stored a (Some ra) (Some dec)
             (or_intror (or_introl Hra)) Hst).
  destruct (stored_equinox a) as [e |] eqn:He; [| contradiction].
  pose proof (guards_of_value pa) as Hguards.
  assert (Hout :
    Py.lt_int pa 0 = true \/ Py.gt_int pa 360 = true ->
    match
      validate
        {| name := arg_name a; RA := Some ra; Dec := Some dec;
           equinox := Bound (Some e); frame := arg_frame a;
           rotmode := arg_rotmode a; PA := arg_PA a;
           RAOffset := arg_RAOffset a; DecOffset := arg_DecOffset a;
           objecttype := arg_objecttype a;
           acquisition := arg_acquisition a;
           PMRA := arg_PMRA a; PMDec := arg_PMDec a;
           epoch := arg_epoch a; obstime := arg_obstime a;
           mag := arg_mag a; comment := arg_comment a |} []
    with
    | Ok (_, self', ws) => Ok (self', ws)
    | Raise err => Raise err
    end =
    match Py.format_1f pa with
    | Ok text => Raise (out_of_range text)
    | Raise err => Raise err
    end).
  { intros Hbad.
    erewrite validate_PA_out_of_range;
      [| simpl; try reflexivity; eassumption ..].
    destruct (Py.format_1f pa); reflexivity. }
  split; [| split; [| split]].
  - intros Hacq Hot Hin.
    erewrite validate_ok;
      [| simpl; try reflexivity; try eassumption ..].
    + eexists _, _. split; [reflexivity |]. simpl. rewrite Hpa.
      split; reflexivity.
    + simpl. rewrite Hpa. cbn [omitted_or_in_range].
      destruct Hin as [(z & -> & Hz) | [(q & -> & Hlo & Hhi) | ->]];
        cbn [Py.lt_int Py.gt_int].
      * apply andb_true_iff. split; apply negb_true_iff.
        -- apply Z.ltb_ge. lia.
        -- apply Z.ltb_ge. lia.
      * apply andb_true_iff. split; rewrite negb_involutive;
          apply Qle_bool_iff; assumption.
      * reflexivity.
  - intros q -> Hq. rewrite Hout; [reflexivity |].
    destruct Hguards as [Glo Ghi].
    destruct Hq as [Hq | Hq]; [left; apply Glo | right; apply Ghi];
      exact Hq.
  - intros negative ->. rewrite Hout; [reflexivity |].
    destruct negative; [left | right]; reflexivity.
  - intros z -> Hz.
    assert (Hbad : Py.lt_int (Py.Int z) 0 = true \/
                   Py.gt_int (Py.Int z) 360 = true).
    { destruct Hguards as [Glo Ghi].
      destruct Hz as [Hz | Hz]; [left; apply Glo | right; apply Ghi];
        exact Hz. }
    rewrite (Hout Hbad). cbn [Py.format_1f].
    split; [| split].
    + intros Hsmall. rewrite (float_of_int_exact z Hsmall). reflexivity.
    + intros Hhuge. rewrite (float_of_int_overflow z Hhuge). reflexivity.
    + destruct (Py.float_of_int z); reflexivity.
Qed.

(** C9. When exactly one of RA and Dec is a string and the other a
    number, the constructor does not call the sexagesimal parser: with a
    name, an equinox stored and the optional attributes omitted or
    valid, construction succeeds and the object holds RA and Dec as they
    were given, the string still a string. *)
Theorem init_mixed_coordinates (a : Args) (n s : string) (q : Q) :
  arg_name a = Some n ->
  (arg_RA a = Some (Str s) /\ arg_Dec a = Some (Num q)) \/
  (arg_RA a = Some (Num q) /\ arg_Dec a = Some (Str s)) ->
  stored_equinox a <> None ->
  omitted_or_in (arg_rotmode a) rotator_modes = true ->
  omitted_or_in_range (arg_PA a) = true ->
  omitted_or_in (arg_acquisition a) acquisition_modes = true ->
  omitted_or_in (arg_objecttype a) object_types = true ->
  exists (self : Target) (ws : list warning),
    init a = Ok (self, ws) /\
    RA self = arg_RA a /\ Dec self = arg_Dec a.
Proof.
  intros Hn Hmixed Heq Hrm Hpa Hacq Hot.
  assert (Hst : exists ra dec,
             arg_RA a = Some ra /\ arg_Dec a = Some dec /\
             stored_coords (arg_RA a) (arg_Dec a) (arg_frame a)
             = Ok (Some ra, Some dec)).
  { destruct Hmixed as [[-> ->] | [-> ->]]; eexists _, _;
      repeat split; reflexivity. }
  destruct Hst as (ra & dec & Hra & Hdec & Hst).
  destruct (init_ok a n ra dec Hn Hst Heq Hrm Hpa Hacq Hot)
    as (self & Hinit & _ & _ & _ & _ & _ & HRA & HDec & _).
  exists self. eexists. split; [exact Hinit |].
  rewrite HRA, HDec, Hra, Hdec. split; reflexivity.
Qed.

(** When RA and Dec are both strings, what is stored is what the library
    parses them to, in decimal degrees. *)
Lemma init_both_strings (a : Args) (n r d : string) (x y : Q) :
  arg_name a = Some n ->
  arg_RA a = Some (Str r) -> arg_Dec a = Some (Str d) ->
  SkyCoord_parse r d (arg_frame a) = Ok (x, y) ->
  stored_equinox a <> None ->
  omitted_or_in (arg_rotmode a) rotator_modes = true ->
  omitted_or_in_range (arg_PA a) = true ->
  omitted_or_in (arg_acquisition a) acquisition_modes = true ->
  omitted_or_in (arg_objecttype a) object_types = true ->
  exists (self : Target) (ws : list warning),
    init a = Ok (self, ws) /\
    RA self = Some (Num x) /\ Dec self = Some (Num y).
Proof.
  intros Hn Hra Hdec Hparse Heq Hrm Hpa Hacq Hot.
  assert (Hst : stored_coords (arg_RA a) (arg_Dec a) (arg_frame a)
                = Ok (Some (Num x), Some (Num y)))
    by (rewrite Hra, Hdec; simpl; rewrite Hparse; reflexivity).
  destruct (init_ok a n _ _ Hn Hst Heq Hrm Hpa Hacq Hot)
    as (self & Hinit & _ & _ & _ & _ & _ & HRA & HDec & _).
  exists self. eexists. split; [exact Hinit |]. split; assumption.
Qed.

(** ** Proper motion *)



(** ** Values that are not valid *)

Lemma validate_bad_rotmode (self : Target) (ws : list warning)
      (n r : string) (ra dec : coordval) (e : Q) :
  name self = Some n -> RA self = Some ra -> Dec self = Some dec ->
  equinox self = Bound (Some e) ->
  rotmode self = Some r ->
  Py.str_in (Py.lower r) rotator_modes = false ->
  validate self ws =
    Raise (TargetError ("Rotator mode " +:+ Py.dq +:+ r +:+ Py.dq
                        +:+ " is not valid")).
Proof.
  destruct self
    as [n0 ra0 dec0 e0 fr rm pa rao deco ot acq pmra pmdec ep obs mg cm].
  cbn [name RA Dec equinox rotmode]. intros -> -> -> -> -> Hrm.
  start_validate. run_validate. rewrite Hrm. reflexivity.
Qed.

Lemma validate_bad_acquisition (self : Target) (ws : list warning)
      (n a : string) (ra dec : coordval) (e : Q) :
  name self = Some n -> RA self = Some ra -> Dec self = Some dec ->
  equinox self = Bound (Some e) ->
  omitted_or_in (rotmode self) rotator_modes = true ->
  omitted_or_in_range (PA self) = true ->
  acquisition self = Some a ->
  Py.str_in (Py.lower a) acquisition_modes = false ->
  validate self ws =
    Raise (TargetError ("Acquisition mode " +:+ Py.dq +:+ a +:+ Py.dq
                        +:+ " not valid")).
Proof.
  destruct self
    as [n0 ra0 dec0 e0 fr rm pa rao deco ot acq pmra pmdec ep obs mg cm].
  cbn [name RA Dec equinox rotmode PA acquisition].
  intros -> -> -> -> Hrm Hpa -> Hacq.
  destruct default_modes as (Drm & _ & _).
  destruct (in_range_guards (Py.Int 0) eq_refl) as [Dlo Dhi].
  pose proof (valid_PAs_of_mode _ Drm) as Dtab.
  start_validate.
  destruct rm as [r|], pa as [p|];
    cbn [omitted_or_in omitted_or_in_range] in Hrm, Hpa;
    try (pose proof (valid_PAs_of_mode _ Hrm) as Htab);
    try (destruct (in_range_guards _ Hpa) as [Hlo Hhi]);
    repeat (run_validate;
            rewrite ?Hrm, ?Htab, ?Hlo, ?Hhi, ?Hacq,
                    ?Drm, ?Dtab, ?Dlo, ?Dhi);
    reflexivity.
Qed.

Lemma validate_bad_objecttype (self : Target) (ws : list warning)
      (n o : string) (ra dec : coordval) (e : Q) :
  name self = Some n -> RA self = Some ra -> Dec self = Some dec ->
  equinox self = Bound (Some e) ->
  omitted_or_in (rotmode self) rotator_modes = true ->
  omitted_or_in_range (PA self) = true ->
  omitted_or_in (acquisition self) acquisition_modes = true ->
  objecttype self = Some o ->
  Py.str_in (Py.lower o) object_types = false ->
  validate self ws =
    Raise (TargetError ("Object type " +:+ Py.dq +:+ o +:+ Py.dq
                        +:+ " is not valid")).
Proof.
  destruct self
    as [n0 ra0 dec0 e0 fr rm pa rao deco ot acq pmra pmdec ep obs mg cm].
  cbn [name RA Dec equinox rotmode PA acquisition objecttype].
  intros -> -> -> -> Hrm Hpa Hacq -> Hot.
  destruct default_modes as (Drm & Dacq & _).
  destruct (in_range_guards (Py.Int 0) eq_refl) as [Dlo Dhi].
  pose proof (valid_PAs_of_mode _ Drm) as Dtab.
  start_validate.
  destruct rm as [r|], pa as [p|], acq as [a|];
    cbn [omitted_or_in omitted_or_in_range] in Hrm, Hpa, Hacq;
    try (pose proof (valid_PAs_of_mode _ Hrm) as Htab);
    try (destruct (in_range_guards _ Hpa) as [Hlo Hhi]);
    repeat (run_validate;
            rewrite ?Hrm, ?Htab, ?Hlo, ?Hhi, ?Hacq, ?Hot,
                    ?Drm, ?Dtab, ?Dlo, ?Dhi, ?Dacq);
    reflexivity.
Qed.

Lemma out_of_range_of_bool (p : Py.number) :
  negb (Py.lt_int p 0) && negb (Py.gt_int p 360) = false ->
  Py.lt_int p 0 = true \/ Py.gt_int p 360 = true.
Proof.
  intros Hb. apply andb_false_iff in Hb. destruct Hb as [Hlo | Hhi].
  - left. apply negb_false_iff. exact Hlo.
  - right. apply negb_false_iff. exact Hhi.
Qed.

(** ** What a successful [validate] means *)

Lemma validate_unset_equinox (self : Target) (ws : list warning) :
  name self <> None -> RA self <> None -> Dec self <> None ->
  equinox self = Unset ->
  validate self ws =
    Raise (AttributeError "'Target' object has no attribute 'equinox'").
Proof.
  destruct self
    as [n0 ra0 dec0 e0 fr rm pa rao deco ot acq pmra pmdec ep obs mg cm].
  simpl. intros Hn Hra Hdec ->.
  destruct n0; [| contradiction]. destruct ra0; [| contradiction].
  destruct dec0; [| contradiction]. reflexivity.
Qed.

Lemma validate_inv (self self' : Target) (ws ws' : list warning) (u : unit) :
  validate self ws = Ok (u, self', ws') ->
  (exists n, name self = Some n) /\ (exists ra, RA self = Some ra) /\
  (exists dec, Dec self = Some dec) /\
  (exists e, equinox self = Bound (Some e)) /\
  omitted_or_in (rotmode self) rotator_modes = true /\
  omitted_or_in_range (PA self) = true /\
  omitted_or_in (acquisition self) acquisition_modes = true /\
  omitted_or_in (objecttype self) object_types = true.
Proof.
  intros Hv.
  destruct (validate_required self ws) as (Rn & Rra & Rdec & Req).
  destruct (name self) as [n |] eqn:Hn;
    [| rewrite (Rn eq_refl) in Hv; discriminate].
  destruct (RA self) as [ra |] eqn:Hra;
    [| rewrite (Rra ltac:(discriminate) eq_refl) in Hv; discriminate].
  destruct (Dec self) as [dec |] eqn:Hdec;
    [| rewrite (Rdec ltac:(discriminate) ltac:(discriminate) eq_refl) in Hv;
       discriminate].
  destruct (equinox self) as [| [e |]] eqn:He.
  - rewrite validate_unset_equinox in Hv;
      [discriminate | rewrite ?Hn, ?Hra, ?Hdec; discriminate .. | exact He].
  - clear Rn Rra Rdec Req.
    assert (Hrm : omitted_or_in (rotmode self) rotator_modes = true).
    { destruct (rotmode self) as [r |] eqn:Hr; [| reflexivity].
      cbn [omitted_or_in].
      destruct (Py.str_in (Py.lower r) rotator_modes) eqn:Hb;
        [reflexivity |].
      rewrite (validate_bad_rotmode self ws n r ra dec e) in Hv;
        [discriminate | assumption ..]. }
    assert (Hpa : omitted_or_in_range (PA self) = true).
    { destruct (PA self) as [p |] eqn:Hp; [| reflexivity].
      cbn [omitted_or_in_range].
      destruct (negb (Py.lt_int p 0) && negb (Py.gt_int p 360)) eqn:Hb;
        [reflexivity |].
      apply out_of_range_of_bool in Hb.
      rewrite (validate_PA_out_of_range self ws n ra dec e p) in Hv;
        [destruct (Py.format_1f p); discriminate | assumption ..]. }
    assert (Hacq : omitted_or_in (acquisition self) acquisition_modes = true).
    { destruct (acquisition self) as [a |] eqn:Ha; [| reflexivity].
      cbn [omitted_or_in].
      destruct (Py.str_in (Py.lower a) acquisition_modes) eqn:Hb;
        [reflexivity |].
      rewrite (validate_bad_acquisition self ws n a ra dec e) in Hv;
        [discriminate | assumption ..]. }
    assert (Hot : omitted_or_in (objecttype self) object_types = true).
    { destruct (objecttype self) as [o |] eqn:Ho; [| reflexivity].
      cbn [omitted_or_in].
      destruct (Py.str_in (Py.lower o) object_types) eqn:Hb;
        [reflexivity |].
      rewrite (validate_bad_objecttype self ws n o ra dec e) in Hv;
        [discriminate | assumption ..]. }
    repeat split; eauto.
  - rewrite (Req ltac:(discriminate) ltac:(discriminate)
               ltac:(discriminate) eq_refl) in Hv.
    discriminate.
Qed.

(** The object that [validate] leaves: the defaults put in, nothing else
    touched. *)
Lemma validate_result (self self' : Target) (ws ws' : list warning)
      (u : unit) :
  validate self ws = Ok (u, self', ws') ->
  self' =
    set_objecttype (or_default (objecttype self) "science")
      (set_acquisition (or_default (acquisition self) "guider: bright")
         (set_PA (or_default (PA self) (Py.Int 0))
            (set_rotmode (or_default (rotmode self) "PA") self))) /\
  ws' =
    ws ++ warning_if_omitted (rotmode self)
            "No rotator mode given, assuming PA mode"
       ++ warning_if_omitted (PA self) "No PA given, assuming 0 deg"
       ++ warning_if_omitted (acquisition self)
            ("No acquisition mode given, assuming " +:+ Py.dq
             +:+ "guider: bright" +:+ Py.dq)
       ++ warning_if_omitted (objecttype self)
            ("No object type given, assuming " +:+ Py.dq +:+ "science"
             +:+ Py.dq).
Proof.
  intros Hv.
  destruct (validate_inv _ _ _ _ _ Hv)
    as ((n & Hn) & (ra & Hra) & (dec & Hdec) & (e & He) & Hrm & Hpa & Hacq
        & Hot).
  rewrite (validate_ok self ws n ra dec e Hn Hra Hdec He Hrm Hpa Hacq Hot)
    in Hv.
  injection Hv as _ <- <-. split; reflexivity.
Qed.

Lemma or_default_valid (o : option string) (d : string) (l : list string) :
  omitted_or_in o l = true -> Py.str_in (Py.lower d) l = true ->
  exists x, or_default o d = Some x /\ Py.str_in (Py.lower x) l = true.
Proof.
  intros Ho Hd. destruct o as [x |]; [exists x | exists d]; split;
    first [reflexivity | assumption].
Qed.

(** A number is neither below 0 nor above 360 exactly when it is an [int]
    or a [float] from 0 to 360, or NaN. *)
Lemma angle_or_nan_guards (p : Py.number) :
  angle_or_nan p <->
  Py.lt_int p 0 = false /\ Py.gt_int p 360 = false.
Proof.
  destruct p as [z | q | negative |];
    cbn [angle_or_nan Py.lt_int Py.gt_int].
  - rewrite !Z.ltb_ge. split; intros [Hlo Hhi]; split; assumption.
  - rewrite !negb_false_iff, !Qle_bool_iff.
    split; intros [Hlo Hhi]; split; assumption.
  - destruct negative;
      (split; [intros [] | intros [Hlo Hhi]; discriminate]).
  - split; [intros _; split; reflexivity | intros _; exact I].
Qed.

(** What holds of every object that [validate] has accepted. *)
Lemma validate_post (self self' : Target) (ws ws' : list warning)
      (u : unit) :
  validate self ws = Ok (u, self', ws') ->
  (exists n, name self' = Some n) /\ (exists ra, RA self' = Some ra) /\
  (exists dec, Dec self' = Some dec) /\
  (exists e, equinox self' = Bound (Some e)) /\
  (exists r, rotmode self' = Some r /\
             Py.str_in (Py.lower r) rotator_modes = true) /\
  (exists p, PA self' = Some p /\
             Py.lt_int p 0 = false /\ Py.gt_int p 360 = false) /\
  (exists m, acquisition self' = Some m /\
             Py.str_in (Py.lower m) acquisition_modes = true) /\
  (exists o, objecttype self' = Some o /\
             Py.str_in (Py.lower o) object_types = true).
Proof.
  intros Hv.
  destruct (validate_inv _ _ _ _ _ Hv)
    as (Hn & Hra & Hdec & He & Hrm & Hpa & Hacq & Hot).
  destruct (validate_result _ _ _ _ _ Hv) as [-> _].
  destruct default_modes as (Drm & Dacq & Dot).
  destruct self
    as [n0 ra0 dec0 e0 fr rm pa rao deco ot acq pmra pmdec ep obs mg cm].
  cbn [name RA Dec equinox rotmode PA acquisition objecttype
       set_rotmode set_PA set_acquisition set_objecttype] in *.
  repeat split; try assumption.
  - exact (or_default_valid _ _ _ Hrm Drm).
  - destruct pa as [p |]; cbn [or_default omitted_or_in_range] in *.
    + exists p. destruct (in_range_guards _ Hpa) as [Hlo Hhi]. auto.
    + exists (Py.Int 0). repeat split; reflexivity.
  - exact (or_default_valid _ _ _ Hacq Dacq).
  - exact (or_default_valid _ _ _ Hot Dot).
Qed.

(** Validating again changes nothing and warns of nothing. *)
Lemma validate_again (self self' : Target) (ws ws' ws2 : list warning)
      (u : unit) :
  validate self ws = Ok (u, self', ws') ->
  validate self' ws2 = Ok (tt, self', ws2).
Proof.
  intros Hv.
  destruct (validate_post _ _ _ _ _ Hv)
    as ((n & Hn) & (ra & Hra) & (dec & Hdec) & (e & He) & (r & Hr & Hrv)
        & (p & Hp & Hlo & Hhi) & (m & Hm & Hmv) & (o & Ho & Hov)).
  rewrite (validate_ok self' ws2 n ra dec e Hn Hra Hdec He).
  - rewrite Hr, Hp, Hm, Ho. cbn [or_default warning_if_omitted app].
    rewrite app_nil_r.
    destruct self'
      as [n0 ra0 dec0 e0 fr rm pa rao deco ot acq pmra pmdec ep obs mg cm].
    cbn [rotmode PA acquisition objecttype] in Hr, Hp, Hm, Ho. subst.
    reflexivity.
  - rewrite Hr. exact Hrv.
  - rewrite Hp. cbn [omitted_or_in_range]. rewrite Hlo, Hhi. reflexivity.
  - rewrite Hm. exact Hmv.
  - rewrite Ho. exact Hov.
Qed.

(** The constructor ends with [validate] on some object. *)
Lemma init_inv (a : Args) (self : Target) (ws : list warning) :
  init a = Ok (self, ws) ->
  exists pre : Target, validate pre [] = Ok (tt, self, ws).
Proof.
  unfold init.
  match goal with
  | |- res_bind ?x _ = _ -> _ => destruct x as [pre | err]
  end; cbn [res_bind]; [| discriminate].
  destruct (validate pre []) as [[[[] self'] ws'] | err] eqn:Hv;
    [| discriminate].
  intros Hi. injection Hi as <- <-. exists pre. exact Hv.
Qed.

(** ** Validation, in full *)

(** X7. For an object whose rotmode, acquisition and objecttype are [None]
    or ASCII strings, [validate] succeeds exactly when its name, RA and Dec
    are not [None], its equinox is a number, each of rotmode, acquisition
    and objecttype is [None] or, once in lower case, one of the listed
    values, and PA is [None] or neither below 0 nor above 360 (a number
    from 0 to 360, or NaN). *)
Theorem validate_succeeds_iff (self : Target) (ws : list warning) :
  omitted_or_ascii (rotmode self) = true ->
  omitted_or_ascii (acquisition self) = true ->
  omitted_or_ascii (objecttype self) = true ->
  (exists (self' : Target) (ws' : list warning),
      validate self ws = Ok (tt, self', ws')) <->
  name self <> None /\ RA self <> None /\ Dec self <> None /\
  (exists e, equinox self = Bound (Some e)) /\
  omitted_or_in (rotmode self) rotator_modes = true /\
  (PA self = None \/ exists p, PA self = Some p /\ angle_or_nan p) /\
  omitted_or_in (acquisition self) acquisition_modes = true /\
  omitted_or_in (objecttype self) object_types = true.
Proof.
  intros _ _ _.
  assert (Hangle :
    omitted_or_in_range (PA self) = true <->
    (PA self = None \/ exists p, PA self = Some p /\ angle_or_nan p)).
  { destruct (PA self) as [p |]; cbn [omitted_or_in_range].
    - split.
      + intros Hp. right. exists p. split; [reflexivity |].
        apply angle_or_nan_guards. exact (in_range_guards p Hp).
      + intros [Hnone | (p' & Hp' & Hangle)]; [discriminate |].
        injection Hp' as <-. apply angle_or_nan_guards in Hangle.
        destruct Hangle as [-> ->]. reflexivity.
    - split; [intros _; left; reflexivity | reflexivity]. }
  rewrite <- Hangle. split.
  - intros (self' & ws' & Hv).
    destruct (validate_inv _ _ _ _ _ Hv)
      as ((n & Hn) & (ra & Hra) & (dec & Hdec) & He & Hrest).
    rewrite Hn, Hra, Hdec.
    repeat split; try discriminate; try exact He; apply Hrest.
  - intros (Hn & Hra & Hdec & (e & He) & Hrm & Hpa & Hacq & Hot).
    destruct (name self) as [n |] eqn:En; [| contradiction].
    destruct (RA self) as [ra |] eqn:Era; [| contradiction].
    destruct (Dec self) as [dec |] eqn:Edec; [| contradiction].
    eexists _, _.
    apply (validate_ok self ws n ra dec e); assumption.
Qed.

(** X8. A successful [validate] only fills in: the object it leaves is the
    one it was given with [PA], [0], [guider: bright] and [science] put in
    for the rotmode, PA, acquisition and objecttype that were [None]; and
    validating that object again, any number of times, leaves it as it is
    and adds no warning. *)
Theorem validate_fills_once (self self' : Target) (ws ws' : list warning) :
  validate self ws = Ok (tt, self', ws') ->
  self' =
    set_objecttype (or_default (objecttype self) "science")
      (set_acquisition (or_default (acquisition self) "guider: bright")
         (set_PA (or_default (PA self) (Py.Int 0))
            (set_rotmode (or_default (rotmode self) "PA") self))) /\
  forall ws2 : list warning, validate self' ws2 = Ok (tt, self', ws2).
Proof.
  intros Hv. split.
  - exact (proj1 (validate_result _ _ _ _ _ Hv)).
  - intros ws2. exact (validate_again _ _ _ _ ws2 _ Hv).
Qed.

(** X9. Every target that the constructor returns for a rotmode, an
    acquisition and an objecttype that are omitted or ASCII strings has a
    name, an RA and a Dec that are not [None], a number for its equinox, a
    rotmode, an acquisition and an objecttype that are, in lower case,
    listed values, and a PA that is a number from 0 to 360 or NaN (which
    the two comparisons of [validate] let through); at most four warnings
    were emitted; and [validate] on it succeeds without changing it. *)
Theorem init_establishes_invariant (a : Args) (self : Target)
        (ws : list warning) :
  omitted_or_ascii (arg_rotmode a) = true ->
  omitted_or_ascii (arg_acquisition a) = true ->
  omitted_or_ascii (arg_objecttype a) = true ->
  init a = Ok (self, ws) ->
  (exists n, name self = Some n) /\ (exists ra, RA self = Some ra) /\
  (exists dec, Dec self = Some dec) /\
  (exists e, equinox self = Bound (Some e)) /\
  (exists r, rotmode self = Some r /\
             Py.str_in (Py.lower r) rotator_modes = true) /\
  (exists p, PA self = Some p /\ angle_or_nan p) /\
  (exists m, acquisition self = Some m /\
             Py.str_in (Py.lower m) acquisition_modes = true) /\
  (exists o, objecttype self = Some o /\
             Py.str_in (Py.lower o) object_types = true) /\
  (length ws <= 4)%nat /\
  forall ws2 : list warning, validate self ws2 = Ok (tt, self, ws2).
Proof.
  intros _ _ _ Hi. destruct (init_inv _ _ _ Hi) as [pre Hv].
  destruct (validate_post _ _ _ _ _ Hv)
    as (Hn & Hra & Hdec & He & Hr & (p & Hp & Hlo & Hhi) & Hm & Ho).
  destruct (validate_result _ _ _ _ _ Hv) as [_ Hws].
  split; [exact Hn |]. split; [exact Hra |]. split; [exact Hdec |].
  split; [exact He |]. split; [exact Hr |].
  split.
  { exists p. split; [exact Hp |]. apply angle_or_nan_guards. auto. }
  split; [exact Hm |]. split; [exact Ho |]. split.
  - rewrite Hws.
    destruct (rotmode pre), (PA pre), (acquisition pre), (objecttype pre);
      simpl; lia.
  - intros ws2. exact (validate_again _ _ _ _ ws2 _ Hv).
Qed.

(** X10. With the required attributes there, a rotmode, an acquisition or an
    objecttype that is given as an ASCII string and is not, in lower case, a
    listed value ends construction with a TargetError that quotes the value
    as it was given; they are checked in this order, the position angle
    between rotmode and acquisition. *)
Theorem init_rejects_unlisted_values (a : Args) (n : string)
        (ra dec : coordval) :
  arg_name a = Some n ->
  stored_coords (arg_RA a) (arg_Dec a) (arg_frame a)
    = Ok (Some ra, Some dec) ->
  stored_equinox a <> None ->
  (forall r : string,
      arg_rotmode a = Some r ->
      Py.is_ascii r = true ->
      Py.str_in (Py.lower r) rotator_modes = false ->
      init a = Raise (TargetError ("Rotator mode " +:+ Py.dq +:+ r +:+ Py.dq
                                   +:+ " is not valid"))) /\
  (forall m : string,
      omitted_or_in (arg_rotmode a) rotator_modes = true ->
      omitted_or_in_range (arg_PA a) = true ->
      arg_acquisition a = Some m ->
      Py.is_ascii m = true ->
      Py.str_in (Py.lower m) acquisition_modes = false ->
      init a = Raise (TargetError ("Acquisition mode " +:+ Py.dq +:+ m
                                   +:+ Py.dq +:+ " not valid"))) /\
  (forall o : string,
      omitted_or_in (arg_rotmode a) rotator_modes = true ->
      omitted_or_in_range (arg_PA a) = true ->
      omitted_or_in (arg_acquisition a) acquisition_modes = true ->
      arg_objecttype a = Some o ->
      Py.is_ascii o = true ->
      Py.str_in (Py.lower o) object_types = false ->
      init a = Raise (TargetError ("Object type " +:+ Py.dq +:+ o +:+ Py.dq
                                   +:+ " is not valid"))).
Proof.
  intros Hn Hst Heq.
  destruct (stored_coords_given _ _ _ _ _ Hst) as [Hra Hdec].
  rewrite (init_stored a (Some ra) (Some dec)
             (or_intror (or_introl Hra)) Hst).
  destruct (stored_equinox a) as [e |] eqn:He; [| contradiction].
  split; [| split].
  - intros r Hr _ Hbad.
    erewrite validate_bad_rotmode;
      [reflexivity | cbn; try reflexivity; eassumption ..].
  - intros m Hrm Hpa Hm _ Hbad.
    erewrite validate_bad_acquisition;
      [reflexivity | cbn; try reflexivity; eassumption ..].
  - intros o Hrm Hpa Hacq Ho _ Hbad.
    erewrite validate_bad_objecttype;
      [reflexivity | cbn; try reflexivity; eassumption ..].
Qed.


(** ** Name resolution *)

(** X11. When a name is given and RA and Dec are both omitted, the resolver
    decides: its failure is the failure of the constructor, and the
    position it gives, in the icrs frame, makes a target with that name and
    position, frame icrs and equinox 2000, whatever frame and equinox the
    caller gave, the other attributes being the arguments with their
    defaults put in. *)
Theorem init_resolves_name (a : Args) (n : string) :
  arg_name a = Some n -> arg_RA a = None -> arg_Dec a = None ->
  (forall err : exn,
      SkyCoord_from_name n = Raise err -> init a = Raise err) /\
  (forall ra dec : Q,
      SkyCoord_from_name n = Ok (ra, dec, "icrs") ->
      omitted_or_in (arg_rotmode a) rotator_modes = true ->
      omitted_or_in_range (arg_PA a) = true ->
      omitted_or_in (arg_acquisition a) acquisition_modes = true ->
      omitted_or_in (arg_objecttype a) object_types = true ->
      exists (self : Target) (ws : list warning),
        init a = Ok (self, ws) /\
        name self = Some n /\
        RA self = Some (Num ra) /\ Dec self = Some (Num dec) /\
        frame self = Some "icrs" /\ equinox self = Bound (Some 2000%Q) /\
        rotmode self = or_default (arg_rotmode a) "PA" /\
        PA self = or_default (arg_PA a) (Py.Int 0) /\
        acquisition self
          = or_default (arg_acquisition a) "guider: bright" /\
        objecttype self = or_default (arg_objecttype a) "science" /\
        PMRA self = arg_PMRA a /\ PMDec self = arg_PMDec a /\
        epoch self = arg_epoch a /\ obstime self = arg_obstime a).
Proof.
  destruct a as [n0 ra0 dec0 e fr rm pa rao deco ot acq pmra pmdec ep obs
                   mg cm].
  cbn [arg_name arg_RA arg_Dec arg_rotmode arg_PA arg_acquisition
       arg_objecttype arg_PMRA arg_PMDec arg_epoch arg_obstime].
  intros -> -> ->. unfold init, from_name.
  cbn [arg_name arg_RA arg_Dec arg_rotmode arg_PA arg_acquisition
       arg_objecttype arg_equinox arg_frame arg_RAOffset arg_DecOffset
       arg_PMRA arg_PMDec arg_epoch arg_obstime arg_mag arg_comment].
  split.
  - intros err ->. reflexivity.
  - intros ra dec -> Hrm Hpa Hacq Hot.
    cbn [res_bind]. rewrite String.eqb_refl. cbn [res_bind].
    erewrite validate_ok;
      [| cbn [name RA Dec equinox rotmode PA acquisition objecttype
              set_name set_RA set_Dec set_frame set_equinox];
         try reflexivity; eassumption ..].
    eexists _, _. split; [reflexivity |]. repeat split; reflexivity.
Qed.

(** ** The clock *)

(** X12. [coord] reads the clock only for what is missing: once when there
    is no epoch, and once more when it propagates and there is no obstime.
    With an epoch and an obstime it never reads it; when a proper-motion
    component is zero, obstime is not looked at and the coordinate does not
    depend on it. *)
Theorem coord_reads_clock_for_missing (self : Target) (k k' : nat)
        (sc : SkyCoord) :
  coord self k = Ok (sc, k') ->
  (k <= k' <= k + 2)%nat /\
  (epoch self <> None -> obstime self <> None -> k' = k) /\
  ((PMRA self == 0)%Q \/ (PMDec self == 0)%Q ->
   (k' = if is_None (epoch self) then S k else k) /\
   forall v : option obstimeval,
     coord (Target.set_obstime v self) k = Ok (sc, k')).
Proof.
  destruct self
    as [n0 ra0 dec0 e0 fr rm pa rao deco ot acq pmra pmdec ep obs mg cm].
  unfold coord.
  cbn [equinox epoch RA Dec frame PMRA PMDec obstime Target.set_obstime].
  destruct e0 as [| [e |]]; [discriminate | | discriminate].
  destruct ep as [y |]; cbn [now];
    match goal with
    | |- res_bind ?x _ = _ -> _ => destruct x as [sc0 | err]
    end; cbn [res_bind]; try discriminate;
    destruct (Qlt_bool 0 (Qabs pmra) && Qlt_bool 0 (Qabs pmdec)) eqn:Hpm;
    try (destruct obs as [[y' | t] |]); cbn [now];
    intros Hc; injection Hc as <- <-;
    (split; [lia |]);
    (split; [intros Hep Hobs; try reflexivity; contradiction |]);
    intros Hz;
    try (exfalso; apply andb_true_iff in Hpm; destruct Hpm as [Ha Hb];
         apply abs_positive in Ha; apply abs_positive in Hb;
         destruct Hz; contradiction);
    (split; [reflexivity | intros v; reflexivity]).
Qed.

End Facts.

(** ** The properties at concrete targets *)

(** [Target(name='a', RA=10.5, Dec=-20)]: every optional attribute is
    defaulted, with four warnings. *)
Lemma init_defaults_and_required_witness :
  arg_name Terms.named_args = Some "a" /\
  stored_equinox Terms.named_args = Some 2000%Q /\
  exists self : Target,
    init Terms.named_args =
      Ok (self,
          [TargetWarning "No rotator mode given, assuming PA mode";
           TargetWarning "No PA given, assuming 0 deg";
           TargetWarning ("No acquisition mode given, assuming " +:+ Py.dq
                          +:+ "guider: bright" +:+ Py.dq);
           TargetWarning ("No object type given, assuming " +:+ Py.dq
                          +:+ "science" +:+ Py.dq)]) /\
    rotmode self = Some "PA" /\ PA self = Some (Py.Int 0) /\
    acquisition self = Some "guider: bright" /\
    objecttype self = Some "science".
Proof.
  split; [reflexivity |]. split; [reflexivity |].
  destruct (proj1 (init_defaults_and_required Terms.named_args)
              "a" (Num (21 # 2)) (Num (-20)%Q)
              eq_refl eq_refl ltac:(discriminate)
              eq_refl eq_refl eq_refl eq_refl)
    as (self & Hinit & Hrm & Hpa & Hacq & Hot & _).
  exists self. repeat split; assumption.
Defined.

(** The same call shows what C7 as it is worded gets wrong: no equinox is
    given and construction succeeds, the frame being icrs; and the default
    stored for rotmode is the string PA, not pa. *)
Lemma init_defaults_counterexample :
  arg_equinox Terms.named_args = None /\
  arg_rotmode Terms.named_args = None /\
  exists (self : Target) (ws : list warning),
    init Terms.named_args = Ok (self, ws) /\
    equinox self = Bound (Some 2000%Q) /\
    rotmode self = Some "PA" /\
    rotmode self <> Some "pa".
Proof.
  split; [reflexivity |]. split; [reflexivity |].
  eexists _, _. split; [vm_compute; reflexivity |].
  split; [reflexivity |]. split; [reflexivity |]. discriminate.
Qed.

(** [Target(name='a', RA=10.5, Dec=-20, rotmode='Vertical', PA=45)] keeps
    its position angle, and so does the same call with [PA=float('nan')];
    with [PA=400] and with [PA=360.25] it fails with the TargetError, with
    [PA=2**53+1] the TargetError shows another number, and with
    [PA=10**400] it fails with an OverflowError. *)
Lemma init_PA_range_witness :
  let call pa :=
    init (with_PA (Some pa)
            (with_rotmode (Some "Vertical") Terms.named_args)) in
  let out_of_range text :=
    TargetError ("Rotator PA " +:+ Py.dq +:+ text +:+ Py.dq
                 +:+ " not in range [0, 360]") in
  (exists (self : Target) (ws : list warning),
      call (Py.Int 45) = Ok (self, ws) /\
      PA self = Some (Py.Int 45) /\ rotmode self = Some "Vertical") /\
  (exists (self : Target) (ws : list warning),
      call Py.NaN = Ok (self, ws) /\ PA self = Some Py.NaN) /\
  call (Py.Int 400) = Raise (out_of_range "400.0") /\
  call (Py.Float (1441 # 4)) = Raise (out_of_range "360.2") /\
  call (Py.Int (2 ^ 53 + 1)) = Raise (out_of_range "9007199254740992.0") /\
  call (Py.Int (10 ^ 400))
    = Raise (OverflowError "int too large to convert to float").
Proof.
  intros call out_of_range.
  assert (Hthm : forall pa : Py.number,
            _ /\ _ /\ _ /\ _) by
    exact (fun pa =>
             init_PA_range
               (with_PA (Some pa)
                  (with_rotmode (Some "Vertical") Terms.named_args))
               "a" (Num (21 # 2)) (Num (-20)%Q) pa
               eq_refl eq_refl ltac:(discriminate) eq_refl eq_refl).
  split; [| split; [| split; [| split; [| split]]]].
  - destruct (proj1 (Hthm (Py.Int 45)) eq_refl eq_refl)
      as (self & ws & Hinit & Hpa & Hrm).
    + left. exists 45. split; [reflexivity | lia].
    + exists self, ws. repeat split; assumption.
  - destruct (proj1 (Hthm Py.NaN) eq_refl eq_refl)
      as (self & ws & Hinit & Hpa & _).
    + right. right. reflexivity.
    + exists self, ws. split; assumption.
  - destruct (proj2 (proj2 (proj2 (Hthm (Py.Int 400)))) 400 eq_refl)
      as (Hsmall & _ & _); [right; reflexivity |].
    apply Hsmall. reflexivity.
  - apply (proj1 (proj2 (Hthm (Py.Float (1441 # 4)))) _ eq_refl).
    right. reflexivity.
  - destruct (proj2 (proj2 (proj2 (Hthm (Py.Int (2 ^ 53 + 1)))))
                (2 ^ 53 + 1) eq_refl)
      as (_ & _ & Hany); [right; reflexivity |].
    exact Hany.
  - destruct (proj2 (proj2 (proj2 (Hthm (Py.Int (10 ^ 400)))))
                (10 ^ 400) eq_refl)
      as (_ & Hhuge & _); [right; vm_compute; reflexivity |].
    apply Hhuge. vm_compute. discriminate.
Defined.

(** [Target(name='a', RA='12:00:00', Dec=-20)]: the string stays. *)
Lemma init_mixed_coordinates_witness :
  exists (self : Target) (ws : list warning),
    init (with_RA (Some (Str "12:00:00")) Terms.named_args)
      = Ok (self, ws) /\
    RA self = Some (Str "12:00:00") /\ Dec self = Some (Num (-20)%Q).
Proof.
  apply (init_mixed_coordinates
           (with_RA (Some (Str "12:00:00")) Terms.named_args)
           "a" "12:00:00" (-20)%Q eq_refl
           (or_introl (conj eq_refl eq_refl)) ltac:(discriminate)
           eq_refl eq_refl eq_refl eq_refl).
Defined.


(** A validated target validates with its position angle made NaN, and
    does not with 361. *)
Lemma validate_succeeds_iff_witness :
  (exists (self' : Target) (ws' : list warning),
      validate (set_PA (Some Py.NaN) (Terms.moving 0 0)) []
      = Ok (tt, self', ws')) /\
  ~ (exists (self' : Target) (ws' : list warning),
        validate (set_PA (Some (Py.Int 361)) (Terms.moving 0 0)) []
        = Ok (tt, self', ws')).
Proof.
  split.
  - apply (proj2 (validate_succeeds_iff
                    (set_PA (Some Py.NaN) (Terms.moving 0 0)) []
                    eq_refl eq_refl eq_refl)).
    split; [discriminate |]. split; [discriminate |].
    split; [discriminate |]. split; [exists 2000%Q; reflexivity |].
    split; [reflexivity |].
    split; [right; exists Py.NaN; split; [reflexivity | exact I] |].
    split; reflexivity.
  - intros Hok.
    apply (proj1 (validate_succeeds_iff
                    (set_PA (Some (Py.Int 361)) (Terms.moving 0 0)) []
                    eq_refl eq_refl eq_refl)) in Hok.
    destruct Hok as (_ & _ & _ & _ & _ & [Hnone | (p & Hp & Hangle)] & _);
      [discriminate Hnone |].
    injection Hp as <-. cbn [angle_or_nan] in Hangle. lia.
Defined.

(** A validated target whose rotmode has been taken away gets it back with
    one warning, and is then left as it is. *)
Lemma validate_fills_once_witness :
  validate (set_rotmode None (Terms.moving 0 0)) []
    = Ok (tt, Terms.moving 0 0,
          [TargetWarning "No rotator mode given, assuming PA mode"]) /\
  forall ws2 : list warning,
    validate (Terms.moving 0 0) ws2 = Ok (tt, Terms.moving 0 0, ws2).
Proof.
  assert (Hv : validate (set_rotmode None (Terms.moving 0 0)) []
               = Ok (tt, Terms.moving 0 0,
                     [TargetWarning "No rotator mode given, assuming PA mode"]))
    by reflexivity.
  split; [exact Hv |].
  exact (proj2 (validate_fills_once _ _ _ _ Hv)).
Defined.

(** [Target(name='a', RA=10.5, Dec=-20)]: four warnings, and a target that
    validates as it is. *)
Lemma init_establishes_invariant_witness :
  exists (self : Target) (ws : list warning),
    init Terms.named_args = Ok (self, ws) /\
    (length ws <= 4)%nat /\
    forall ws2 : list warning, validate self ws2 = Ok (tt, self, ws2).
Proof.
  destruct (init Terms.named_args) as [[self ws] | e] eqn:Hi;
    [| vm_compute in Hi; discriminate Hi].
  exists self, ws. split; [reflexivity |].
  destruct (init_establishes_invariant Terms.named_args self ws
              eq_refl eq_refl eq_refl Hi)
    as (_ & _ & _ & _ & _ & _ & _ & _ & Hlen & Hagain).
  split; [exact Hlen | exact Hagain].
Defined.

(** [rotmode='sideways'] and [objecttype='planet'] on
    [Target(name='a', RA=10.5, Dec=-20)]. *)
Lemma init_rejects_unlisted_values_witness :
  init (with_rotmode (Some "sideways") Terms.named_args)
    = Raise (TargetError ("Rotator mode " +:+ Py.dq +:+ "sideways" +:+ Py.dq
                          +:+ " is not valid")) /\
  init (with_objecttype (Some "planet") Terms.named_args)
    = Raise (TargetError ("Object type " +:+ Py.dq +:+ "planet" +:+ Py.dq
                          +:+ " is not valid")).
Proof.
  split.
  - apply (proj1 (init_rejects_unlisted_values
                    (with_rotmode (Some "sideways") Terms.named_args)
                    "a" (Num (21 # 2)) (Num (-20)%Q)
                    eq_refl eq_refl ltac:(discriminate)));
      reflexivity.
  - apply (proj2 (proj2 (init_rejects_unlisted_values
                           (with_objecttype (Some "planet") Terms.named_args)
                           "a" (Num (21 # 2)) (Num (-20)%Q)
                           eq_refl eq_refl ltac:(discriminate))));
      reflexivity.
Defined.

(** [Target(name=n, frame='fk4', equinox=1950)] for a name that is not
    found and for one that is. *)
Lemma init_resolves_name_witness :
  init (Catalog.by_name "nowhere")
    = Raise (LibraryError "Unable to find coordinates for name") /\
  exists (self : Target) (ws : list warning),
    init (Catalog.by_name "M31") = Ok (self, ws) /\
    name self = Some "M31" /\
    RA self = Some (Num (106847 # 10000)) /\
    Dec self = Some (Num (412688 # 10000)) /\
    frame self = Some "icrs" /\ equinox self = Bound (Some 2000%Q).
Proof.
  split.
  - exact (proj1 (init_resolves_name (Catalog.by_name "nowhere") "nowhere"
                    eq_refl eq_refl eq_refl) _ eq_refl).
  - destruct (proj2 (init_resolves_name (Catalog.by_name "M31") "M31"
                       eq_refl eq_refl eq_refl)
                (106847 # 10000) (412688 # 10000) eq_refl
                eq_refl eq_refl eq_refl eq_refl)
      as (self & ws & Hinit & Hn & Hra & Hdec & Hfr & Heq & _).
    exists self, ws. repeat split; assumption.
Defined.

(** A target with an epoch and [PMDec=0]: the clock is not read, and the
    coordinate is the same whatever obstime is. *)
Lemma coord_reads_clock_for_missing_witness :
  exists sc : Terms.skycoord,
    coord (Terms.moving (1 # 10) 0) 0 = Ok (sc, 0%nat) /\
    forall v : option obstimeval,
      coord (set_obstime v (Terms.moving (1 # 10) 0)) 0 = Ok (sc, 0%nat).
Proof.
  eexists. split; [reflexivity |].
  destruct (proj2 (proj2 (coord_reads_clock_for_missing
                            (Terms.moving (1 # 10) 0) 0 0 _ eq_refl))
              (or_intror (Qeq_refl 0))) as [_ Hv].
  exact Hv.
Defined.

End TargetFacts.

(** * Properties of TargetList *)

Module TargetListFacts.
Import Target.

Section Facts.
Context `{Astropy}.

(** ** validate *)

(** Members that the constructor made are passed over. *)
Lemma validate_constructed (data : list nat)
      (h : list Target) (ws : list warning) :
  (forall t, In t data ->
             exists o a ws0, h !! t = Some o /\ init a = Ok (o, ws0)) ->
  TargetList.validate data h ws = Ok (h, ws).
Proof.
  induction data as [|t data IH]; intros Hall; [reflexivity |].
  destruct (Hall t (or_introl eq_refl)) as (o & a & ws0 & Ho & Hinit).
  destruct (TargetFacts.init_inv _ _ _ Hinit) as [pre Hpre].
  cbn [TargetList.validate]. rewrite Ho.
  rewrite (TargetFacts.validate_again _ _ _ _ ws _ Hpre).
  rewrite (list_insert_id h t o Ho).
  apply IH. intros t' Ht'. apply Hall. right. exact Ht'.
Qed.

(** X13. [TargetList.validate] changes nothing and warns of nothing when
    every member is a target that the constructor returned, whether or not
    an object is listed twice; and the exception of the first member that
    does not validate is the exception of the list, the members after it
    not being looked at. *)
Theorem validate_members_in_order (front back : list nat)
        (h : list Target) (ws : list warning) :
  (forall t, In t front ->
             exists o a ws0, h !! t = Some o /\ init a = Ok (o, ws0)) ->
  TargetList.validate front h ws = Ok (h, ws) /\
  forall (t : nat) (o : Target) (e : exn),
    h !! t = Some o -> validate o ws = Raise e ->
    TargetList.validate (front ++ t :: back) h ws = Raise e.
Proof.
  intros Hfront. split; [apply validate_constructed; exact Hfront |].
  intros t o e Ho Hbad.
  induction front as [|t0 front IH].
  - cbn [app TargetList.validate]. rewrite Ho, Hbad. reflexivity.
  - destruct (Hfront t0 (or_introl eq_refl)) as (o0 & a & ws0 & Ho0 & Hinit).
    destruct (TargetFacts.init_inv _ _ _ Hinit) as [pre Hpre].
    change ((t0 :: front) ++ t :: back) with (t0 :: (front ++ t :: back)).
    cbn [TargetList.validate]. rewrite Ho0.
    rewrite (TargetFacts.validate_again _ _ _ _ ws _ Hpre).
    rewrite (list_insert_id h t0 o0 Ho0).
    apply IH. intros t' Ht'. apply Hfront. right. exact Ht'.
Qed.

(** X14. An object that is listed twice is repaired once: when [validate]
    puts defaults into a target and warns of them, the second visit of the
    same object finds them there and adds no warning. *)
Theorem validate_listed_twice (t : nat) (h : list Target)
        (o o' : Target) (ws ws' : list warning) :
  h !! t = Some o ->
  validate o ws = Ok (tt, o', ws') ->
  TargetList.validate [t; t] h ws = Ok (<[t := o']> h, ws').
Proof.
  intros Ho Hv. cbn [TargetList.validate]. rewrite Ho, Hv.
  assert (Hlt : (t < length h)%nat) by (eapply lookup_lt_Some; exact Ho).
  rewrite (list_lookup_insert_eq h t o' Hlt).
  rewrite (TargetFacts.validate_again _ _ _ _ ws' _ Hv).
  rewrite list_insert_insert_eq. reflexivity.
Qed.

(** ** set_obstime *)




End Facts.

(** ** The properties at concrete lists *)

(** The list of the target [Target(name='a', RA=10.5, Dec=-20)] twice
    validates as it is; with a second object that has lost its name at the
    third place, the list fails on it. *)
Lemma validate_members_in_order_witness :
  exists (o : Target) (ws0 : list warning),
    init Terms.named_args = Ok (o, ws0) /\
    TargetList.validate [0; 0]%nat [o; set_name None o] []
      = Ok ([o; set_name None o], []) /\
    TargetList.validate [0; 0; 1; 0]%nat [o; set_name None o] []
      = Raise (TargetError "name is required").
Proof.
  destruct (init Terms.named_args) as [[o ws0] | e] eqn:Hi;
    [| vm_compute in Hi; discriminate Hi].
  exists o, ws0. split; [reflexivity |].
  assert (Hfront : forall t, In t [0; 0]%nat ->
            exists o' a ws',
              [o; set_name None o] !! t = Some o' /\ init a = Ok (o', ws')).
  { intros t [<- | [<- | []]]; exists o, Terms.named_args, ws0;
      (split; [reflexivity | exact Hi]). }
  destruct (validate_members_in_order [0; 0]%nat [0%nat]
              [o; set_name None o] [] Hfront) as [Hok Hbad].
  split; [exact Hok |].
  exact (Hbad 1%nat (set_name None o) _ eq_refl eq_refl).
Defined.

(** A target without a rotmode, listed twice: one warning. *)
Lemma validate_listed_twice_witness :
  TargetList.validate [0; 0]%nat [set_rotmode None (Terms.moving 0 0)] []
  = Ok ([Terms.moving 0 0],
        [TargetWarning "No rotator mode given, assuming PA mode"]).
Proof.
  exact (validate_listed_twice 0 [set_rotmode None (Terms.moving 0 0)]
           _ (Terms.moving 0 0) [] _ eq_refl eq_refl).
Defined.


End TargetListFacts.

(** * Properties of description records *)

Module RecordsFacts.
Import Target Records RecordsSpec.

(** ** Dictionaries *)

Lemma dict_get_skip {V : Type} (pre l : list (string * V)) (k : string) :
  ~ In k (dict_keys pre) -> dict_get (pre ++ l) k = dict_get l k.
Proof.
  induction pre as [|[k' v'] pre IH]; intros Hk; [reflexivity |].
  cbn [app dict_get]. destruct (String.eqb k k') eqn:He.
  - apply String.eqb_eq in He. exfalso. apply Hk. left.
    symmetry. exact He.
  - apply IH. intros Hin. apply Hk. right. exact Hin.
Qed.

Lemma dict_set_new {V : Type} (d : list (string * V)) (k : string) (v : V) :
  ~ In k (dict_keys d) -> dict_set d k v = d ++ [(k, v)].
Proof.
  induction d as [|[k' v'] d IH]; intros Hk; [reflexivity |].
  cbn [dict_set app]. destruct (String.eqb k k') eqn:He.
  - apply String.eqb_eq in He. exfalso. apply Hk. left.
    symmetry. exact He.
  - f_equal. apply IH. intros Hin. apply Hk. right. exact Hin.
Qed.

Lemma dict_keys_set {V : Type} (d : list (string * V)) (k : string)
      (v : V) :
  (In k (dict_keys d) -> dict_keys (dict_set d k v) = dict_keys d) /\
  (~ In k (dict_keys d) -> dict_keys (dict_set d k v) = dict_keys d ++ [k]).
Proof.
  induction d as [|[k' v'] d [IHin IHout]].
  - split; [intros [] | reflexivity].
  - cbn [dict_set]. destruct (String.eqb k k') eqn:He.
    + apply String.eqb_eq in He. subst k'.
      split; [reflexivity |]. intros Hnot. exfalso. apply Hnot.
      left. reflexivity.
    + apply String.eqb_neq in He.
      change (dict_keys ((k', v') :: dict_set d k v))
        with (k' :: dict_keys (dict_set d k v)).
      change (dict_keys ((k', v') :: d)) with (k' :: dict_keys d).
      split.
      * intros [Heq | Hin]; [congruence |]. rewrite (IHin Hin). reflexivity.
      * intros Hnot. rewrite IHout; [reflexivity |].
        intros Hin. apply Hnot. right. exact Hin.
Qed.

(** ** Magnitudes *)

Lemma given_mags_app (m1 m2 : list (string * option Q)) :
  given_mags (m1 ++ m2) = given_mags m1 ++ given_mags m2.
Proof.
  induction m1 as [|[b [v |]] m1 IH]; cbn [app given_mags];
    [reflexivity | rewrite IH; reflexivity | exact IH].
Qed.

Lemma given_mags_keys (m : list (string * option Q)) (b : string) :
  In b (dict_keys (given_mags m)) -> In b (dict_keys m).
Proof.
  induction m as [|[b' [v |]] m IH]; cbn [given_mags]; [intros [] | |].
  - intros [Heq | Hin]; [left; exact Heq | right; exact (IH Hin)].
  - intros Hin. right. exact (IH Hin).
Qed.

Lemma non_null_mags_steps (mag pre rest : list (string * option Q)) :
  mag = pre ++ rest -> NoDup (dict_keys mag) ->
  fold_left
    (fun mags band =>
       match dict_get mag band with
       | Some (Some v) => dict_set mags band v
       | _ => mags
       end)
    (dict_keys rest) (given_mags pre)
  = given_mags mag.
Proof.
  revert pre. induction rest as [|[b ov] rest IH]; intros pre Hmag Hnd.
  - rewrite app_nil_r in Hmag. subst pre. reflexivity.
  - cbn [dict_keys map fst fold_left].
    assert (Hfresh : ~ In b (dict_keys pre)).
    { subst mag. unfold dict_keys in Hnd |- *. rewrite map_app in Hnd.
      apply NoDup_app in Hnd. destruct Hnd as (_ & Hdisj & _).
      intros Hin. apply (Hdisj b); [apply list_elem_of_In; exact Hin |].
      apply list_elem_of_In. left. reflexivity. }
    assert (Hget : dict_get mag b = Some ov).
    { subst mag. rewrite (dict_get_skip pre _ b Hfresh).
      cbn [dict_get]. rewrite String.eqb_refl. reflexivity. }
    rewrite Hget.
    assert (Hnext : mag = (pre ++ [(b, ov)]) ++ rest)
      by (rewrite <- app_assoc; exact Hmag).
    specialize (IH (pre ++ [(b, ov)]) Hnext Hnd).
    rewrite given_mags_app in IH. destruct ov as [v |].
    + rewrite dict_set_new; [exact IH |].
      intros Hin. apply Hfresh. exact (given_mags_keys _ _ Hin).
    + cbn [given_mags] in IH. rewrite app_nil_r in IH. exact IH.
Qed.

Lemma non_null_mags_keeps_given_aux (mag : list (string * option Q)) :
  NoDup (dict_keys mag) ->
  non_null_mags mag = given_mags mag.
Proof.
  intros Hnd. exact (non_null_mags_steps mag [] mag eq_refl Hnd).
Qed.

(** X16. For a magnitude dictionary (no band twice), [to_dict] keeps
    exactly the bands that have a magnitude, with it and in the order of
    the dictionary; a band whose magnitude is [None] is left out. *)
Theorem non_null_mags_keeps_given (mag : list (string * option Q)) :
  NoDup (dict_keys mag) ->
  non_null_mags mag = given_mags mag.
Proof.
  intros Hnd. exact (non_null_mags_steps mag [] mag eq_refl Hnd).
Qed.

(** The default dictionary has no magnitude; one with V and K has two. *)
Lemma non_null_mags_keeps_given_witness :
  NoDup (dict_keys default_mag) /\
  non_null_mags default_mag = [] /\
  non_null_mags [("B", None); ("V", Some (21 # 2)); ("K", Some 8%Q)]
  = [("V", 21 # 2); ("K", 8%Q)].
Proof.
  split; [| split].
  - apply NoDup_ListNoDup. vm_compute.
    repeat (constructor; [intros Hin; simpl in Hin; intuition discriminate |]).
    constructor.
  - reflexivity.
  - apply (non_null_mags_keeps_given
             [("B", None); ("V", Some (21 # 2)); ("K", Some 8%Q)]).
    apply NoDup_ListNoDup.
    repeat (constructor; [intros Hin; simpl in Hin; intuition discriminate |]).
    constructor.
Defined.

Lemma non_null_mags_nodup (mag : list (string * option Q)) :
  NoDup (dict_keys (non_null_mags mag)).
Proof.
  unfold non_null_mags.
  assert (Hgen : forall bands acc,
             NoDup (dict_keys acc) ->
             NoDup (dict_keys
                      (fold_left
                         (fun mags band =>
                            match dict_get mag band with
                            | Some (Some v) => dict_set mags band v
                            | _ => mags
                            end) bands acc))).
  { induction bands as [|b bands IH]; intros acc Hacc; [exact Hacc |].
    cbn [fold_left]. apply IH.
    destruct (dict_get mag b) as [[v |] |]; try exact Hacc.
    destruct (dict_keys_set acc b v) as [Hsame Hnew].
    destruct (in_dec string_dec b (dict_keys acc)) as [Hin | Hin];
      [rewrite (Hsame Hin); exact Hacc |].
    rewrite (Hnew Hin).
    apply NoDup_app. split; [exact Hacc |]. split.
    - intros x Hx Hb. apply list_elem_of_In in Hx, Hb.
      destruct Hb as [<- | []]. contradiction.
    - apply NoDup_singleton. }
  apply Hgen. constructor.
Qed.

Lemma given_all_given (mags : list (string * Q)) :
  given_mags (all_given mags) = mags.
Proof.
  induction mags as [|[b v] mags IH]; [reflexivity |].
  cbn [all_given map given_mags]. f_equal. exact IH.
Qed.

Lemma keys_all_given (mags : list (string * Q)) :
  dict_keys (all_given mags) = dict_keys mags.
Proof.
  induction mags as [|[b v] mags IH]; [reflexivity |].
  cbn [all_given map dict_keys fst]. f_equal. exact IH.
Qed.

(** What [to_dict] wrote is what it writes for what was read. *)
Lemma non_null_mags_again (mag : list (string * option Q)) :
  non_null_mags (all_given (non_null_mags mag)) = non_null_mags mag.
Proof.
  rewrite non_null_mags_keeps_given_aux, given_all_given; [reflexivity |].
  rewrite keys_all_given. apply non_null_mags_nodup.
Qed.

Section Collaborators.
Context `{AstropyOut} `{Storage}.

(** ** The record of a validated target, read back *)

(** The constructor call that [read] makes on the record of a validated
    target: what it stores. *)
Lemma read_back (o : Target) (k k' : nat) (d : TDL) :
  validated o ->
  to_dict o k = Ok (d, k') ->
  init (read_args (loaded_of d)) =
    Ok ({| name := name o;
           RA := Some (Num (d_RA d));
           Dec := Some (Num (d_Dec d));
           equinox := Bound (Some (if String.eqb (d_frame d) "icrs"
                                   then 2000%Q else d_equinox d));
           frame := Some (d_frame d);
           rotmode := rotmode o;
           PA := PA o;
           RAOffset := RAOffset o;
           DecOffset := DecOffset o;
           objecttype := objecttype o;
           acquisition := acquisition o;
           PMRA := PMRA o;
           PMDec := PMDec o;
           epoch := Some (d_epoch d);
           obstime := option_map ObsNum (d_obstime d);
           mag := all_given (non_null_mags (mag o));
           comment := comment o |}, []).
Proof.
  intros (pre & ws & ws' & Hv) Hd.
  destruct (TargetFacts.validate_post _ _ _ _ _ Hv)
    as ((n & Hn) & _ & _ & _ & (r & Hr & Hrv) & (p & Hp & Hlo & Hhi)
        & (m & Hm & Hmv) & (ot & Hot & Hotv)).
  unfold to_dict in Hd.
  destruct (coord o k) as [[sc k1] | err]; cbn [res_bind] in Hd;
    [| discriminate].
  injection Hd as <- <-.
  rewrite (TargetFacts.init_stored _ (Some (Num (ra_deg sc)))
             (Some (Num (dec_deg sc))));
    [| right; left; discriminate | reflexivity].
  unfold stored_equinox.
  cbn [frame_is read_args loaded_of arg_name arg_RA arg_Dec arg_equinox arg_frame
       arg_rotmode arg_PA arg_RAOffset arg_DecOffset arg_objecttype
       arg_acquisition arg_PMRA arg_PMDec arg_epoch arg_obstime arg_mag
       arg_comment l_name l_RA l_Dec l_equinox l_epoch l_frame l_rotmode
       l_PA l_RAOffset l_DecOffset l_objecttype l_acquisition l_PMRA
       l_PMDec l_obstime l_mag l_comment d_name d_RA d_Dec d_equinox
       d_epoch d_frame d_rotmode d_PA d_RAOffset d_DecOffset d_objecttype
       d_acquisition d_PMRA d_PMDec d_obstime d_mag d_comment].
  destruct (String.eqb (frame_name sc) "icrs");
  erewrite (TargetFacts.validate_ok _ [] n (Num (ra_deg sc))
              (Num (dec_deg sc)));
    [| cbn [name RA Dec equinox rotmode PA acquisition objecttype];
       try eassumption; try reflexivity ..].
  all: try (cbn [name RA Dec equinox rotmode PA acquisition objecttype
                 set_rotmode set_PA set_acquisition set_objecttype];
            rewrite Hr, Hp, Hm, Hot; reflexivity).
  all: try (rewrite Hr; exact Hrv).
  all: try (rewrite Hm; exact Hmv).
  all: try (rewrite Hot; exact Hotv).
  all: rewrite Hp; cbn [omitted_or_in_range]; rewrite Hlo, Hhi;
    reflexivity.
Qed.

Lemma record_is_accepted_aux (o : Target) (k k' : nat) (d : TDL) :
  validated o ->
  to_dict o k = Ok (d, k') ->
  exists o' : Target,
    init (read_args (loaded_of d)) = Ok (o', []) /\ same_attributes o o'.
Proof.
  intros Hval Hd. pose proof (read_back o k k' d Hval Hd) as Hinit.
  eexists. split; [exact Hinit |]. repeat split; reflexivity.
Qed.

(** The numbers of a record are read off the coordinate that [coord]
    returns; its equinox and epoch are the Besselian years of the
    coordinate's equinox and obstime. *)
Lemma record_years_are_besselian (o : Target) (k k' : nat) (d : TDL) :
  to_dict o k = Ok (d, k') ->
  exists sc : SkyCoord,
    coord o k = Ok (sc, k') /\
    d_RA d = ra_deg sc /\ d_Dec d = dec_deg sc /\
    d_frame d = frame_name sc /\
    d_equinox d = equinox_byear sc /\ d_epoch d = obstime_byear sc.
Proof.
  unfold to_dict. intros Hd.
  destruct (coord o k) as [[sc k1] | err]; cbn [res_bind] in Hd;
    [| discriminate].
  injection Hd as <- <-. exists sc. repeat split; reflexivity.
Qed.

(** X17. The record that [to_dict] gives for a validated target is accepted
    by the constructor call of [read], without a warning: the new target has
    the name, rotmode, PA, offsets, object type, acquisition, proper motion
    and comment of the old one, the RA, Dec, frame and epoch that the record
    holds, the equinox of the record unless the frame is icrs, in which case
    2000, and it is itself a validated target. *)
Theorem record_is_accepted (o : Target) (k k' : nat) (d : TDL) :
  validated o ->
  to_dict o k = Ok (d, k') ->
  exists o' : Target,
    init (read_args (loaded_of d)) = Ok (o', []) /\
    same_attributes o o' /\
    RA o' = Some (Num (d_RA d)) /\ Dec o' = Some (Num (d_Dec d)) /\
    frame o' = Some (d_frame d) /\ epoch o' = Some (d_epoch d) /\
    equinox o' = Bound (Some (if String.eqb (d_frame d) "icrs"
                              then 2000%Q else d_equinox d)) /\
    obstime o' = option_map ObsNum (d_obstime d) /\
    validated o'.
Proof.
  intros Hval Hd. pose proof (read_back o k k' d Hval Hd) as Hinit.
  eexists. split; [exact Hinit |].
  split; [repeat split; reflexivity |].
  repeat split; try reflexivity.
  destruct (TargetFacts.init_inv _ _ _ Hinit) as [pre Hpre].
  exists pre, [], []. exact Hpre.
Qed.

(** X18. Writing the record of a validated target, reading it back and
    writing the record of the new target gives the same values under the
    keys name, rotmode, PA, RAOffset, DecOffset, objecttype, acquisition,
    PMRA, PMDec, obstime, mag and comment. The other five keys (RA, Dec,
    equinox, epoch, frame) are what the coordinate library computes from
    the values read. *)
Theorem record_policy_is_stable (o o' : Target) (ws : list warning)
        (k k' k2 k3 : nat) (d d' : TDL) :
  validated o ->
  to_dict o k = Ok (d, k') ->
  init (read_args (loaded_of d)) = Ok (o', ws) ->
  to_dict o' k2 = Ok (d', k3) ->
  same_policy d d'.
Proof.
  intros Hval Hd Hinit Hd'.
  rewrite (read_back o k k' d Hval Hd) in Hinit. injection Hinit as <- _.
  unfold to_dict in Hd, Hd'.
  destruct (coord o k) as [[sc k1] | err]; cbn [res_bind] in Hd;
    [| discriminate].
  injection Hd as <- <-.
  match type of Hd' with
  | res_bind ?x _ = _ => destruct x as [[sc' k1'] | err]
  end; cbn [res_bind] in Hd'; [| discriminate].
  injection Hd' as <- _.
  unfold same_policy.
  cbn [d_name d_rotmode d_PA d_RAOffset d_DecOffset d_objecttype
       d_acquisition d_PMRA d_PMDec d_obstime d_mag d_comment
       name rotmode PA RAOffset DecOffset objecttype acquisition PMRA PMDec
       obstime mag comment].
  repeat split; try reflexivity.
  - destruct (obstime o) as [[y | t] |]; reflexivity.
  - apply non_null_mags_again.
Qed.

(** ** Files *)

Lemma validate_all_validated (data : list nat) (h h' : list Target)
      (ws ws' : list warning) :
  TargetList.validate data h ws = Ok (h', ws') ->
  length h' = length h /\
  (forall l, ~ In l data -> h' !! l = h !! l) /\
  (forall t, In t data -> exists o, h' !! t = Some o /\ validated o).
Proof.
  revert h ws. induction data as [|t data IH]; intros h ws Hrun.
  - injection Hrun as <- <-. split; [reflexivity |].
    split; [reflexivity | intros t []].
  - cbn [TargetList.validate] in Hrun.
    destruct (h !! t) as [o |] eqn:Ho; [| discriminate].
    destruct (validate o ws) as [[[[] o1] ws1] | err] eqn:Hv;
      [| discriminate].
    destruct (IH _ _ Hrun) as (Hlen & Hout & Hin).
    rewrite length_insert in Hlen. split; [exact Hlen |].
    assert (Hlt : (t < length h)%nat) by (eapply lookup_lt_Some; exact Ho).
    split.
    + intros l Hnot.
      rewrite Hout by (intros Hl; apply Hnot; right; exact Hl).
      apply list_lookup_insert_ne. intros ->. apply Hnot. left. reflexivity.
    + intros t' [<- | Hlater]; [| exact (Hin t' Hlater)].
      destruct (in_dec Nat.eq_dec t data) as [Hlater | Hnot];
        [exact (Hin t Hlater) |].
      exists o1. split.
      * rewrite (Hout t Hnot). apply list_lookup_insert_eq. exact Hlt.
      * exists o, ws, ws1. exact Hv.
Qed.

Lemma to_dicts_members (data : list nat) (h : list Target) (k k' : nat)
      (ds : list TDL) :
  to_dicts data h k = Ok (ds, k') ->
  Forall2 (fun t d => exists o ka kb,
               h !! t = Some o /\ to_dict o ka = Ok (d, kb)) data ds.
Proof.
  revert k k' ds. induction data as [|t data IH]; intros k k' ds Hrun.
  - injection Hrun as <- _. constructor.
  - cbn [to_dicts] in Hrun.
    destruct (h !! t) as [o |] eqn:Ho; [| discriminate].
    destruct (to_dict o k) as [[d k1] | err] eqn:Hd; cbn [res_bind] in Hrun;
      [| discriminate].
    destruct (to_dicts data h k1) as [[ds' k2] | err] eqn:Hrest;
      cbn [res_bind] in Hrun; [| discriminate].
    injection Hrun as <- _. constructor; [| exact (IH _ _ _ Hrest)].
    exists o, k, k1. split; [exact Ho | exact Hd].
Qed.

Lemma construct_all_accepted (ds : list Loaded) (h : list Target)
      (ws : list warning) :
  Forall (fun d => exists o', init (read_args d) = Ok (o', [])) ds ->
  exists (data' : list nat) (new : list Target),
    construct_all ds h ws = Ok (data', h ++ new, ws) /\
    length new = length ds /\
    Forall2 (fun d t' => exists o', (h ++ new) !! t' = Some o' /\
                                    init (read_args d) = Ok (o', []))
      ds data'.
Proof.
  intros Hall. revert h. induction Hall as [|d ds (o' & Ho') _ IH]; intros h.
  - exists [], []. rewrite app_nil_r.
    split; [reflexivity |]. split; [reflexivity | constructor].
  - cbn [construct_all]. rewrite Ho'. rewrite app_nil_r.
    destruct (IH (h ++ [o'])) as (data' & new & Hrun & Hlen & Hmem).
    rewrite Hrun. cbn [res_bind].
    exists (length h :: data'), (o' :: new).
    rewrite <- app_assoc in *. cbn [app] in *.
    split; [reflexivity |]. split; [cbn [length]; rewrite Hlen; reflexivity |].
    constructor; [| exact Hmem].
    exists o'. split; [| exact Ho'].
    apply list_lookup_middle. reflexivity.
Qed.

Lemma Forall2_through {A B C : Type} (P : A -> B -> Prop)
      (Q : B -> C -> Prop) (l1 : list A) (l2 : list B) (l3 : list C) :
  Forall2 P l1 l2 -> Forall2 Q l2 l3 ->
  Forall2 (fun a c => exists b, P a b /\ Q b c) l1 l3.
Proof.
  intros H12. revert l3. induction H12 as [|a b l1 l2 Hab _ IH]; intros l3 H23.
  - inversion H23. constructor.
  - inversion H23 as [|b' c l2' l3' Hbc Hrest]; subst.
    constructor; [exists b; split; assumption | exact (IH _ Hrest)].
Qed.

Lemma Forall2_members {A B : Type} (P Q : A -> B -> Prop)
      (l1 : list A) (l2 : list B) :
  Forall2 P l1 l2 ->
  (forall a b, In a l1 -> P a b -> Q a b) ->
  Forall2 Q l1 l2.
Proof.
  induction 1 as [|a b l1 l2 Hab _ IH]; intros Himp; constructor.
  - apply Himp; [left; reflexivity | exact Hab].
  - apply IH. intros a' b' Hin. apply Himp. right. exact Hin.
Qed.

Lemma Forall2_right {A B : Type} (P : A -> B -> Prop) (Q : B -> Prop)
      (l1 : list A) (l2 : list B) :
  Forall2 P l1 l2 -> (forall a b, P a b -> Q b) -> Forall Q l2.
Proof.
  induction 1 as [|a b l1 l2 Hab _ IH]; intros Himp; constructor.
  - exact (Himp a b Hab).
  - exact (IH Himp).
Qed.

(** X19. When loading inverts dumping, a list that has been written can be
    read back from the same path: [read] returns as many targets as were
    written, all of them new objects added after the existing ones, emits no
    warning and does not read the clock; the target read in the place of a
    written one has its name, rotmode, PA, offsets, object type,
    acquisition, proper motion and comment, and the magnitudes that are not
    [None]. [write] changes no other path. *)
Theorem read_after_write (data : list nat) (file : string) (w w1 : world) :
  (forall ds : list TDL, yaml_safe_load (yaml_dump ds) = Ok (map loaded_of ds)) ->
  write data file w = Ok w1 ->
  (forall q : string, q <> absolute file -> disk w1 q = disk w q) /\
  exists (data' : list nat) (w2 : world) (new : list Target),
    read file w1 = Ok (data', w2) /\
    length data' = length data /\
    targets w2 = targets w1 ++ new /\ length new = length data /\
    warnings w2 = warnings w1 /\ clock w2 = clock w1 /\
    Forall2 (fun t t' => exists o o',
                 targets w1 !! t = Some o /\ targets w2 !! t' = Some o' /\
                 same_attributes o o') data data'.
Proof.
  intros Hyaml Hwrite. unfold write in Hwrite.
  destruct (TargetList.validate data (targets w) (warnings w))
    as [[h ws] | err] eqn:Hval; cbn [res_bind] in Hwrite; [| discriminate].
  destruct (to_dicts data h (clock w)) as [[ds k] | err] eqn:Hds;
    cbn [res_bind] in Hwrite; [| discriminate].
  injection Hwrite as <-. cbn [disk targets warnings clock].
  split.
  { intros q Hq. unfold write_file. apply String.eqb_neq in Hq.
    rewrite Hq. reflexivity. }
  destruct (validate_all_validated _ _ _ _ _ Hval) as (_ & _ & Hmembers).
  pose proof (to_dicts_members _ _ _ _ _ Hds) as Hrecords.
  assert (Hgood :
    Forall2 (fun t d => exists o ka kb,
                 h !! t = Some o /\ validated o /\
                 to_dict o ka = Ok (d, kb)) data ds).
  { apply (Forall2_members _ _ _ _ Hrecords).
    intros t d Ht (o & ka & kb & Ho & Hd).
    destruct (Hmembers t Ht) as (o1 & Ho1 & Hv1).
    assert (o1 = o) by congruence. subst o1. eauto 8. }
  assert (Hacc :
    Forall (fun l => exists o', init (read_args l) = Ok (o', []))
      (map loaded_of ds)).
  { apply Forall_fmap.
    apply (Forall2_right _ _ _ _ Hgood).
    intros t d (o & ka & kb & _ & Hv & Hd).
    destruct (record_is_accepted_aux o ka kb d Hv Hd) as (o' & Hinit & _).
    exists o'. exact Hinit. }
  destruct (construct_all_accepted (map loaded_of ds) h ws Hacc)
    as (data' & new & Hrun & Hlen & Hnew).
  unfold read. cbn [disk targets warnings clock].
  unfold write_file at 1. rewrite String.eqb_refl.
  rewrite Hyaml. cbn [res_bind]. rewrite Hrun. cbn [res_bind].
  rewrite length_map in Hlen.
  assert (Hsame : length ds = length data)
    by (symmetry; exact (Forall2_length _ _ _ Hgood)).
  eexists _, _, new. split; [reflexivity |]. cbn [targets warnings clock].
  split; [rewrite <- Hsame, <- (length_map loaded_of ds);
          symmetry; exact (Forall2_length _ _ _ Hnew) |].
  split; [reflexivity |]. split; [congruence |].
  split; [reflexivity |]. split; [reflexivity |].
  apply Forall2_fmap_l in Hnew.
  pose proof (Forall2_through _ _ _ _ _ Hgood Hnew) as Hboth.
  eapply Forall2_impl; [exact Hboth |].
  intros t t' (d & (o & ka & kb & Ho & Hv & Hd) & (o' & Ho' & Hinit)).
  exists o, o'. split; [exact Ho |]. split; [exact Ho' |].
  destruct (record_is_accepted_aux o ka kb d Hv Hd) as (o1 & Hinit1 & Hattr).
  assert (o1 = o') by congruence. subst o1. exact Hattr.
Qed.

End Collaborators.

(** ** The years of a record *)

(** C2. The records of a list that has been written and read back are not
    those of the list that was written. [to_dict] writes the equinox and
    the epoch as Besselian years ([byear]) and the constructor that [read]
    calls takes them as decimal years, as the class documents them. For a
    target with proper motion 0.1, 0.1 arcseconds a year, epoch 2000 and
    obstime 2020, a library in which the two years differ (here by 0.0013)
    and a moved coordinate has moved gives RA 18901/1800 in the record of
    the target written, and 18901/1800 - 13/360000000 in the record of the
    target read back: the coordinate is moved again, from the year
    2020.0013 to 2020. Dec and epoch differ as well. *)
Theorem write_read_changes_record :
  exists (w1 w2 : world) (o o' : Target) (d d' : TDL) (k k' : nat),
    @write Terms.astropy drifting_out sample_storage [0%nat] "targets.yaml"
      sample_world = Ok w1 /\
    read "targets.yaml" w1 = Ok ([1%nat], w2) /\
    targets w2 !! 0%nat = Some o /\ targets w2 !! 1%nat = Some o' /\
    @to_dict Terms.astropy drifting_out o (clock w2) = Ok (d, k) /\
    @to_dict Terms.astropy drifting_out o' (clock w2) = Ok (d', k') /\
    (d_RA d == 18901 # 1800)%Q /\
    (d_RA d' == (18901 # 1800) - (13 # 360000000))%Q /\
    ~ (d_RA d' == d_RA d)%Q /\
    ~ (d_Dec d' == d_Dec d)%Q /\
    (d_epoch d == 2020 + (13 # 10000))%Q /\
    (d_epoch d' == 2020 + (13 # 10000))%Q /\
    epoch o = Some 2000%Q /\
    (exists y : Q, epoch o' = Some y /\ (y == 2020 + (13 # 10000))%Q) /\
    same_policy d d'.
Proof.
  eexists _, _, _, _, _, _, _, _.
  split; [vm_compute; reflexivity |].
  split; [vm_compute; reflexivity |].
  split; [vm_compute; reflexivity |].
  split; [vm_compute; reflexivity |].
  split; [vm_compute; reflexivity |].
  split; [vm_compute; reflexivity |].
  split; [vm_compute; reflexivity |].
  split; [vm_compute; reflexivity |].
  split; [vm_compute; intros Heq; discriminate Heq |].
  split; [vm_compute; intros Heq; discriminate Heq |].
  split; [vm_compute; reflexivity |].
  split; [vm_compute; reflexivity |].
  split; [vm_compute; reflexivity |].
  split; [eexists; split; [vm_compute; reflexivity | vm_compute; reflexivity] |].
  vm_compute. repeat split; reflexivity.
Qed.

(** ** The properties at a concrete target and a concrete file *)

(** The record of a moving target, read back. *)
Lemma record_is_accepted_witness :
  exists (d : TDL) (k' : nat) (o' : Target),
    @to_dict Terms.astropy sample_out (Terms.moving (1 # 10) (1 # 10)) 0
      = Ok (d, k') /\
    init (read_args (loaded_of d)) = Ok (o', []) /\
    same_attributes (Terms.moving (1 # 10) (1 # 10)) o' /\
    validated o'.
Proof.
  assert (Hval : validated (Terms.moving (1 # 10) (1 # 10))).
  { exists (Terms.moving (1 # 10) (1 # 10)), [], []. reflexivity. }
  destruct (@to_dict Terms.astropy sample_out
              (Terms.moving (1 # 10) (1 # 10)) 0)
    as [[d k'] | e] eqn:Hd; [| vm_compute in Hd; discriminate Hd].
  destruct (@record_is_accepted Terms.astropy sample_out _ _ _ _ Hval Hd)
    as (o' & Hinit & Hattr & _ & _ & _ & _ & _ & _ & Hv').
  exists d, k', o'. repeat split; try assumption; apply Hattr.
Defined.

(** The record of a moving target, that of the target read back from it,
    and what they agree on. *)
Lemma record_policy_is_stable_witness :
  exists (d d' : TDL) (o' : Target) (ws : list warning) (k' k3 : nat),
    @to_dict Terms.astropy sample_out (Terms.moving (1 # 10) (1 # 10)) 0
      = Ok (d, k') /\
    init (read_args (loaded_of d)) = Ok (o', ws) /\
    @to_dict Terms.astropy sample_out o' 0 = Ok (d', k3) /\
    same_policy d d'.
Proof.
  assert (Hval : validated (Terms.moving (1 # 10) (1 # 10))).
  { exists (Terms.moving (1 # 10) (1 # 10)), [], []. reflexivity. }
  destruct (@to_dict Terms.astropy sample_out
              (Terms.moving (1 # 10) (1 # 10)) 0)
    as [[d k'] | e] eqn:Hd; [| vm_compute in Hd; discriminate Hd].
  destruct (@init Terms.astropy (read_args (loaded_of d))) as [[o' ws] | e] eqn:Hinit.
  - destruct (@to_dict Terms.astropy sample_out o' 0)
      as [[d' k3] | e] eqn:Hd'.
    + exists d, d', o', ws, k', k3.
      split; [first [reflexivity | exact Hd] |].
      split; [first [reflexivity | exact Hinit] |].
      split; [first [reflexivity | exact Hd'] |].
      exact (@record_policy_is_stable Terms.astropy sample_out _ _ _ _ _ _ _
               _ _ Hval Hd Hinit Hd').
    + exfalso. vm_compute in Hd. injection Hd as <- <-.
      vm_compute in Hinit. injection Hinit as <- <-.
      vm_compute in Hd'. discriminate Hd'.
  - exfalso. vm_compute in Hd. injection Hd as <- <-.
    vm_compute in Hinit. discriminate Hinit.
Defined.

(** A list that has a moving target twice, written to [targets.yaml] and
    read back. *)
Lemma read_after_write_witness :
  exists (w1 w2 : world) (data' : list nat),
    @write Terms.astropy sample_out sample_storage [0; 0]%nat
      "targets.yaml" sample_world = Ok w1 /\
    read "targets.yaml" w1 = Ok (data', w2) /\
    length data' = 2%nat /\
    warnings w2 = warnings w1 /\ clock w2 = clock w1.
Proof.
  destruct (@write Terms.astropy sample_out sample_storage [0; 0]%nat
              "targets.yaml" sample_world)
    as [w1 | e] eqn:Hw; [| vm_compute in Hw; discriminate Hw].
  destruct (@read_after_write Terms.astropy sample_out sample_storage
              [0; 0]%nat "targets.yaml" sample_world w1
              (fun ds => eq_refl) Hw)
    as (_ & data' & w2 & new & Hread & Hlen & _ & _ & Hws & Hclock & _).
  exists w1, w2, data'. split; [first [reflexivity | exact Hw] |].
  split; [exact Hread |]. split; [exact Hlen |].
  split; [exact Hws | exact Hclock].
Defined.

End RecordsFacts.
